(** * install-deps.py: the dependency installer of the Zephyr framework package

    A shallow embedding of [scripts/platformio/install-deps.py] and the
    properties of its manifest reconciliation: project filter, remote URL
    resolver, commit-hash classification, clone protocol, drift handling,
    fail-fast clean-up and state persistence.

    Conventions of the model
    - Python dictionaries are association lists kept in insertion order
      ([dict_set] updates in place or appends, as a [dict] does).
    - A YAML/JSON mapping with optional keys is a record whose optional keys
      are [option] fields; [d["k"]] on a missing key raises [KeyError].
    - Effects (file system, subprocesses, output) are threaded through a
      state-and-exception monad [M] over a [world]; [sys.exit] is the
      outcome [Exit]; [assert] statements are executed (no [-O]).
    - The host is POSIX: [os.path] is [posixpath], paths are resolved
      lexically (no symbolic links), and the only regular file of interest
      below the package folder is [state.json]. The lexical resolution is
      what the operating system does for a path without a [..] component;
      through a [..] the system also wants, and [os.makedirs] creates, the
      directories that the path passes. The properties that depend on the
      difference are stated for paths without [..].
    - What git writes below its destination directory is not modelled: the
      script only ever probes the destination directory itself. *)

From Stdlib Require Import String Ascii List Bool Arith Lia.
Import ListNotations.
Local Open Scope string_scope.
Local Open Scope list_scope.

(** ** Strings *)

Definition nl : string := String "010"%char EmptyString.

(** [s.startswith(pre)] *)
Definition startswith (pre s : string) : bool := String.prefix pre s.

(** [s[n:]] *)
Fixpoint str_from (n : nat) (s : string) : string :=
  match n, s with
  | O, _ => s
  | S n', String _ s' => str_from n' s'
  | S _, EmptyString => EmptyString
  end.

(** [s.endswith(c)] for a single character [c] *)
Fixpoint ends_with_char (c : ascii) (s : string) : bool :=
  match s with
  | EmptyString => false
  | String a EmptyString => Ascii.eqb a c
  | String _ s' => ends_with_char c s'
  end.

(** [s.replace(a, b)] for single characters *)
Fixpoint replace_char (a b : ascii) (s : string) : string :=
  match s with
  | EmptyString => EmptyString
  | String c s' => String (if Ascii.eqb c a then b else c) (replace_char a b s')
  end.

(** [x in xs] on strings *)
Fixpoint str_in (x : string) (xs : list string) : bool :=
  match xs with
  | [] => false
  | y :: ys => String.eqb x y || str_in x ys
  end.

(** Truthiness of a Python string. *)
Definition truthy (s : string) : bool := negb (String.eqb s EmptyString).

(** ** Dictionaries *)

Definition dict (V : Type) := list (string * V).

Fixpoint dict_get {V} (k : string) (d : dict V) : option V :=
  match d with
  | [] => None
  | (k', v) :: d' => if String.eqb k k' then Some v else dict_get k d'
  end.

(** [d[k] = v]: an existing key keeps its position, a new key goes last. *)
Fixpoint dict_set {V} (k : string) (v : V) (d : dict V) : dict V :=
  match d with
  | [] => [(k, v)]
  | (k', v') :: d' =>
      if String.eqb k k' then (k', v) :: d' else (k', v') :: dict_set k v d'
  end.

(** [{key(x): x for x in xs}] *)
Definition dict_of {V} (key : V -> string) (xs : list V) : dict V :=
  fold_left (fun d x => dict_set (key x) x d) xs [].

(** ** Outcomes *)

Inductive exn : Type :=
| AssertionError (msg : string)
| KeyError (key : string)
| AttributeError (msg : string)
| TypeError (msg : string)
| OSError (msg : string).

(** The Python rendering of [str(e)] is not needed beyond a tag. *)
Definition exn_str (e : exn) : string :=
  match e with
  | AssertionError m => m
  | KeyError k => ("'" ++ k ++ "'")%string
  | AttributeError m => m
  | TypeError m => m
  | OSError m => m
  end.

(** [LookupError] is the base class of [KeyError] and [IndexError]. *)
Definition is_LookupError (e : exn) : bool :=
  match e with
  | KeyError _ => true
  | _ => false
  end.

Inductive outcome (A : Type) : Type :=
| Ret (a : A)
| Raise (e : exn)
| Exit (code : nat).
Arguments Ret {A} a.
Arguments Raise {A} e.
Arguments Exit {A} code.

(** [d[k]] on an optional key. *)
Definition getitem {A} (k : string) (o : option A) : outcome A :=
  match o with
  | Some a => Ret a
  | None => Raise (KeyError k)
  end.

(** ** The manifest *)

Record project_config : Type := {
  name : string;
  path : option string;
  revision : option string;
  url : option string;
  url_base : option string;
  remote : option string;
  repo_path : option string;
  submodules : option bool
}.

Record remote_config : Type := {
  remote_name : string;
  remote_url_base : option string
}.

(** The value of the [manifest] key of west.yml; [defaults_remote] is
    [west_manifest["defaults"]["remote"]] when both keys are there. *)
Record manifest : Type := {
  projects : option (list project_config);
  remotes : option (list remote_config);
  defaults_remote : option string
}.

(** ** Constants of the script *)

Definition IS_WINDOWS : bool := false.

Definition PLATFORMS_WITH_EXTERNAL_HAL : dict (list string) :=
  [ ("atmelsam", ["st"; "atmel"]);
    ("chipsalliance", ["swervolf"]);
    ("freescalekinetis", ["st"; "nxp"]);
    ("ststm32", ["st"; "stm32"]);
    ("siliconlabsefm32", ["st"; "silabs"]);
    ("nordicnrf51", ["st"; "nordic"]);
    ("nordicnrf52", ["st"; "nordic"]);
    ("nxplpc", ["st"; "nxp"]);
    ("nxpimxrt", ["st"; "nxp"]);
    ("teensy", ["st"; "nxp"]) ].

Definition IGNORED_PACKAGES : list string :=
  ["trusted-firmware-m"; "trusted-firmware-a"].

(** [PLATFORMS_WITH_EXTERNAL_HAL.get(platform_name, [])] *)
Definition hal_allow_list (platform_name : string) : list string :=
  match dict_get platform_name PLATFORMS_WITH_EXTERNAL_HAL with
  | Some l => l
  | None => []
  end.

(** ** Pure helpers of the script *)

Definition to_unix_path (p : string) : string :=
  if negb IS_WINDOWS || negb (truthy p) then p
  else replace_char (ascii_of_nat 92) "/"%char p.

Definition is_hex_lower (c : ascii) : bool :=
  let n := nat_of_ascii c in
  ((48 <=? n)%nat && (n <=? 57)%nat) || ((97 <=? n)%nat && (n <=? 102)%nat).

(** [$] without [re.MULTILINE]: the end of the string, or just before a
    newline that is the last character. *)
Definition re_dollar (s : string) : bool :=
  String.eqb s EmptyString || String.eqb s nl.

(** [re.match(r"[0-9a-f]{7,}$", value) is not None], [n] being the number
    of class characters consumed so far: some split of the input into at
    least seven class characters and a rest accepted by [$]. *)
Fixpoint re_match_hash_from (n : nat) (s : string) : bool :=
  ((7 <=? n)%nat && re_dollar s)
  || match s with
     | String c s' => is_hex_lower c && re_match_hash_from (S n) s'
     | EmptyString => false
     end.

Definition is_commit_hash (value : string) : bool :=
  truthy value && re_match_hash_from 0 value.

Definition is_project_required (project_config : project_config)
    (platform_name : string) : outcome bool :=
  let project_name := name project_config in
  if startswith "hal_" project_name
     && negb (str_in (str_from 4 project_name) (hal_allow_list platform_name))
  then Ret false
  else
    match getitem "path" (path project_config) with
    | Ret p =>
        if startswith "tool" p || startswith "nrf_hw_" project_name
        then Ret false
        else Ret true
    | Raise e => Raise e
    | Exit c => Exit c
    end.

(** [remotes = {remote["name"]: remote for remote in ...}] *)
Definition remotes_dict (rs : list remote_config) : dict remote_config :=
  dict_of remote_name rs.

Definition prepare_package_url (remotes : dict remote_config)
    (default_remote_name : string) (package_config : project_config)
    : outcome string :=
  match url package_config with
  | Some _ =>
      match getitem "url-base" (url_base package_config) with
      | Ret remote_url => Ret (remote_url ++ ".git")%string
      | Raise e => Raise e
      | Exit c => Exit c
      end
  | None =>
      (* remotes.get(default_remote_name, str()).get("url-base", str()):
         a missing default remote yields the empty string, which has no
         get method *)
      match dict_get default_remote_name remotes with
      | None => Raise (AttributeError "'str' object has no attribute 'get'")
      | Some r =>
          let remote_url :=
            match remote_url_base r with
            | Some u => u
            | None => EmptyString
            end in
          let overridden :=
            match remote package_config with
            | None => Ret remote_url
            | Some rn =>
                match dict_get rn remotes with
                | None => Raise (KeyError rn)
                | Some r' => getitem "url-base" (remote_url_base r')
                end
            end in
          match overridden with
          | Ret remote_url =>
              Ret (remote_url ++ "/"
                   ++ match repo_path package_config with
                      | Some rp => rp
                      | None => name package_config
                      end
                   ++ ".git")%string
          | Raise e => Raise e
          | Exit c => Exit c
          end
      end
  end.

(** ** Paths and the file system *)

(** [posixpath.join(a, b)] *)
Definition os_path_join (a b : string) : string :=
  if startswith "/" b then b
  else if negb (truthy a) || ends_with_char "/"%char a then (a ++ b)%string
  else (a ++ "/" ++ b)%string.

(** A resolved path: the directory names from the root down. *)
Definition fpath := list string.

(** The pieces of a path string between its slashes. *)
Fixpoint components (s : string) : list string :=
  match s with
  | EmptyString => [EmptyString]
  | String c s' =>
      if Ascii.eqb c "/"%char then EmptyString :: components s'
      else match components s' with
           | h :: t => String c h :: t
           | [] => [String c EmptyString]
           end
  end.

(** One component applied to the reversed path walked so far. *)
Definition walk (stack : list string) (c : string) : list string :=
  if String.eqb c EmptyString || String.eqb c "." then stack
  else if String.eqb c ".." then tl stack
  else c :: stack.

Definition resolve (s : string) : fpath :=
  rev (fold_left walk (components s) []).

Fixpoint fpath_eqb (a b : fpath) : bool :=
  match a, b with
  | [], [] => true
  | x :: a', y :: b' => String.eqb x y && fpath_eqb a' b'
  | _, _ => false
  end.

(** [is_under top p]: [p] is [top] or lies below it. *)
Fixpoint is_under (top p : fpath) : bool :=
  match top, p with
  | [], _ => true
  | x :: top', y :: p' => String.eqb x y && is_under top' p'
  | _ :: _, [] => false
  end.

(** A directory and all its ancestors. *)
Fixpoint ancestors (p : fpath) : list fpath :=
  [] :: match p with
        | [] => []
        | c :: p' => map (cons c) (ancestors p')
        end.

Definition has_dir (p : fpath) (ds : list fpath) : bool :=
  existsb (fpath_eqb p) ds.

(** ** The world *)

Inductive event : Type :=
| EvPrint (s : string)
| EvStderr (s : string)
| EvRun (args : list string) (cwd : option string) (ok : bool)
| EvMakedirs (p : string)
| EvRmtree (p : string)
| EvSaveState (dst_file : string) (state_data : dict string).

(** [dirs]: the directories that exist; [state_json]: the parsed content of
    the state file when it exists; [events]: what the run has done so far,
    oldest first. *)
Record world : Type := {
  dirs : list fpath;
  state_json : option (dict string);
  events : list event
}.

Definition log (e : event) (w : world) : world :=
  {| dirs := dirs w; state_json := state_json w; events := events w ++ [e] |}.

(** ** The monad of the script *)

Definition M (A : Type) : Type := world -> outcome A * world.

Definition ret {A} (a : A) : M A := fun w => (Ret a, w).

Definition bind {A B} (m : M A) (k : A -> M B) : M B :=
  fun w =>
    match m w with
    | (Ret a, w') => k a w'
    | (Raise e, w') => (Raise e, w')
    | (Exit c, w') => (Exit c, w')
    end.

Definition raise {A} (e : exn) : M A := fun w => (Raise e, w).

Definition sys_exit {A} (code : nat) : M A := fun w => (Exit code, w).

Definition lift {A} (o : outcome A) : M A := fun w => (o, w).

(** [try: m except Exception as e: h e]; [SystemExit] passes through. *)
Definition try_except {A} (m : M A) (h : exn -> M A) : M A :=
  fun w =>
    match m w with
    | (Raise e, w') => h e w'
    | r => r
    end.

Declare Scope script_scope.
Delimit Scope script_scope with script.
Notation "x <- m ;; k" := (bind m (fun x => k))
  (at level 61, m at next level, right associativity) : script_scope.
Notation "m ;; k" := (bind m (fun _ => k))
  (at level 61, right associativity) : script_scope.
Local Open Scope script_scope.

Definition emit (e : event) : M unit := fun w => (Ret tt, log e w).
Definition print (s : string) : M unit := emit (EvPrint s).
Definition stderr_write (s : string) : M unit := emit (EvStderr s).

(** [if c: m] *)
Definition when (c : bool) (m : M unit) : M unit := if c then m else ret tt.

(** [assert c, msg] *)
Definition assert (c : bool) (msg : string) : M unit :=
  if c then ret tt else raise (AssertionError msg).

(** [str(x)] for an optional string ([None] prints as its name). *)
Definition py_str (o : option string) : string :=
  match o with
  | Some s => s
  | None => "None"
  end.

(** [repr] of a list of strings (for strings free of quotes). *)
Definition py_repr_list (l : list string) : string :=
  ("[" ++ String.concat ", " (map (fun a => "'" ++ a ++ "'") l) ++ "]")%string.

Definition opt_eqb (a b : option string) : bool :=
  match a, b with
  | Some x, Some y => String.eqb x y
  | None, None => true
  | _, _ => false
  end.

(** ** The script *)

(** One entry of the list [modified] of [process_bundled_projects]. *)
Record modified_entry : Type := {
  m_name : string;
  m_state_hash : string;
  m_west_revision : option string;
  m_path : option string
}.

(** What [load_west_manifest] finds at the manifest path. *)
Inductive manifest_file : Type :=
| NoManifestFile (manifest_path : string)
| BadYaml (manifest_path : string) (exc : string)
| ManifestDoc (west_manifest : manifest).

(** The result of one turn of the installation loop: go on with the next
    project, or [return False, result]. *)
Inductive turn : Type :=
| Continue (result : dict string)
| ReturnFalse (result : dict string).

(** The environment of a run. *)
Record env : Type := {
  (** the module-level flag (the script sets it to [False]) *)
  VERBOSE : bool;
  (** the directory two levels above the script, resolved *)
  framework_dir : string;
  (** [shutil.which("git")] finds a client *)
  which_git : bool;
  (** the outcome of [subprocess.check_call]: [true] unless it raises
      [CalledProcessError]; it may depend on everything that happened *)
  check_call : world -> list string -> option string -> bool;
  (** whether the operating system carries out [shutil.rmtree]; when it
      does not, [OSError] is raised (a partial removal is not modelled) *)
  rmtree_ok : world -> string -> bool
}.

Section Script.

Variable E : env.

Definition packages_folder : string := os_path_join (framework_dir E) "_pio".
Definition state_file : string := os_path_join packages_folder "state.json".

(** *** Operating-system calls *)

(** [os.path.isdir(p)], for a path without a [..] component in a file
    system where directories have their ancestors. *)
Definition os_path_isdir (p : string) : M bool :=
  fun w => (Ret (has_dir (resolve p) (dirs w)), w).

(** The state file is the one regular file of the model. *)
Definition os_path_isfile (p : string) : M bool :=
  fun w =>
    (Ret (fpath_eqb (resolve p) (resolve state_file)
          && match state_json w with Some _ => true | None => false end), w).

(** The world once [p] and its missing ancestors have been created ([p]
    without a [..] component: else the directories that [p] passes are
    created too). *)
Definition made (p : string) (w : world) : world :=
  {| dirs := ancestors (resolve p) ++ dirs w;
     state_json := state_json w;
     events := events w ++ [EvMakedirs p] |}.

(** [os.makedirs(p)]: [FileExistsError] when the leaf is already there
    (raised before anything is created when [p] has no [..] component). *)
Definition os_makedirs (p : string) : M unit :=
  fun w =>
    if has_dir (resolve p) (dirs w)
    then (Raise (OSError "FileExistsError"), w)
    else (Ret tt, made p w).

(** The world once the tree at [p] is gone: the directory, everything
    below it and, when it lies there, the state file. *)
Definition removed (p : string) (w : world) : world :=
  {| dirs := filter (fun d => negb (is_under (resolve p) d)) (dirs w);
     state_json :=
       if is_under (resolve p) (resolve state_file) then None
       else state_json w;
     events := events w ++ [EvRmtree p] |}.

(** [shutil.rmtree(p)] *)
Definition shutil_rmtree (p : string) : M unit :=
  fun w =>
    if rmtree_ok E w p then (Ret tt, removed p w)
    else (Raise (OSError "rmtree"), w).

(** The world after [if VERBOSE: print(s)]. *)
Definition say (s : string) (w : world) : world :=
  if VERBOSE E then log (EvPrint s) w else w.

(** *** run_cmd *)

Definition run_cmd (args : list string) (cwd : option string) : M bool :=
  when (VERBOSE E) (print ("Running command:  " ++ py_repr_list args)) ;;
  fun w =>
    let ok := check_call E w args cwd in
    (Ret ok, log (EvRun args cwd ok) w).

(** *** clone_repository *)

Definition clone_repository (dst_dir remote_url revision : string)
    (submodules_required : bool) : M bool :=
  let args := ["git"; "clone"] in
  let is_commit := is_commit_hash revision in
  args <-
    (if negb is_commit then
       let branch := revision in
       branch <-
         (if negb (truthy branch) then
            when (VERBOSE E)
              (print "Warning! Commit hash is not specified! Using the `main` branch instead!") ;;
            ret "main"
          else ret branch) ;;
       ret (args ++ ["--branch"; branch; "--depth"; "1"])
     else ret args) ;;
  let args := if submodules_required then args ++ ["--recursive"] else args in
  ok <- run_cmd (args ++ [remote_url; dst_dir]) None ;;
  if negb ok then
    stderr_write ("Error: Failed to clone project from `" ++ remote_url ++ "`!" ++ nl) ;;
    ret false
  else if is_commit then
    ok <- run_cmd ["git"; "reset"; "--hard"; revision] (Some dst_dir) ;;
    if negb ok then ret false else ret true
  else ret true.

(** *** install_from_remote *)

Definition install_from_remote (package_config : project_config)
    (dst_dir : string) (remotes : dict remote_config)
    (default_remote : string) : M bool :=
  remote_url <- lift (prepare_package_url remotes default_remote package_config) ;;
  when (VERBOSE E) (print ("Cloning package to `" ++ dst_dir ++ "`")) ;;
  assert (match revision package_config with
          | Some r => truthy r
          | None => false
          end) "Missing project revision!" ;;
  os_makedirs dst_dir ;;
  revision <- lift (getitem "revision" (revision package_config)) ;;
  clone_repository (to_unix_path dst_dir) remote_url revision
    (match submodules package_config with
     | Some b => b
     | None => false
     end).

(** *** clean_up *)

Definition clean_up (packages_folder : string) : M unit :=
  when (VERBOSE E) (print "Installation failed. Cleaning package directory...") ;;
  d <- os_path_isdir packages_folder ;;
  when d
    (try_except (shutil_rmtree packages_folder)
       (fun e =>
          match e with
          | OSError _ =>
              stderr_write
                ("Error: Failed to remove packages folder after failed "
                 ++ "installation. Please remove the `" ++ packages_folder
                 ++ "` folder manually!" ++ nl) ;;
              sys_exit 1
          | _ => raise e
          end)).

(** *** load_west_manifest, load_state_json *)

Definition load_west_manifest (manifest_path : manifest_file) : M manifest :=
  match manifest_path with
  | NoManifestFile p =>
      stderr_write ("Error: Couldn't find `" ++ p ++ "`" ++ nl) ;;
      sys_exit 1
  | BadYaml p exc =>
      stderr_write ("Warning! Failed to parse `" ++ p ++ "`." ++ nl) ;;
      stderr_write (exc ++ nl) ;;
      sys_exit 1
  | ManifestDoc m => ret m
  end.

Definition load_state_json (state_path : string) : M (dict string) :=
  fun w =>
    match state_json w with
    | Some d => (Ret d, w)
    | None => (Raise (OSError "FileNotFoundError"), w)
    end.

(** *** clear_deprecated_package *)

Definition clear_deprecated_package (path : option string)
    (packages_folder : string) : M unit :=
  match path with
  | None =>
      raise (TypeError
               "join() argument must be str, bytes, or os.PathLike object, not 'NoneType'")
  | Some path =>
      let deprecated_pkg_path := os_path_join packages_folder path in
      d <- os_path_isdir deprecated_pkg_path ;;
      if d then shutil_rmtree deprecated_pkg_path
      else print "Package path not found"
  end.

(** *** process_bundled_projects *)

(** The loop that collects [modified]: the projects of the state record
    that the manifest also names, with another revision. *)
Fixpoint modified_entries (west_dep : dict project_config)
    (items : list (string * string)) : list modified_entry :=
  match items with
  | [] => []
  | (name, state_hash) :: rest =>
      match dict_get name west_dep with
      | Some proj =>
          let west_revision := revision proj in
          if negb (opt_eqb (Some state_hash) west_revision)
          then {| m_name := name;
                  m_state_hash := state_hash;
                  m_west_revision := west_revision;
                  m_path := path proj |}
               :: modified_entries west_dep rest
          else modified_entries west_dep rest
      | None => modified_entries west_dep rest
      end
  end.

(** The loop over [modified]. *)
Fixpoint clear_modified (packages_folder : string)
    (modified : list modified_entry) : M unit :=
  match modified with
  | [] => ret tt
  | deprecated_entries :: rest =>
      print ("Package " ++ m_name deprecated_entries
             ++ " version differs from west.yml.." ++ nl
             ++ "                    Upgrading to "
             ++ py_str (m_west_revision deprecated_entries) ++ nl) ;;
      clear_deprecated_package (m_path deprecated_entries) packages_folder ;;
      clear_modified packages_folder rest
  end.

(** The body of the loop over the projects. *)
Definition process_project (platform_name packages_folder : string)
    (remotes : dict remote_config) (default_remote : string)
    (project_config : project_config) (result : dict string) : M turn :=
  required <- lift (is_project_required project_config platform_name) ;;
  if negb required then ret (Continue result)
  else
    let project_name := name project_config in
    let package_path :=
      os_path_join packages_folder
        (match path project_config with
         | Some p => p
         | None => project_name
         end) in
    installed <- os_path_isdir package_path ;;
    if installed then
      when (VERBOSE E) (print ("`" ++ project_name ++ "` is already installed!")) ;;
      rev <- lift (getitem "revision" (revision project_config)) ;;
      ret (Continue (dict_set project_name rev result))
    else if str_in project_name IGNORED_PACKAGES then
      when (VERBOSE E) (print ("`" ++ project_name ++ "` is ignored!")) ;;
      ret (Continue result)
    else
      print ("Installing `" ++ project_name ++ "` project") ;;
      ok <- install_from_remote project_config package_path remotes default_remote ;;
      if negb ok then
        stderr_write ("Failed to install the `" ++ project_name ++ "` project!" ++ nl) ;;
        ret (ReturnFalse result)
      else
        rev <- lift (getitem "revision" (revision project_config)) ;;
        ret (Continue (dict_set project_name rev result)).

(** The loop over the projects. *)
Fixpoint install_projects (platform_name packages_folder : string)
    (remotes : dict remote_config) (default_remote : string)
    (l : list project_config) (result : dict string) : M (bool * dict string) :=
  match l with
  | [] => ret (true, result)
  | project_config :: rest =>
      t <- process_project platform_name packages_folder remotes
             default_remote project_config result ;;
      match t with
      | Continue result' =>
          install_projects platform_name packages_folder remotes
            default_remote rest result'
      | ReturnFalse result' => ret (false, result')
      end
  end.

Definition process_bundled_projects (platform_name packages_folder : string)
    (west_manifest : manifest) (state_manifest : option (dict string))
    : M (bool * dict string) :=
  assert (match projects west_manifest with Some _ => true | None => false end)
    "Missing the `projects` field in the package manifest!" ;;
  d <- os_path_isdir packages_folder ;;
  when (negb d) (os_makedirs packages_folder) ;;
  match state_manifest with
  | Some ((_ :: _) as state) =>
      projs <- lift (getitem "projects" (projects west_manifest)) ;;
      let west_dep := dict_of name projs in
      clear_modified packages_folder (modified_entries west_dep state)
  | _ => ret tt
  end ;;
  let default_remote :=
    match defaults_remote west_manifest with
    | Some r => r
    | None => EmptyString
    end in
  rs <- lift (getitem "remotes" (remotes west_manifest)) ;;
  let remotes := remotes_dict rs in
  install_projects platform_name packages_folder remotes default_remote
    (match projects west_manifest with
     | Some l => l
     | None => []
     end) [].

(** *** save_state *)

(** The script writes no other file than the state file. *)
Definition save_state (dst_file : string) (state_data : dict string) : M unit :=
  fun w =>
    (Ret tt,
     {| dirs := dirs w;
        state_json := Some state_data;
        events := events w ++ [EvSaveState dst_file state_data] |}).

(** *** main *)

Definition main (platform_name : string) (secondary_installation : bool)
    (manifest_path : manifest_file) : M unit :=
  present <- os_path_isfile state_file ;;
  if present && negb secondary_installation then
    when (VERBOSE E) (print "The state file is present. Skipping installation.") ;;
    sys_exit 0
  else if negb (which_git E) then
    stderr_write
      ("Error: A Git client is not installed in your system! "
       ++ "Install a Git client from https://git-scm.com/downloads and try again."
       ++ nl) ;;
    sys_exit 1
  else
    west_manifest <- load_west_manifest manifest_path ;;
    present <- os_path_isfile state_file ;;
    state_manifest <-
      (if present then
         s <- load_state_json state_file ;;
         ret (Some s)
       else ret None) ;;
    rs <- process_bundled_projects platform_name packages_folder
            west_manifest state_manifest ;;
    let '(result, state) := rs in
    if result && match state with [] => false | _ :: _ => true end then
      save_state state_file state ;;
      sys_exit 0
    else if negb result then
      clean_up packages_folder ;;
      sys_exit 1
    else sys_exit 0.

(** The [__main__] block: any [Exception] out of [main] ends the run with
    status 1. *)
Definition script (platform_name : string) (secondary_installation : bool)
    (manifest_path : manifest_file) : M unit :=
  try_except (main platform_name secondary_installation manifest_path)
    (fun e =>
       stderr_write
         ("Error: Unknown exception occured. Failed to install bundled projects!"
          ++ nl) ;;
       stderr_write (exn_str e ++ nl) ;;
       sys_exit 1).

End Script.

(** ** Observing a run *)

(** The events that a run from [w] to [w'] added. *)
Definition new_events (w w' : world) : list event :=
  skipn (length (events w)) (events w').

(** The external commands among some events, with their outcomes. *)
Definition commands (l : list event) : list (list string * option string * bool) :=
  flat_map (fun e => match e with
                     | EvRun args cwd ok => [(args, cwd, ok)]
                     | _ => []
                     end) l.

Definition is_run (e : event) : bool :=
  match e with
  | EvRun _ _ _ => true
  | _ => false
  end.

Definition is_failed_run (e : event) : bool :=
  match e with
  | EvRun _ _ false => true
  | _ => false
  end.

(** Output only: nothing done to the file system, nothing run. *)
Definition is_output (e : event) : bool :=
  match e with
  | EvPrint _ | EvStderr _ => true
  | _ => false
  end.

Definition is_rmtree (e : event) : bool :=
  match e with
  | EvRmtree _ => true
  | _ => false
  end.

Definition is_save_state (e : event) : bool :=
  match e with
  | EvSaveState _ _ => true
  | _ => false
  end.

(** The events after the first failed command, when there is one. *)
Fixpoint after_failure (l : list event) : option (list event) :=
  match l with
  | [] => None
  | e :: l' => if is_failed_run e then Some l' else after_failure l'
  end.

Definition is_stderr (e : event) : bool :=
  match e with
  | EvStderr _ => true
  | _ => false
  end.

(** A command failed and nothing but error messages followed it. *)
Definition ends_in_failure (l : list event) : bool :=
  match after_failure l with
  | Some t => forallb is_stderr t
  | None => false
  end.

(** What a failed run still does: error messages, the announcement of the
    clean-up and the removal of a tree. *)
Definition is_cleanup_event (e : event) : bool :=
  match e with
  | EvStderr _ => true
  | EvRmtree _ => true
  | EvPrint s => String.eqb s "Installation failed. Cleaning package directory..."
  | _ => false
  end.

Definition no_failed_run (l : list event) : bool :=
  match after_failure l with
  | Some _ => false
  | None => true
  end.

(** No string occurs twice. *)
Fixpoint uniq (l : list string) : bool :=
  match l with
  | [] => true
  | x :: l' => negb (str_in x l') && uniq l'
  end.

Definition unique_names (m : manifest) : bool :=
  match projects m with
  | Some ps => uniq (map name ps)
  | None => true
  end.

(** Neither a removal nor a write of the state file. *)
Definition quiet (e : event) : bool := negb (is_rmtree e) && negb (is_save_state e).

(** Every ancestor of a directory is a directory. *)
Definition closed_dirs (ds : list fpath) : bool :=
  forallb (fun d => forallb (fun a => has_dir a ds) (ancestors d)) ds.

(** A consistent file system: directories have their ancestors, and the
    state file, when there is one, lies in the package folder. *)
Definition fs_ok (E : env) (w : world) : bool :=
  closed_dirs (dirs w)
  && match state_json w with
     | Some _ => has_dir (resolve (packages_folder E)) (dirs w)
     | None => true
     end.

(** [ds'] is [ds] with some directories, and their ancestors, added. *)
Definition grown (ds ds' : list fpath) : Prop :=
  exists nd, ds' = nd ++ ds /\ closed_dirs nd = true.

(** The world once [process_bundled_projects] has seen to the package
    folder. *)
Definition ensure_folder (pf : string) (w : world) : world :=
  if has_dir (resolve pf) (dirs w) then w else made pf w.

(** The drift phase of [process_bundled_projects]: nothing without a state
    record, else the removal of the packages whose revision changed. *)
Definition drift_phase (E : env) (pf : string) (ps : list project_config)
    (state_manifest : option (dict string)) : M unit :=
  match state_manifest with
  | Some ((_ :: _) as state) =>
      clear_modified E pf (modified_entries (dict_of name ps) state)
  | _ => ret tt
  end.

(** A [git clone] whose destination is [dst]. *)
Definition clone_into (dst : string) (c : list string * option string * bool) : bool :=
  match c with
  | ("git" :: "clone" :: rest, None, _) => String.eqb (last rest EmptyString) dst
  | _ => false
  end.

(** How many times some events clone into [dst]. *)
Definition clones_into (dst : string) (l : list event) : nat :=
  length (filter (clone_into dst) (commands l)).

(** The package directory of a project, as the installation loop computes
    it, and the directory it resolves to. *)
Definition package_path (packages_folder : string) (p : project_config) : string :=
  os_path_join packages_folder
    (match path p with
     | Some q => q
     | None => name p
     end).

Definition package_dir (packages_folder : string) (p : project_config) : fpath :=
  resolve (package_path packages_folder p).

(** Two directories neither of which lies in the other. *)
Definition apart (a b : fpath) : bool :=
  negb (is_under a b) && negb (is_under b a).

(** All characters of a string satisfy a test. *)
Fixpoint str_forall (f : ascii -> bool) (s : string) : bool :=
  match s with
  | EmptyString => true
  | String c s' => f c && str_forall f s'
  end.

(** The strings that consist of seven or more lowercase hexadecimal
    digits. *)
Definition lower_hex7 (s : string) : bool :=
  str_forall is_hex_lower s && (7 <=? String.length s)%nat.

(** ** Sample data *)

Definition mk_project (n : string) (p r : option string) : project_config :=
  {| name := n; path := p; revision := r; url := None; url_base := None;
     remote := None; repo_path := None; submodules := None |}.

Definition sample_remotes : list remote_config :=
  [ {| remote_name := "upstream";
       remote_url_base := Some "https://github.com/zephyrproject-rtos" |} ].

Definition sample_env (git_result : list string -> bool) : env :=
  {| VERBOSE := false;
     framework_dir := "/fw";
     which_git := true;
     check_call := fun _ args _ => git_result args;
     rmtree_ok := fun _ _ => true |}.

Definition git_always : list string -> bool := fun _ => true.

(** A world with the framework directory and nothing installed. *)
Definition fresh_world : world :=
  {| dirs := ancestors ["fw"]; state_json := None; events := [] |}.

(** Three required projects, in this order. *)
Definition sample_manifest : manifest :=
  {| projects :=
       Some [ mk_project "cmsis" (Some "modules/hal/cmsis") (Some "0123456789abcdef");
              mk_project "lvgl" (Some "modules/lib/gui/lvgl") (Some "v8.2.0");
              mk_project "mbedtls" (Some "modules/crypto/mbedtls") (Some "main") ];
     remotes := Some sample_remotes;
     defaults_remote := Some "upstream" |}.

(** A git that fails on every command naming the given URL. *)
Definition git_fails_on (remote_url : string) : list string -> bool :=
  fun args => negb (str_in remote_url args).

(** A required project that is on the ignore list. *)
Definition ignored_manifest : manifest :=
  {| projects :=
       Some [ mk_project "trusted-firmware-m"
                (Some "modules/tee/tf-m/trusted-firmware-m") (Some "v1.8.0") ];
     remotes := Some sample_remotes;
     defaults_remote := Some "upstream" |}.

(** A package folder with the state file of an earlier run and none of the
    packages. *)
Definition stale_world : world :=
  {| dirs := ancestors ["fw"; "_pio"];
     state_json := Some [("cmsis", "v1")];
     events := [] |}.

(** A manifest without the [remotes] collection. *)
Definition no_remotes_manifest : manifest :=
  {| projects := Some []; remotes := None; defaults_remote := None |}.

(** A manifest whose only entry has no revision and is not required. *)
Definition no_revision_manifest : manifest :=
  {| projects := Some [ mk_project "net-tools" (Some "tools/net-tools") None ];
     remotes := Some sample_remotes;
     defaults_remote := Some "upstream" |}.

(** A manifest without the [projects] collection. *)
Definition no_projects_manifest : manifest :=
  {| projects := None; remotes := Some sample_remotes;
     defaults_remote := Some "upstream" |}.

(** A manifest with a required entry that has no revision. *)
Definition missing_revision_manifest : manifest :=
  {| projects := Some [ mk_project "cmsis" (Some "modules/hal/cmsis") None ];
     remotes := Some sample_remotes;
     defaults_remote := Some "upstream" |}.

(** The package folder after an earlier run that installed [cmsis] at the
    revision [v1]. *)
Definition drift_world : world :=
  {| dirs := ancestors ["fw"; "_pio"; "modules"; "hal"; "cmsis"];
     state_json := Some [("cmsis", "v1")];
     events := [] |}.

(** A manifest whose first entry is a hardware-test package without the
    optional [path] key. *)
Definition hw_test_manifest : manifest :=
  {| projects :=
       Some [ mk_project "nrf_hw_models" None (Some "main");
              mk_project "cmsis" (Some "modules/hal/cmsis") (Some "0123456789abcdef") ];
     remotes := Some sample_remotes;
     defaults_remote := Some "upstream" |}.

(** ** Further observations *)

(** [to_unix_path] on a host where [IS_WINDOWS] has the given value. *)
Definition to_unix_path_on (is_windows : bool) (p : string) : string :=
  if negb is_windows || negb (truthy p) then p
  else replace_char (ascii_of_nat 92) "/"%char p.

(** Whether a command succeeded. *)
Definition cmd_ok (c : list string * option string * bool) : bool := snd c.

(** A relative path without a [..] component. *)
Definition tame (s : string) : bool :=
  negb (startswith "/" s) && negb (str_in ".." (components s)).

(** The places of the file system that an event names: the directory made
    or removed, the file written, the working directory of a command or,
    for a command run without one, its last argument (the destination of a
    clone). *)
Definition places (e : event) : list string :=
  match e with
  | EvMakedirs p => [p]
  | EvRmtree p => [p]
  | EvSaveState f _ => [f]
  | EvRun _ (Some cwd) _ => [cwd]
  | EvRun args None _ => [last args EmptyString]
  | _ => []
  end.

(** All places of an event lie in the folder [pf]. *)
Definition stays_in (pf : string) (e : event) : bool :=
  forallb (fun p => is_under (resolve pf) (resolve p)) (places e).

(** The path under which the installation loop looks for a project. *)
Definition project_path (p : project_config) : string :=
  match path p with
  | Some q => q
  | None => name p
  end.

(** The paths of all projects are relative and without [..]: then every
    package path that the script builds resolves as the operating system
    resolves it. *)
Definition tame_paths (ps : list project_config) : bool :=
  forallb (fun e => tame (project_path e)) ps.

(** An absolute path without a [..] component. *)
Definition plain (s : string) : bool :=
  startswith "/" s && negb (str_in ".." (components s)).

(** A destination that the model resolves as the operating system does:
    an absolute path without [..] that is not the state file and does not
    pass through it. *)
Definition fit_destination (E : env) (p : string) : bool :=
  plain p && negb (is_under (resolve (state_file E)) (resolve p)).

(** ** More sample data *)

(** A host without a git client. *)
Definition no_git_env : env :=
  {| VERBOSE := false;
     framework_dir := "/fw";
     which_git := false;
     check_call := fun _ _ _ => true;
     rmtree_ok := fun _ _ => true |}.

(** The package folder after an earlier run that left the ignored package
    [trusted-firmware-m] at the revision [v1.7.0]. *)
Definition ignored_drift_world : world :=
  {| dirs := ancestors ["fw"; "_pio"; "modules"; "tee"; "tf-m"; "trusted-firmware-m"];
     state_json := Some [("trusted-firmware-m", "v1.7.0")];
     events := [] |}.

(** A manifest that names no default remote; its project names the remote
    itself. *)
Definition no_default_manifest : manifest :=
  {| projects :=
       Some [ {| name := "cmsis"; path := Some "modules/hal/cmsis";
                 revision := Some "0123456789abcdef"; url := None;
                 url_base := None; remote := Some "upstream"; repo_path := None;
                 submodules := None |} ];
     remotes := Some sample_remotes;
     defaults_remote := None |}.

(** ** Runs that differ in what they print *)

(** The environment with the verbose flag set to [b]. *)
Definition with_verbose (b : bool) (E : env) : env :=
  {| VERBOSE := b;
     framework_dir := framework_dir E;
     which_git := which_git E;
     check_call := check_call E;
     rmtree_ok := rmtree_ok E |}.

Definition is_print (e : event) : bool :=
  match e with
  | EvPrint _ => true
  | _ => false
  end.

(** Everything that happened except the messages on the standard output. *)
Definition deeds (w : world) : list event :=
  filter (fun e => negb (is_print e)) (events w).

(** Two worlds with the same directories, the same state file and the same
    deeds. *)
Definition alike (w w' : world) : Prop :=
  dirs w = dirs w' /\ state_json w = state_json w' /\ deeds w = deeds w'.

(** Two computations that, from worlds that are alike, end alike with the
    same outcome. *)
Definition sim {A} (m m' : M A) : Prop :=
  forall w w', alike w w' ->
    fst (m w) = fst (m' w') /\ alike (snd (m w)) (snd (m' w')).

(** * Properties *)

(** ** Strings, paths and dictionaries *)

Lemma fpath_eqb_eq (a b : fpath) : fpath_eqb a b = true <-> a = b.
Proof.
  revert b; induction a as [|x a IH]; intros [|y b]; simpl; split; intro H;
    try reflexivity; try discriminate.
  - apply andb_true_iff in H as [Hx Hab].
    apply String.eqb_eq in Hx. apply IH in Hab. now subst.
  - inversion H; subst. rewrite String.eqb_refl. simpl. now apply IH.
Qed.

Lemma fpath_eqb_refl (a : fpath) : fpath_eqb a a = true.
Proof. now apply fpath_eqb_eq. Qed.

Lemma is_under_refl (a : fpath) : is_under a a = true.
Proof. induction a; simpl; [reflexivity|]. now rewrite String.eqb_refl. Qed.

Lemma has_dir_In (p : fpath) (ds : list fpath) : has_dir p ds = true <-> In p ds.
Proof.
  unfold has_dir. rewrite existsb_exists. split.
  - intros [x [Hin Heq]]. apply fpath_eqb_eq in Heq. now subst.
  - intros Hin. exists p. split; [assumption | apply fpath_eqb_refl].
Qed.

Lemma has_dir_app (p : fpath) (a b : list fpath) :
  has_dir p (a ++ b) = has_dir p a || has_dir p b.
Proof. unfold has_dir. apply existsb_app. Qed.

Lemma ancestors_self (p : fpath) : In p (ancestors p).
Proof.
  induction p as [|c p IH]; simpl; [now left|].
  right. now apply in_map.
Qed.

Lemma ancestors_under (p q : fpath) : In q (ancestors p) -> is_under q p = true.
Proof.
  revert q; induction p as [|c p IH]; intros q; simpl.
  - intros [<-|[]]. reflexivity.
  - intros [<-|Hin]; [reflexivity|].
    apply in_map_iff in Hin as [q' [<- Hq']]. simpl.
    rewrite String.eqb_refl. now apply IH.
Qed.

Lemma is_under_trans (a b c : fpath) :
  is_under a b = true -> is_under b c = true -> is_under a c = true.
Proof.
  revert b c; induction a as [|x a IH]; intros [|y b] [|z c]; simpl;
    try reflexivity; try discriminate.
  intros H1 H2. apply andb_true_iff in H1 as [Hxy Hab].
  apply andb_true_iff in H2 as [Hyz Hbc].
  apply String.eqb_eq in Hxy, Hyz. subst. rewrite String.eqb_refl. simpl.
  eauto.
Qed.

Lemma has_dir_filter_under (top p : fpath) (ds : list fpath) :
  has_dir p (filter (fun d => negb (is_under top d)) ds)
  = has_dir p ds && negb (is_under top p).
Proof.
  induction ds as [|d ds IH]; simpl; [reflexivity|].
  destruct (is_under top d) eqn:Hu; simpl.
  - rewrite IH. destruct (fpath_eqb p d) eqn:Hpd; simpl; [|reflexivity].
    apply fpath_eqb_eq in Hpd. subst. rewrite Hu. simpl.
    now rewrite andb_false_r.
  - rewrite IH. destruct (fpath_eqb p d) eqn:Hpd; simpl; [|reflexivity].
    apply fpath_eqb_eq in Hpd. subst. now rewrite Hu.
Qed.

Lemma dict_get_set_same {V} k (v : V) d : dict_get k (dict_set k v d) = Some v.
Proof.
  induction d as [|[k' v'] d IH]; simpl.
  - now rewrite String.eqb_refl.
  - destruct (String.eqb k k') eqn:Hk; simpl; rewrite Hk; auto.
Qed.

Lemma dict_get_set_other {V} k k' (v : V) d :
  k <> k' -> dict_get k (dict_set k' v d) = dict_get k d.
Proof.
  intros Hne. induction d as [|[k2 v2] d IH]; simpl.
  - destruct (String.eqb_spec k k'); [contradiction | reflexivity].
  - destruct (String.eqb_spec k' k2); simpl.
    + subst. destruct (String.eqb_spec k k2); [contradiction | reflexivity].
    + destruct (String.eqb_spec k k2); [reflexivity | assumption].
Qed.

Lemma dict_set_nonempty {V} k (v : V) d : dict_set k v d <> [].
Proof. destruct d as [|[k' v'] d]; simpl; [discriminate|]. now destruct (String.eqb k k'). Qed.

Lemma str_in_In x xs : str_in x xs = true <-> In x xs.
Proof.
  induction xs as [|y ys IH]; simpl; [split; [discriminate | tauto]|].
  rewrite orb_true_iff, IH, String.eqb_eq. split; intros [H|H]; auto.
Qed.

Lemma is_under_app (p q : fpath) : is_under p (p ++ q) = true.
Proof. induction p; simpl; [reflexivity|]. now rewrite String.eqb_refl. Qed.

Lemma ancestors_spec (p a : fpath) : In a (ancestors p) <-> is_under a p = true.
Proof.
  split; [apply ancestors_under|].
  revert a; induction p as [|c p IH]; intros [|x a]; simpl; auto.
  - discriminate.
  - intros H. apply andb_true_iff in H as [Hx Ha]. apply String.eqb_eq in Hx. subst.
    right. apply in_map. now apply IH.
Qed.

Lemma closed_dirs_spec (ds : list fpath) :
  closed_dirs ds = true <->
  forall d a, In d ds -> is_under a d = true -> In a ds.
Proof.
  unfold closed_dirs. rewrite forallb_forall. split.
  - intros H d a Hd Ha. specialize (H d Hd). rewrite forallb_forall in H.
    apply has_dir_In, H, ancestors_spec, Ha.
  - intros H d Hd. apply forallb_forall. intros a Ha.
    apply has_dir_In, (H d a Hd), ancestors_spec, Ha.
Qed.

Lemma closed_dirs_made (p : fpath) (ds : list fpath) :
  closed_dirs ds = true -> closed_dirs (ancestors p ++ ds) = true.
Proof.
  rewrite !closed_dirs_spec. intros H d a Hd Ha.
  apply in_app_iff in Hd as [Hd|Hd]; apply in_app_iff.
  - left. apply ancestors_spec. apply ancestors_spec in Hd.
    eauto using is_under_trans.
  - right. eauto.
Qed.

Lemma closed_dirs_removed (top : fpath) (ds : list fpath) :
  closed_dirs ds = true ->
  closed_dirs (filter (fun d => negb (is_under top d)) ds) = true.
Proof.
  rewrite !closed_dirs_spec. intros H d a Hd Ha.
  apply filter_In in Hd as [Hd Hnot]. apply filter_In. split; [eauto|].
  destruct (is_under top a) eqn:Hta; [|reflexivity].
  rewrite (is_under_trans _ _ _ Hta Ha) in Hnot. discriminate.
Qed.

(** In a closed file system nothing lies below a missing directory. *)
Lemma closed_dirs_nothing_below (top : fpath) (ds : list fpath) :
  closed_dirs ds = true -> has_dir top ds = false ->
  forall d, In d ds -> is_under top d = false.
Proof.
  rewrite closed_dirs_spec. intros H Htop d Hd.
  destruct (is_under top d) eqn:Hu; [|reflexivity].
  apply (H d top Hd), has_dir_In in Hu. congruence.
Qed.

Lemma closed_dirs_app (a b : list fpath) :
  closed_dirs a = true -> closed_dirs b = true -> closed_dirs (a ++ b) = true.
Proof.
  rewrite !closed_dirs_spec. intros Ha Hb d x Hd Hx.
  apply in_app_iff in Hd as [Hd|Hd]; apply in_app_iff; eauto.
Qed.

Lemma grown_refl (ds : list fpath) : grown ds ds.
Proof. now exists []. Qed.

Lemma grown_made (p : fpath) (ds : list fpath) : grown ds (ancestors p ++ ds).
Proof.
  exists (ancestors p). split; [reflexivity|].
  rewrite <- (app_nil_r (ancestors p)). now apply closed_dirs_made.
Qed.

Lemma grown_trans (a b c : list fpath) : grown a b -> grown b c -> grown a c.
Proof.
  intros (n1 & -> & H1) (n2 & -> & H2). exists (n2 ++ n1).
  split; [now rewrite app_assoc | now apply closed_dirs_app].
Qed.

Lemma grown_has_dir (a b : list fpath) (p : fpath) :
  grown a b -> has_dir p a = true -> has_dir p b = true.
Proof. intros (n & -> & _) H. rewrite has_dir_app, H. apply orb_true_r. Qed.

Lemma grown_closed (a b : list fpath) :
  grown a b -> closed_dirs a = true -> closed_dirs b = true.
Proof. intros (n & -> & Hn) Ha. now apply closed_dirs_app. Qed.

Lemma components_nonempty (s : string) : components s <> [].
Proof.
  destruct s as [|c s]; simpl; [discriminate|].
  destruct (Ascii.eqb c "/"); [discriminate|].
  destruct (components s); discriminate.
Qed.

Lemma components_app_slash (a b : string) :
  components (a ++ String "/" b) = components a ++ components b.
Proof.
  induction a as [|c a IH]; simpl; [reflexivity|].
  destruct (Ascii.eqb c "/"); [now rewrite IH|].
  rewrite IH. pose proof (components_nonempty a) as Hne.
  destruct (components a); [contradiction | reflexivity].
Qed.

Lemma ends_with_char_split (c : ascii) (a : string) :
  ends_with_char c a = true -> exists a', a = (a' ++ String c EmptyString)%string.
Proof.
  induction a as [|x a IH]; simpl; [discriminate|].
  destruct a as [|y a].
  - intros H. apply Ascii.eqb_eq in H. subst. now exists EmptyString.
  - intros H. destruct (IH H) as [a' Ha']. exists (String x a'). simpl. now rewrite Ha'.
Qed.

Lemma string_app_assoc (a b c : string) : ((a ++ b) ++ c = a ++ (b ++ c))%string.
Proof. induction a; simpl; congruence. Qed.

(** A plain file name joined to a directory resolves to an entry of that
    directory. *)
Lemma resolve_join_leaf (a leaf : string) :
  startswith "/" leaf = false ->
  components leaf = [leaf] ->
  walk [] leaf = [leaf] ->
  resolve (os_path_join a leaf) = resolve a ++ [leaf].
Proof.
  intros Hstart Hcomp Hwalk.
  assert (Hw : forall st, walk st leaf = leaf :: st).
  { intros st. unfold walk in *.
    destruct (String.eqb leaf EmptyString || String.eqb leaf "."); [discriminate|].
    now destruct (String.eqb leaf ".."). }
  unfold os_path_join. rewrite Hstart.
  destruct (truthy a) eqn:Ht; simpl negb; simpl orb.
  - destruct (ends_with_char "/" a) eqn:He.
    + apply ends_with_char_split in He as [a' ->].
      rewrite string_app_assoc. simpl append. unfold resolve.
      rewrite !components_app_slash, !fold_left_app, Hcomp. simpl.
      now rewrite Hw.
    + change ("/" ++ leaf)%string with (String "/" leaf).
      unfold resolve. rewrite components_app_slash, fold_left_app, Hcomp. simpl.
      now rewrite Hw.
  - unfold truthy in Ht. apply negb_false_iff, String.eqb_eq in Ht. subst a.
    cbn [append]. unfold resolve. rewrite Hcomp. simpl. now rewrite Hwalk.
Qed.

Lemma state_file_in_packages_folder (E : env) :
  is_under (resolve (packages_folder E)) (resolve (state_file E)) = true.
Proof.
  unfold state_file. rewrite resolve_join_leaf by reflexivity. apply is_under_app.
Qed.

Lemma dict_of_from_other {V} (key : V -> string) (xs : list V) (d : dict V) k :
  ~ In k (map key xs) ->
  dict_get k (fold_left (fun d x => dict_set (key x) x d) xs d) = dict_get k d.
Proof.
  revert d; induction xs as [|x xs IH]; intros d Hk; simpl; [reflexivity|].
  simpl in Hk. rewrite IH by tauto. apply dict_get_set_other. intros ->. tauto.
Qed.

Lemma uniq_cons x l : uniq (x :: l) = true <-> ~ In x l /\ uniq l = true.
Proof.
  simpl. rewrite andb_true_iff, negb_true_iff. split; intros [H1 H2]; split; auto.
  - intros Hin. apply str_in_In in Hin. congruence.
  - destruct (str_in x l) eqn:Hs; [|reflexivity]. apply str_in_In in Hs. tauto.
Qed.

(** With names that occur once, the dictionary by name finds each
    project. *)
Lemma dict_of_get {V} (key : V -> string) (xs : list V) (d : dict V) x :
  uniq (map key xs) = true -> In x xs ->
  dict_get (key x) (fold_left (fun d x => dict_set (key x) x d) xs d) = Some x.
Proof.
  revert d; induction xs as [|y xs IH]; intros d Hu Hin; [contradiction|].
  cbn [map] in Hu. apply uniq_cons in Hu as [Hy Hu]. simpl.
  destruct Hin as [->|Hin].
  - rewrite dict_of_from_other by assumption. apply dict_get_set_same.
  - now apply IH.
Qed.

Lemma dict_of_get_In {V} (key : V -> string) (xs : list V) (d : dict V) k x :
  dict_get k (fold_left (fun d x => dict_set (key x) x d) xs d) = Some x ->
  (In x xs /\ key x = k) \/ dict_get k d = Some x.
Proof.
  revert d; induction xs as [|y xs IH]; intros d H; simpl in *; [now right|].
  apply IH in H as [[Hin Hk]|H]; [now left; auto|].
  destruct (String.eqb_spec k (key y)) as [->|Hne].
  - rewrite dict_get_set_same in H. inversion H; subst. left. auto.
  - rewrite dict_get_set_other in H by assumption. now right.
Qed.

(** The dictionary by name finds the last project of a name. *)
Lemma dict_of_get_last {V} (key : V -> string) (xs ys : list V) x :
  ~ In (key x) (map key ys) ->
  dict_get (key x) (dict_of key (xs ++ x :: ys)) = Some x.
Proof.
  intros Hnot. unfold dict_of. rewrite fold_left_app. simpl.
  rewrite dict_of_from_other by assumption. apply dict_get_set_same.
Qed.

Lemma dict_get_In {V} k (v : V) d : dict_get k d = Some v -> In (k, v) d.
Proof.
  induction d as [|[k' v'] d IH]; simpl; [discriminate|].
  destruct (String.eqb_spec k k') as [->|Hne].
  - intros H. inversion H; subst. now left.
  - intros H. right. auto.
Qed.

Lemma last_two {A} (l : list A) (x y d : A) : last (l ++ [x; y]) d = y.
Proof.
  induction l as [|a l IH]; [reflexivity|].
  cbn [app]. rewrite <- IH at 2. simpl. destruct (l ++ [x; y]) eqn:Hl; [|reflexivity].
  destruct l; discriminate.
Qed.

Lemma to_unix_path_posix (p : string) : to_unix_path p = p.
Proof. reflexivity. Qed.

Lemma apart_irrefl (a : fpath) : apart a a = false.
Proof. unfold apart. now rewrite is_under_refl. Qed.

(** ** The commit-hash pattern *)

Lemma re_match_hash_from_eq (n : nat) (s : string) :
  re_match_hash_from n s
  = ((7 <=? n)%nat && re_dollar s)
    || match s with
       | String c s' => is_hex_lower c && re_match_hash_from (S n) s'
       | EmptyString => false
       end.
Proof. destruct s; reflexivity. Qed.

Lemma re_match_hash_from_spec (n : nat) (s : string) :
  re_match_hash_from n s = true <->
  exists h t, s = (h ++ t)%string /\ str_forall is_hex_lower h = true
              /\ 7 <= n + String.length h /\ re_dollar t = true.
Proof.
  revert n; induction s as [|c s IH]; intros n; rewrite re_match_hash_from_eq.
  - rewrite orb_false_r, andb_true_iff, Nat.leb_le. split.
    + intros [Hn Hd]. exists EmptyString, EmptyString. cbn.
      repeat split; auto. lia.
    + intros (h & t & Hs & _ & Hn & Hd).
      destruct h; [|discriminate]. cbn in *. subst t. split; [lia | assumption].
  - rewrite orb_true_iff, !andb_true_iff, Nat.leb_le, IH. split.
    + intros [[Hn Hd] | [Hc (h & t & -> & Hh & Hn & Hd)]].
      * exists EmptyString, (String c s). cbn. repeat split; auto. lia.
      * exists (String c h), t. cbn. rewrite Hc, Hh. repeat split; auto. lia.
    + intros (h & t & Hs & Hh & Hn & Hd). destruct h as [|c' h]; cbn in Hs, Hh, Hn.
      * left. subst t. split; [lia | assumption].
      * right. inversion Hs; subst. apply andb_true_iff in Hh as [Hc Hh].
        split; [assumption|]. exists h, t. repeat split; auto. lia.
Qed.

(** What [is_commit_hash] accepts: seven or more lowercase hexadecimal
    digits, with or without one newline after them. *)
Lemma is_commit_hash_spec (s : string) :
  is_commit_hash s = true <->
  exists h, lower_hex7 h = true /\ (s = h \/ s = (h ++ nl)%string).
Proof.
  unfold is_commit_hash, lower_hex7. rewrite andb_true_iff, re_match_hash_from_spec.
  split.
  - intros [_ (h & t & -> & Hh & Hn & Hd)]. exists h.
    rewrite Hh. simpl in Hn. split; [now apply Nat.leb_le|].
    unfold re_dollar in Hd. apply orb_true_iff in Hd as [Hd|Hd];
      apply String.eqb_eq in Hd; subst t; [left | right]; auto.
    clear. induction h; simpl; congruence.
  - intros (h & Hh & Hs). apply andb_true_iff in Hh as [Hh Hn].
    apply Nat.leb_le in Hn. split.
    + destruct Hs as [-> | ->]; destruct h; simpl in *; try reflexivity; lia.
    + destruct Hs as [-> | ->].
      * exists h, EmptyString. repeat split; auto.
        clear. induction h; simpl; congruence.
      * exists h, nl. repeat split; auto.
Qed.

Lemma lower_hex7_is_commit_hash (s : string) :
  lower_hex7 s = true -> is_commit_hash s = true.
Proof. intros H. apply is_commit_hash_spec. exists s. auto. Qed.

Example is_commit_hash_ex1 : is_commit_hash "0123abc" = true.
Proof. reflexivity. Qed.
Example is_commit_hash_ex2 : is_commit_hash "ABCDEF1" = false.
Proof. reflexivity. Qed.
Example is_commit_hash_ex3 : is_commit_hash "v3.4.0" = false.
Proof. reflexivity. Qed.
Example is_commit_hash_ex4 : is_commit_hash "abcdef" = false.
Proof. reflexivity. Qed.

(** ** The project filter *)

(** The filter, case by case. *)
Lemma is_project_required_cases (e : project_config) (ctx : string) :
  is_project_required e ctx =
    if startswith "hal_" (name e)
       && negb (str_in (str_from 4 (name e)) (hal_allow_list ctx))
    then Ret false
    else match path e with
         | None => Raise (KeyError "path")
         | Some p =>
             Ret (negb (startswith "tool" p || startswith "nrf_hw_" (name e)))
         end.
Proof.
  unfold is_project_required.
  destruct (startswith "hal_" (name e) && _); [reflexivity|].
  destruct (path e) as [p|]; simpl; [|reflexivity].
  now destruct (startswith "tool" p || startswith "nrf_hw_" (name e)).
Qed.

Lemma hal_allow_list_unknown (ctx : string) :
  dict_get ctx PLATFORMS_WITH_EXTERNAL_HAL = None -> hal_allow_list ctx = [].
Proof. unfold hal_allow_list. now intros ->. Qed.

(** What the filter excludes: every entry named [hal_...] for a target
    context whose allow-list is empty (an unknown context has the empty
    allow-list), whatever the other fields of the entry; for every target
    context, the entries whose path starts with [tool] and, among the
    entries that carry a path, those named [nrf_hw_...]. It is a function of
    the entry and the context alone: calling it from the script leaves the
    world as it is. *)
Lemma is_project_required_excludes (e : project_config) (ctx : string) :
  (hal_allow_list ctx = [] \/ dict_get ctx PLATFORMS_WITH_EXTERNAL_HAL = None ->
   startswith "hal_" (name e) = true ->
   is_project_required e ctx = Ret false)
  /\ (forall p, path e = Some p -> startswith "tool" p = true ->
      is_project_required e ctx = Ret false)
  /\ (forall p, path e = Some p -> startswith "nrf_hw_" (name e) = true ->
      is_project_required e ctx = Ret false)
  /\ (forall w : world,
      lift (is_project_required e ctx) w = (is_project_required e ctx, w)).
Proof.
  rewrite is_project_required_cases. repeat split.
  - intros Hctx Hhal.
    assert (Hl : hal_allow_list ctx = [])
      by (destruct Hctx; auto using hal_allow_list_unknown).
    now rewrite Hhal, Hl.
  - intros p Hp Htool. rewrite Hp, Htool.
    now destruct (startswith "hal_" (name e) && _).
  - intros p Hp Hnrf. rewrite Hp, Hnrf, orb_true_r.
    now destruct (startswith "hal_" (name e) && _).
Qed.

(** An entry without a path is only judged by the HAL rule. *)
Lemma is_project_required_no_path (e : project_config) (ctx : string) :
  path e = None ->
  is_project_required e ctx = Ret false
  \/ is_project_required e ctx = Raise (KeyError "path").
Proof.
  intros Hp. rewrite is_project_required_cases, Hp.
  destruct (startswith "hal_" (name e) && _); auto.
Qed.

(** ** The remote URL resolver *)

(** Without the [url] key, with the default remote in the registry and no
    remote named by the entry: the default base, a slash, the repo path or
    the name, and the suffix. *)
Lemma prepare_package_url_default remotes default_remote_name pc r :
  url pc = None -> remote pc = None ->
  dict_get default_remote_name remotes = Some r ->
  prepare_package_url remotes default_remote_name pc
  = Ret (match remote_url_base r with Some u => u | None => EmptyString end
         ++ "/"
         ++ match repo_path pc with Some rp => rp | None => name pc end
         ++ ".git")%string.
Proof. intros Hu Hr Hd. unfold prepare_package_url. now rewrite Hu, Hd, Hr. Qed.

(** The remote named by the entry overrides the default one. *)
Lemma prepare_package_url_named remotes default_remote_name pc r rn r' u :
  url pc = None -> remote pc = Some rn ->
  dict_get default_remote_name remotes = Some r ->
  dict_get rn remotes = Some r' -> remote_url_base r' = Some u ->
  prepare_package_url remotes default_remote_name pc
  = Ret (u ++ "/"
         ++ match repo_path pc with Some rp => rp | None => name pc end
         ++ ".git")%string.
Proof.
  intros Hu Hr Hd Hn Hb. unfold prepare_package_url.
  now rewrite Hu, Hd, Hr, Hn, Hb.
Qed.

(** A named remote that the registry lacks is a [LookupError]. *)
Lemma prepare_package_url_lookup_error remotes default_remote_name pc r rn :
  url pc = None -> remote pc = Some rn ->
  dict_get default_remote_name remotes = Some r ->
  dict_get rn remotes = None ->
  prepare_package_url remotes default_remote_name pc = Raise (KeyError rn)
  /\ is_LookupError (KeyError rn) = true.
Proof.
  intros Hu Hr Hd Hn. unfold prepare_package_url.
  now rewrite Hu, Hd, Hr, Hn.
Qed.

(** The test is on the key [url], the value read is that of [url-base]. *)
Lemma prepare_package_url_url_key remotes default_remote_name pc u :
  url pc = Some u ->
  prepare_package_url remotes default_remote_name pc
  = match url_base pc with
    | Some b => Ret (b ++ ".git")%string
    | None => Raise (KeyError "url-base")
    end.
Proof.
  intros Hu. unfold prepare_package_url. rewrite Hu.
  now destruct (url_base pc).
Qed.

(** C5. An entry that carries an explicit URL base (the key [url-base])
    and no [url] key: the resolver does not use the base, it answers with
    the default remote; and an entry with the [url] key alone makes it
    raise [KeyError]. *)
Theorem C5_explicit_url_base_not_used :
  prepare_package_url (remotes_dict sample_remotes) "upstream"
    {| name := "foo"; path := Some "modules/foo"; revision := Some "main";
       url := None; url_base := Some "https://example.com/mirror/foo";
       remote := None; repo_path := None; submodules := None |}
  = Ret "https://github.com/zephyrproject-rtos/foo.git"
  /\ prepare_package_url (remotes_dict sample_remotes) "upstream"
       {| name := "foo"; path := Some "modules/foo"; revision := Some "main";
          url := Some "https://example.com/mirror/foo"; url_base := None;
          remote := None; repo_path := None; submodules := None |}
     = Raise (KeyError "url-base").
Proof. split; reflexivity. Qed.

(** ** Runs of the script *)

Lemma bind_Ret {A B} (m : M A) (k : A -> M B) w a w1 :
  m w = (Ret a, w1) -> bind m k w = k a w1.
Proof. unfold bind. now intros ->. Qed.

Lemma new_events_app (w w' : world) (l : list event) :
  events w' = events w ++ l -> new_events w w' = l.
Proof.
  unfold new_events. intros ->.
  rewrite skipn_app, skipn_all, Nat.sub_diag. reflexivity.
Qed.

Lemma new_events_same (w : world) : new_events w w = [].
Proof. apply new_events_app. now rewrite app_nil_r. Qed.

Lemma commands_app (a b : list event) : commands (a ++ b) = commands a ++ commands b.
Proof. unfold commands. apply flat_map_app. Qed.

Lemma after_failure_app (a b : list event) :
  after_failure (a ++ b)
  = match after_failure a with
    | Some t => Some (t ++ b)
    | None => after_failure b
    end.
Proof.
  induction a as [|e a IH]; simpl; [reflexivity|].
  now destruct (is_failed_run e).
Qed.

Lemma no_failed_run_app (a b : list event) :
  no_failed_run (a ++ b) = no_failed_run a && no_failed_run b.
Proof.
  unfold no_failed_run. rewrite after_failure_app.
  now destruct (after_failure a).
Qed.

Lemma outputs_no_failed_run (l : list event) :
  forallb is_output l = true -> no_failed_run l = true.
Proof.
  unfold no_failed_run. induction l as [|e l IH]; simpl; [reflexivity|].
  intros H. apply andb_true_iff in H as [He Hl].
  destruct e; try discriminate; simpl; auto.
Qed.

Lemma outputs_no_commands (l : list event) :
  forallb is_output l = true -> commands l = [].
Proof.
  induction l as [|e l IH]; simpl; [reflexivity|].
  intros H. apply andb_true_iff in H as [He Hl].
  destruct e; try discriminate; simpl; auto.
Qed.

Lemma no_commands_no_failed_run (l : list event) :
  commands l = [] -> no_failed_run l = true.
Proof.
  unfold no_failed_run. induction l as [|e l IH]; simpl; [reflexivity|].
  destruct e; simpl; auto; discriminate.
Qed.

Lemma clones_into_app dst (a b : list event) :
  clones_into dst (a ++ b) = clones_into dst a + clones_into dst b.
Proof. unfold clones_into. now rewrite commands_app, filter_app, length_app. Qed.

Lemma clones_into_no_commands dst (l : list event) :
  commands l = [] -> clones_into dst l = 0.
Proof. unfold clones_into. now intros ->. Qed.

Lemma no_failed_run_None (l : list event) :
  no_failed_run l = true <-> after_failure l = None.
Proof. unfold no_failed_run. destruct (after_failure l); split; congruence. Qed.

Lemma ends_in_failure_app_l (a b : list event) :
  no_failed_run a = true -> ends_in_failure (a ++ b) = ends_in_failure b.
Proof.
  intros Ha. apply no_failed_run_None in Ha.
  unfold ends_in_failure. now rewrite after_failure_app, Ha.
Qed.

Lemma forallb_impl {A} (f g : A -> bool) (l : list A) :
  (forall x, f x = true -> g x = true) ->
  forallb f l = true -> forallb g l = true.
Proof.
  intros Hfg. induction l as [|x l IH]; simpl; [reflexivity|].
  intros H. apply andb_true_iff in H as [Hx Hl]. now rewrite Hfg, IH.
Qed.

Lemma stderr_outputs (l : list event) :
  forallb is_stderr l = true -> forallb is_output l = true.
Proof. apply forallb_impl. now intros []. Qed.

Lemma ends_in_failure_app_r (a b : list event) :
  ends_in_failure a = true -> forallb is_stderr b = true ->
  ends_in_failure (a ++ b) = true.
Proof.
  unfold ends_in_failure. rewrite after_failure_app.
  destruct (after_failure a); [|discriminate].
  intros Ha Hb. now rewrite forallb_app, Ha, Hb.
Qed.

Lemma outputs_quiet (l : list event) :
  forallb is_output l = true -> forallb quiet l = true.
Proof. apply forallb_impl. now intros []. Qed.

Lemma runs_quiet (l : list event) :
  forallb (fun e => is_output e || is_run e) l = true -> forallb quiet l = true.
Proof. apply forallb_impl. now intros []. Qed.

Lemma In_dict_set {V} k (v : V) d n x :
  In (n, x) (dict_set k v d) -> (n, x) = (k, v) \/ In (n, x) d.
Proof.
  induction d as [|[k' v'] d IH]; simpl.
  - intros [H|[]]. left. congruence.
  - destruct (String.eqb_spec k k'); simpl.
    + intros [H|H]; [left; congruence | right; now right].
    + intros [H|H]; [right; now left|]. destruct (IH H); auto.
Qed.

Lemma say_facts (E : env) (s : string) (w : world) :
  exists l, events (say E s w) = events w ++ l
            /\ forallb is_output l = true
            /\ dirs (say E s w) = dirs w
            /\ state_json (say E s w) = state_json w.
Proof.
  unfold say. destruct (VERBOSE E).
  - exists [EvPrint s]. repeat split.
  - exists []. rewrite app_nil_r. repeat split.
Qed.

(** Name the world after an optional message and keep what matters of it. *)
Ltac name_say H :=
  match type of H with
  | context [say ?E ?s ?w] =>
      let w0 := fresh "w0" in
      let Hw := fresh "Hw" in
      let l := fresh "l0" in
      let Hev := fresh "Hev0" in
      let Hout := fresh "Hout0" in
      let Hd := fresh "Hd0" in
      let Hs := fresh "Hs0" in
      destruct (say_facts E s w) as (l & Hev & Hout & Hd & Hs);
      remember (say E s w) as w0 eqn:Hw; clear Hw
  end.

Section Runs.

Variable E : env.

Lemma events_say s w :
  exists l, events (say E s w) = events w ++ l /\ forallb is_output l = true.
Proof.
  unfold say. destruct (VERBOSE E).
  - exists [EvPrint s]. split; reflexivity.
  - exists []. split; [now rewrite app_nil_r | reflexivity].
Qed.

Lemma dirs_say s w : dirs (say E s w) = dirs w.
Proof. unfold say. now destruct (VERBOSE E). Qed.

Lemma state_json_say s w : state_json (say E s w) = state_json w.
Proof. unfold say. now destruct (VERBOSE E). Qed.

Lemma when_verbose s w : when (VERBOSE E) (print s) w = (Ret tt, say E s w).
Proof. unfold when, say. now destruct (VERBOSE E). Qed.

(** *** run_cmd and clone_repository *)

(** The commands of [clone_repository] and its result. *)
Lemma clone_repository_spec dst_dir remote_url revision submodules_required w out w' :
  clone_repository E dst_dir remote_url revision submodules_required w = (out, w') ->
  dirs w' = dirs w /\ state_json w' = state_json w /\
  exists l ok1 ok2,
    events w' = events w ++ l
    /\ commands l =
         (["git"; "clone"]
          ++ (if is_commit_hash revision then []
              else ["--branch"; if truthy revision then revision else "main";
                    "--depth"; "1"])
          ++ (if submodules_required then ["--recursive"] else [])
          ++ [remote_url; dst_dir], None, ok1)
         :: (if is_commit_hash revision && ok1
             then [(["git"; "reset"; "--hard"; revision], Some dst_dir, ok2)]
             else [])
    /\ out = Ret (ok1 && (negb (is_commit_hash revision) || ok2))
    /\ forallb (fun e => is_output e || is_run e) l = true
    /\ (if ok1 && (negb (is_commit_hash revision) || ok2)
        then no_failed_run l = true else ends_in_failure l = true).
Proof.
  unfold clone_repository, run_cmd.
  cbv beta iota zeta delta [bind ret when print emit stderr_write].
  intros H.
  destruct (is_commit_hash revision), (truthy revision), submodules_required,
    (VERBOSE E); cbv beta iota zeta delta [negb app] in H;
    repeat match type of H with
           | context [check_call E ?w0 ?a ?c] =>
               let ok := fresh "ok" in
               destruct (check_call E w0 a c) eqn:ok;
               cbv beta iota zeta delta [negb] in H
           end;
    inversion H; subst; clear H; cbn [dirs state_json events log];
    (split; [reflexivity|]); (split; [reflexivity|]);
    repeat rewrite <- app_assoc.
  all: try (eexists; exists true, true; split; [reflexivity|];
            repeat split; reflexivity).
  all: try (eexists; exists true, false; split; [reflexivity|];
            repeat split; reflexivity).
  all: try (eexists; exists false, true; split; [reflexivity|];
            repeat split; reflexivity).
Qed.

(** *** install_from_remote *)

(** Either the installation raises before it touched anything, or it
    creates the destination and clones into it. *)
Lemma install_from_remote_spec pc dst_dir remotes default_remote w out w' :
  install_from_remote E pc dst_dir remotes default_remote w = (out, w') ->
  state_json w' = state_json w /\
  exists l, events w' = events w ++ l /\
  ((exists e, out = Raise e /\ dirs w' = dirs w /\ forallb is_output l = true
              /\ (forall u, prepare_package_url remotes default_remote pc = Ret u ->
                  has_dir (resolve dst_dir) (dirs w) = false ->
                  e = AssertionError "Missing project revision!"
                  /\ match revision pc with
                     | Some r => truthy r = false
                     | None => True
                     end))
   \/
   (exists remote_url r l0 lc ok1 ok2,
      prepare_package_url remotes default_remote pc = Ret remote_url
      /\ revision pc = Some r /\ truthy r = true
      /\ has_dir (resolve dst_dir) (dirs w) = false
      /\ dirs w' = ancestors (resolve dst_dir) ++ dirs w
      /\ l = l0 ++ EvMakedirs dst_dir :: lc
      /\ forallb is_output l0 = true
      /\ commands lc =
           (["git"; "clone"]
            ++ (if is_commit_hash r then [] else ["--branch"; r; "--depth"; "1"])
            ++ (match submodules pc with
                | Some true => ["--recursive"]
                | _ => []
                end)
            ++ [remote_url; to_unix_path dst_dir], None, ok1)
           :: (if is_commit_hash r && ok1
               then [(["git"; "reset"; "--hard"; r], Some (to_unix_path dst_dir), ok2)]
               else [])
      /\ out = Ret (ok1 && (negb (is_commit_hash r) || ok2))
      /\ forallb (fun e => is_output e || is_run e) lc = true
      /\ (if ok1 && (negb (is_commit_hash r) || ok2)
          then no_failed_run lc = true else ends_in_failure lc = true))).
Proof.
  unfold install_from_remote. intros H.
  destruct (prepare_package_url remotes default_remote pc) as [u|e|c] eqn:Hu;
    cbv beta iota delta [bind lift] in H.
  2:{ inversion H; subst. split; [reflexivity|]. exists []. rewrite app_nil_r.
      split; [reflexivity|]. left. exists e. repeat split; auto; intros; discriminate. }
  2:{ exfalso. unfold prepare_package_url in Hu.
      destruct (url pc); [destruct (url_base pc); discriminate|].
      destruct (dict_get default_remote remotes); [|discriminate].
      destruct (remote pc); [|discriminate].
      destruct (dict_get s remotes) as [r'|]; [|discriminate].
      destruct (remote_url_base r'); discriminate. }
  rewrite when_verbose in H.
  remember (say E ("Cloning package to `" ++ dst_dir ++ "`")%string w) as w0 eqn:Hw0.
  assert (Hsay : (exists l0, events w0 = events w ++ l0 /\ forallb is_output l0 = true)
                 /\ dirs w0 = dirs w /\ state_json w0 = state_json w)
    by (subst w0; auto using events_say, dirs_say, state_json_say).
  clear Hw0. destruct Hsay as ((l0 & Hl0 & Hout0) & Hd0 & Hs0).
  destruct (revision pc) as [r|] eqn:Hr.
  2:{ cbv beta iota delta [assert raise] in H. inversion H; subst.
      split; [assumption|]. exists l0. split; [assumption|].
      left. eexists. repeat split; eauto. }
  destruct (truthy r) eqn:Ht.
  2:{ cbv beta iota delta [assert raise] in H. inversion H; subst.
      split; [assumption|]. exists l0. split; [assumption|].
      left. eexists. repeat split; eauto. }
  cbv beta iota delta [assert ret os_makedirs getitem] in H.
  destruct (has_dir (resolve dst_dir) (dirs w0)) eqn:Hdir.
  { inversion H; subst. split; [assumption|]. exists l0. split; [assumption|].
    left. eexists. repeat split; eauto; intros; congruence. }
  apply clone_repository_spec in H as (Hd & Hs & lc & ok1 & ok2 & Hev & Hcmd & Hout & Hall & Hfail).
  cbn [dirs state_json events made] in Hd, Hs, Hev.
  split; [congruence|].
  exists (l0 ++ EvMakedirs dst_dir :: lc). split.
  { rewrite Hev, Hl0. now rewrite <- !app_assoc. }
  right. exists u, r, l0, lc, ok1, ok2.
  rewrite Ht in Hcmd. repeat split; auto; try congruence.
  rewrite Hcmd. repeat f_equal.
  now destruct (submodules pc) as [[|]|].
Qed.

(** X25. For every install that reaches the clone (the URL resolves, the
    entry has a non-empty revision, the destination, an absolute path
    without [..] and apart from the state file, does not exist yet) the
    commands are determined by the shape of the revision. For seven or more
    lowercase hexadecimal digits, alone or followed by one newline: one
    clone without [--branch] and [--depth] and, once it succeeded, a hard
    reset to that revision, run in the destination. For every other
    revision: one clone with [--branch revision --depth 1] and no reset.
    [--recursive] is among the clone arguments exactly when the entry asks
    for submodules, and the install returns [True] exactly when every
    command succeeded. *)
Theorem clone_invocation_by_shape pc dst_dir remotes default_remote w remote_url r :
  prepare_package_url remotes default_remote pc = Ret remote_url ->
  revision pc = Some r -> truthy r = true ->
  fit_destination E dst_dir = true ->
  has_dir (resolve dst_dir) (dirs w) = false ->
  let run := install_from_remote E pc dst_dir remotes default_remote w in
  let sub := match submodules pc with Some true => ["--recursive"] | _ => [] end in
  exists ok1 ok2,
    ((exists h, lower_hex7 h = true /\ (r = h \/ r = (h ++ nl)%string)) ->
     fst run = Ret (ok1 && ok2)
     /\ commands (new_events w (snd run))
        = (["git"; "clone"] ++ sub ++ [remote_url; to_unix_path dst_dir], None, ok1)
          :: (if ok1
              then [(["git"; "reset"; "--hard"; r], Some (to_unix_path dst_dir), ok2)]
              else []))
    /\ ((forall h, lower_hex7 h = true -> r <> h /\ r <> (h ++ nl)%string) ->
        fst run = Ret ok1
        /\ commands (new_events w (snd run))
           = [(["git"; "clone"; "--branch"; r; "--depth"; "1"]
               ++ sub ++ [remote_url; to_unix_path dst_dir], None, ok1)]).
Proof.
  intros Hu Hr Ht _ Hdir. cbv zeta.
  destruct (install_from_remote E pc dst_dir remotes default_remote w)
    as [out w'] eqn:Hrun.
  apply install_from_remote_spec in Hrun as (_ & l & Hev & Hcases).
  cbn [fst snd]. rewrite (new_events_app _ _ _ Hev).
  destruct Hcases as [(e & _ & _ & _ & Hassert) | Hok].
  - destruct (Hassert _ Hu Hdir) as [_ Hempty]. rewrite Hr in Hempty. congruence.
  - destruct Hok as (u' & r' & l0 & lc & ok1 & ok2 & Hu' & Hr' & _ & _ & _
                     & -> & Hl0 & Hcmd & -> & _).
    assert (u' = remote_url) by congruence. assert (r' = r) by congruence. subst.
    exists ok1, ok2.
    rewrite commands_app, (outputs_no_commands _ Hl0). cbn [app commands flat_map].
    fold (commands lc). rewrite Hcmd. split.
    + intros Hshape. apply is_commit_hash_spec in Hshape. rewrite Hshape.
      split; reflexivity.
    + intros Hshape. destruct (is_commit_hash r) eqn:Hh.
      * apply is_commit_hash_spec in Hh as (h & Hh & Hrh).
        destruct (Hshape h Hh) as [H1 H2]. now destruct Hrh.
      * cbn [negb orb andb]. rewrite andb_true_r. split; reflexivity.
Qed.

(** An entry without a revision, or with the empty one, stops at the
    assertion of [install_from_remote]. *)
Lemma install_from_remote_no_revision pc dst_dir remotes default_remote w u :
  prepare_package_url remotes default_remote pc = Ret u ->
  revision pc = None \/ revision pc = Some EmptyString ->
  install_from_remote E pc dst_dir remotes default_remote w
  = (Raise (AssertionError "Missing project revision!"),
     say E ("Cloning package to `" ++ dst_dir ++ "`") w).
Proof.
  intros Hu Hr. unfold install_from_remote. rewrite Hu.
  cbv beta iota delta [bind lift]. rewrite when_verbose.
  now destruct Hr as [-> | ->].
Qed.

(** C9 (as the code has it). Given the empty revision, [clone_repository]
    clones the branch [main] with depth 1 and prints the warning when the
    verbose flag is on; but the install of the Fetch Engine,
    [install_from_remote], refuses an entry whose revision is empty or
    missing: it raises the assertion error before it creates the
    destination or runs a command. *)
Theorem C9_empty_revision pc dst_dir remotes default_remote remote_url sub w :
  (exists ok,
     fst (clone_repository E dst_dir remote_url EmptyString sub w) = Ret ok
     /\ commands (new_events w (snd (clone_repository E dst_dir remote_url EmptyString sub w)))
        = [(["git"; "clone"; "--branch"; "main"; "--depth"; "1"]
            ++ (if sub then ["--recursive"] else [])
            ++ [remote_url; dst_dir], None, ok)])
  /\ (In (EvPrint "Warning! Commit hash is not specified! Using the `main` branch instead!")
         (new_events w (snd (clone_repository E dst_dir remote_url EmptyString sub w)))
      <-> VERBOSE E = true)
  /\ (prepare_package_url remotes default_remote pc = Ret remote_url ->
      revision pc = None \/ revision pc = Some EmptyString ->
      fst (install_from_remote E pc dst_dir remotes default_remote w)
      = Raise (AssertionError "Missing project revision!")
      /\ dirs (snd (install_from_remote E pc dst_dir remotes default_remote w)) = dirs w
      /\ forallb is_output
           (new_events w (snd (install_from_remote E pc dst_dir remotes default_remote w)))
         = true).
Proof.
  split; [|split].
  - destruct (clone_repository E dst_dir remote_url EmptyString sub w)
      as [out w'] eqn:Hrun.
    apply clone_repository_spec in Hrun
      as (_ & _ & l & ok1 & ok2 & Hev & Hcmd & Hout & _).
    cbn [fst snd]. rewrite (new_events_app _ _ _ Hev).
    exists ok1. split; [rewrite Hout; now destruct ok1|].
    rewrite Hcmd. reflexivity.
  - unfold clone_repository, run_cmd.
    cbv beta iota zeta delta [bind ret when print emit stderr_write
                             is_commit_hash truthy String.eqb negb andb app].
    destruct sub, (VERBOSE E);
      repeat match goal with
             | |- context [check_call E ?w0 ?a ?c] =>
                 destruct (check_call E w0 a c)
             end;
      cbv beta iota zeta delta [negb snd];
      (erewrite new_events_app
         by (cbn [events log]; repeat rewrite <- app_assoc; reflexivity));
      cbn [In app]; split; intros H; try reflexivity; try discriminate;
      repeat (destruct H as [H|H]; try discriminate); auto.
  - intros Hu Hr. rewrite (install_from_remote_no_revision _ dst_dir _ _ w _ Hu Hr).
    cbn [fst snd]. split; [reflexivity|]. split; [apply dirs_say|].
    destruct (events_say ("Cloning package to `" ++ dst_dir ++ "`")%string w)
      as (l & Hl & Hout).
    now rewrite (new_events_app _ _ _ Hl).
Qed.

(** *** One turn of the installation loop *)

Lemma install_projects_cons platform_name pf remotes default_remote pc rest result w :
  install_projects E platform_name pf remotes default_remote (pc :: rest) result w
  = match process_project E platform_name pf remotes default_remote pc result w with
    | (Ret (Continue result'), w1) =>
        install_projects E platform_name pf remotes default_remote rest result' w1
    | (Ret (ReturnFalse result'), w1) => (Ret (false, result'), w1)
    | (Raise e, w1) => (Raise e, w1)
    | (Exit c, w1) => (Exit c, w1)
    end.
Proof.
  cbn [install_projects]. unfold bind.
  destruct (process_project E platform_name pf remotes default_remote pc result w)
    as [[[r|r]|e|c] w1]; reflexivity.
Qed.

(** A turn either leaves the file system alone (the project is not
    required, already there, ignored, or something raised before a
    directory was made), or it makes the package directory and clones. *)
Lemma process_project_spec platform_name pf remotes default_remote pc result w out w' :
  process_project E platform_name pf remotes default_remote pc result w = (out, w') ->
  state_json w' = state_json w /\
  exists l, events w' = events w ++ l /\
  ((dirs w' = dirs w /\ forallb is_output l = true /\
    ((exists e, out = Raise e)
     \/ (out = Ret (Continue result)
         /\ (is_project_required pc platform_name = Ret false
             \/ (is_project_required pc platform_name = Ret true
                 /\ has_dir (package_dir pf pc) (dirs w) = false
                 /\ str_in (name pc) IGNORED_PACKAGES = true)))
     \/ (exists rev, out = Ret (Continue (dict_set (name pc) rev result))
                     /\ is_project_required pc platform_name = Ret true
                     /\ has_dir (package_dir pf pc) (dirs w) = true
                     /\ revision pc = Some rev)))
   \/
   (exists remote_url r l0 lc lt ok1 ok2,
      is_project_required pc platform_name = Ret true
      /\ has_dir (package_dir pf pc) (dirs w) = false
      /\ str_in (name pc) IGNORED_PACKAGES = false
      /\ prepare_package_url remotes default_remote pc = Ret remote_url
      /\ revision pc = Some r /\ truthy r = true
      /\ dirs w' = ancestors (package_dir pf pc) ++ dirs w
      /\ l = l0 ++ EvMakedirs (package_path pf pc) :: lc ++ lt
      /\ forallb is_output l0 = true
      /\ forallb is_stderr lt = true
      /\ forallb (fun e => is_output e || is_run e) lc = true
      /\ commands lc =
           (["git"; "clone"]
            ++ (if is_commit_hash r then [] else ["--branch"; r; "--depth"; "1"])
            ++ (match submodules pc with
                | Some true => ["--recursive"]
                | _ => []
                end)
            ++ [remote_url; to_unix_path (package_path pf pc)], None, ok1)
           :: (if is_commit_hash r && ok1
               then [(["git"; "reset"; "--hard"; r],
                      Some (to_unix_path (package_path pf pc)), ok2)]
               else [])
      /\ ((out = Ret (Continue (dict_set (name pc) r result))
           /\ no_failed_run lc = true)
          \/ (out = Ret (ReturnFalse result) /\ ends_in_failure lc = true)))).
Proof.
  unfold process_project. fold (package_path pf pc). intros H.
  cbv beta iota zeta delta [bind lift os_path_isdir] in H.
  fold (package_dir pf pc) in H.
  destruct (is_project_required pc platform_name) as [[|]|e|c] eqn:Hreq;
    cbv beta iota delta [negb ret] in H.
  2:{ inversion H; subst. split; [reflexivity|]. exists []. rewrite app_nil_r.
      split; [reflexivity|]. left. split; [reflexivity|]. split; [reflexivity|].
      right. left. auto. }
  2:{ inversion H; subst. split; [reflexivity|]. exists []. rewrite app_nil_r.
      split; [reflexivity|]. left. split; [reflexivity|]. split; [reflexivity|].
      left. eauto. }
  2:{ exfalso. rewrite is_project_required_cases in Hreq.
      destruct (startswith "hal_" (name pc) && _); [discriminate|].
      destruct (path pc); discriminate. }
  destruct (has_dir (package_dir pf pc) (dirs w)) eqn:Hdir.
  { rewrite when_verbose in H. name_say H.
    destruct (revision pc) as [rev|] eqn:Hrev; cbv beta iota delta [getitem] in H;
      inversion H; subst; (split; [assumption|]); exists l0; (split; [assumption|]);
      left; (split; [assumption|]); (split; [assumption|]).
    - right. right. exists rev. auto.
    - left. eauto. }
  destruct (str_in (name pc) IGNORED_PACKAGES) eqn:Hign.
  { rewrite when_verbose in H. name_say H.
    inversion H; subst. split; [assumption|]. exists l0. split; [assumption|].
    left. split; [assumption|]. split; [assumption|]. right. left. auto. }
  cbv beta iota delta [print emit] in H.
  match type of H with context [log ?e w] => set (ev := e) in * end.
  destruct (install_from_remote E pc (package_path pf pc) remotes default_remote
              (log ev w)) as [o w1] eqn:Hinst.
  apply install_from_remote_spec in Hinst as (Hs & l & Hev & Hcases).
  cbn [state_json events dirs log] in Hs, Hev, Hcases.
  fold (package_dir pf pc) in Hcases.
  destruct Hcases as [(e & -> & Hd & Hl & _) | Hok].
  { inversion H; subst. split; [assumption|]. exists (ev :: l).
    split; [rewrite Hev; now rewrite <- app_assoc|].
    left. split; [assumption|]. split; [assumption|]. left. eauto. }
  destruct Hok as (u & r & l0 & lc & ok1 & ok2 & Hu & Hr & Ht & _ & Hd & -> & Hl0
                   & Hcmd & -> & Hall & Hfail).
  destruct (ok1 && (negb (is_commit_hash r) || ok2)) eqn:Hok;
    cbv beta iota delta [negb getitem stderr_write emit] in H.
  - rewrite Hr in H. inversion H; subst. split; [assumption|].
    exists ((ev :: l0) ++ EvMakedirs (package_path pf pc) :: lc ++ []).
    split; [rewrite Hev, app_nil_r; cbn [app]; now rewrite <- app_assoc|].
    right. exists u, r, (ev :: l0), lc, [], ok1, ok2.
    repeat (split; [solve [auto]|]). left. auto.
  - inversion H; subst. split; [assumption|].
    match goal with |- context [log ?e w1] => set (ev' := e) end.
    exists ((ev :: l0) ++ EvMakedirs (package_path pf pc) :: lc ++ [ev']).
    split.
    { cbn [events log]. rewrite Hev. cbn [app]. rewrite <- !app_assoc. reflexivity. }
    right. exists u, r, (ev :: l0), lc, [ev'], ok1, ok2.
    repeat (split; [solve [auto]|]). right. auto.
Qed.

(** *** The installation loop *)

(** What the loop leaves behind: the state file is untouched, no directory
    disappears, nothing is removed or saved; a loop that ran to its end has
    run no failing command and leaves every required project either in
    place or ignored; a loop that returned [False] stopped at the failing
    command; and every revision of the record is the revision of a project
    of that name. *)
Lemma install_projects_spec platform_name pf remotes default_remote ps :
  forall result w out w',
  install_projects E platform_name pf remotes default_remote ps result w = (out, w') ->
  state_json w' = state_json w /\
  (forall p, has_dir p (dirs w) = true -> has_dir p (dirs w') = true) /\
  exists l, events w' = events w ++ l /\
    forallb quiet l = true /\
    match out with
    | Ret (true, r) =>
        no_failed_run l = true
        /\ forall pc, In pc ps ->
             is_project_required pc platform_name = Ret true ->
             (has_dir (package_dir pf pc) (dirs w') = true
              \/ str_in (name pc) IGNORED_PACKAGES = true)
             /\ (str_in (name pc) IGNORED_PACKAGES = false ->
                 exists rev, revision pc = Some rev)
    | Ret (false, r) => ends_in_failure l = true
    | Raise e => no_failed_run l = true
    | Exit c => False
    end /\
    (forall b r, out = Ret (b, r) ->
       forall n v, In (n, v) r ->
         In (n, v) result
         \/ exists pc, In pc ps /\ name pc = n /\ revision pc = Some v).
Proof.
  induction ps as [|pc ps IH]; intros result w out w' H.
  - cbn in H. inversion H; subst. split; [reflexivity|]. split; [auto|].
    exists []. rewrite app_nil_r. split; [reflexivity|]. split; [reflexivity|].
    split; [split; [reflexivity | intros ? []]|].
    intros b r Hr. inversion Hr; subst. auto.
  - rewrite install_projects_cons in H.
    destruct (process_project E platform_name pf remotes default_remote pc result w)
      as [o w1] eqn:Hturn.
    apply process_project_spec in Hturn as (Hs1 & l1 & Hev1 & Hcases).
    assert (Hnext : forall result1,
              o = Ret (Continue result1) ->
              (forall p, has_dir p (dirs w) = true -> has_dir p (dirs w1) = true) ->
              forallb quiet l1 = true -> no_failed_run l1 = true ->
              (is_project_required pc platform_name = Ret true ->
               (has_dir (package_dir pf pc) (dirs w1) = true
                \/ str_in (name pc) IGNORED_PACKAGES = true)
               /\ (str_in (name pc) IGNORED_PACKAGES = false ->
                   exists rev, revision pc = Some rev)) ->
              (forall n v, In (n, v) result1 ->
                 In (n, v) result \/ (name pc = n /\ revision pc = Some v)) ->
              state_json w' = state_json w /\
              (forall p, has_dir p (dirs w) = true -> has_dir p (dirs w') = true) /\
              exists l, events w' = events w ++ l /\
                forallb quiet l = true /\
                match out with
                | Ret (true, r) =>
                    no_failed_run l = true
                    /\ forall pc0, In pc0 (pc :: ps) ->
                         is_project_required pc0 platform_name = Ret true ->
                         (has_dir (package_dir pf pc0) (dirs w') = true
                          \/ str_in (name pc0) IGNORED_PACKAGES = true)
                         /\ (str_in (name pc0) IGNORED_PACKAGES = false ->
                             exists rev, revision pc0 = Some rev)
                | Ret (false, r) => ends_in_failure l = true
                | Raise e => no_failed_run l = true
                | Exit c => False
                end /\
                (forall b r, out = Ret (b, r) ->
                   forall n v, In (n, v) r ->
                     In (n, v) result
                     \/ exists pc0, In pc0 (pc :: ps) /\ name pc0 = n
                                    /\ revision pc0 = Some v)).
    { intros result1 -> Hmono Hq1 Hc1 Hpc Hres.
      apply IH in H as (Hs & Hmono' & l & Hev & Hq & Hout & Hprov).
      split; [congruence|]. split; [auto|].
      exists (l1 ++ l). split; [rewrite Hev, Hev1; now rewrite app_assoc|].
      split; [now rewrite forallb_app, Hq1, Hq|]. split.
      - destruct out as [[[|] r]|e|c]; auto.
        + destruct Hout as [Hc Hall]. split; [now rewrite no_failed_run_app, Hc1, Hc|].
          intros pc0 [<-|Hin] Hreq; [|now apply Hall].
          destruct (Hpc Hreq) as [[Hd|Hi] Hrev]; auto.
        + now rewrite ends_in_failure_app_l.
        + now rewrite no_failed_run_app, Hc1, Hout.
      - intros b r Hr n v Hin. destruct (Hprov b r Hr n v Hin) as [Hin1|(pc0 & ? & ? & ?)].
        + destruct (Hres n v Hin1) as [?|[? ?]]; [now left|].
          right. exists pc. simpl. auto.
        + right. exists pc0. simpl. auto. }
    destruct Hcases as [(Hd1 & Hout1 & Hquiet) | Hinst].
    + destruct Hquiet as [(e & ->) | [(-> & Hwhy) | (rev & -> & Hreq & Hdir & Hrev)]].
      * inversion H; subst. split; [assumption|]. split; [now rewrite Hd1|].
        exists l1. repeat split; auto using outputs_quiet, outputs_no_failed_run.
        intros b r Hr. discriminate.
      * apply (Hnext result eq_refl); auto using outputs_quiet, outputs_no_failed_run.
        -- now rewrite Hd1.
        -- intros Hreq. destruct Hwhy as [Hno | (_ & _ & Hign)]; [congruence|].
           split; [now right | congruence].
      * apply (Hnext _ eq_refl); auto using outputs_quiet, outputs_no_failed_run.
        -- now rewrite Hd1.
        -- intros _. rewrite Hd1. split; [now left | eauto].
        -- intros n v Hin. apply In_dict_set in Hin as [Heq|Hin]; [|now left].
           inversion Heq; subst. now right.
    + destruct Hinst as (u & r & l0 & lc & lt & ok1 & ok2 & Hreq & Hdir & Hign & Hu & Hrev
                         & Ht & Hd1 & -> & Hl0 & Hlt & Hall & Hcmd & Hres).
      assert (Hq1 : forallb quiet (l0 ++ EvMakedirs (package_path pf pc) :: lc ++ lt) = true).
      { rewrite forallb_app. cbn [forallb]. rewrite forallb_app.
        rewrite (outputs_quiet _ Hl0), (outputs_quiet _ (stderr_outputs _ Hlt)), (runs_quiet _ Hall).
        reflexivity. }
      assert (Hmono : forall p, has_dir p (dirs w) = true -> has_dir p (dirs w1) = true).
      { intros p Hp. rewrite Hd1, has_dir_app, Hp. apply orb_true_r. }
      destruct Hres as [(-> & Hclean) | (-> & Hfail)].
      * apply (Hnext _ eq_refl); auto.
        -- rewrite no_failed_run_app, (outputs_no_failed_run _ Hl0).
           change (EvMakedirs (package_path pf pc) :: lc ++ lt)
             with ([EvMakedirs (package_path pf pc)] ++ lc ++ lt).
           rewrite !no_failed_run_app, Hclean, (outputs_no_failed_run _ (stderr_outputs _ Hlt)).
           reflexivity.
        -- intros _. split; [|eauto]. left. rewrite Hd1, has_dir_app.
           apply orb_true_iff. left. apply has_dir_In, ancestors_self.
        -- intros n v Hin. apply In_dict_set in Hin as [Heq|Hin]; [|now left].
           inversion Heq; subst. now right.
      * inversion H; subst. split; [assumption|]. split; [assumption|].
        exists (l0 ++ EvMakedirs (package_path pf pc) :: lc ++ lt).
        split; [assumption|]. split; [assumption|]. split.
        -- rewrite ends_in_failure_app_l by now apply outputs_no_failed_run.
           change (EvMakedirs (package_path pf pc) :: lc ++ lt)
             with ([EvMakedirs (package_path pf pc)] ++ lc ++ lt).
           rewrite ends_in_failure_app_l by reflexivity.
           now apply ends_in_failure_app_r.
        -- intros b r0 Hr n v Hin. inversion Hr; subst. now left.
Qed.

Lemma install_projects_grown platform_name pf remotes default_remote ps :
  forall result w out w',
  install_projects E platform_name pf remotes default_remote ps result w = (out, w') ->
  grown (dirs w) (dirs w').
Proof.
  induction ps as [|pc ps IH]; intros result w out w' H.
  - cbn in H. inversion H; subst. apply grown_refl.
  - rewrite install_projects_cons in H.
    destruct (process_project E platform_name pf remotes default_remote pc result w)
      as [o w1] eqn:Hturn.
    apply process_project_spec in Hturn as (_ & l1 & _ & Hcases).
    assert (Hg : grown (dirs w) (dirs w1)).
    { destruct Hcases as [(-> & _) | (u & r & l0 & lc & lt & ok1 & ok2 & _ & _ & _ & _
                                     & _ & _ & -> & _)].
      - apply grown_refl.
      - apply grown_made. }
    destruct o as [[r|r]|e|c]; try (inversion H; subst; assumption).
    eapply grown_trans; eauto.
Qed.

(** *** The drift phase *)

Lemma fs_ok_removed p w : fs_ok E w = true -> fs_ok E (removed E p w) = true.
Proof.
  unfold fs_ok. cbn [dirs state_json removed]. intros H.
  apply andb_true_iff in H as [Hc Hs]. rewrite closed_dirs_removed by assumption.
  destruct (is_under (resolve p) (resolve (state_file E))) eqn:Hu; [reflexivity|].
  destruct (state_json w); [|reflexivity].
  rewrite has_dir_filter_under, Hs. simpl.
  destruct (is_under (resolve p) (resolve (packages_folder E))) eqn:Hp; [|reflexivity].
  rewrite (is_under_trans _ _ _ Hp (state_file_in_packages_folder E)) in Hu.
  discriminate.
Qed.

Lemma fs_ok_grown w w' :
  grown (dirs w) (dirs w') -> state_json w' = state_json w ->
  fs_ok E w = true -> fs_ok E w' = true.
Proof.
  unfold fs_ok. intros Hg Hs H. apply andb_true_iff in H as [Hc Hst].
  rewrite (grown_closed _ _ Hg Hc), Hs. simpl.
  destruct (state_json w); [|reflexivity]. eauto using grown_has_dir.
Qed.

Lemma clear_deprecated_package_spec path pf w out w' :
  clear_deprecated_package E path pf w = (out, w') ->
  (fs_ok E w = true -> fs_ok E w' = true) /\
  (forall p, has_dir p (dirs w') = true -> has_dir p (dirs w) = true) /\
  exists l, events w' = events w ++ l /\
    forallb (fun e => is_output e || is_rmtree e) l = true /\
    (out = Ret tt \/ exists e, out = Raise e) /\
    (out = Ret tt -> exists p, path = Some p
                              /\ has_dir (resolve (os_path_join pf p)) (dirs w') = false
                              /\ (has_dir (resolve (os_path_join pf p)) (dirs w) = true ->
                                  w' = removed E (os_path_join pf p) w)
                              /\ (has_dir (resolve (os_path_join pf p)) (dirs w) = false ->
                                  w' = log (EvPrint "Package path not found") w)).
Proof.
  unfold clear_deprecated_package. destruct path as [p|].
  2:{ intros H. inversion H; subst. split; [auto|]. split; [auto|].
      exists []. rewrite app_nil_r. repeat split; eauto. discriminate. }
  cbv beta iota zeta delta [bind os_path_isdir shutil_rmtree print emit].
  destruct (has_dir (resolve (os_path_join pf p)) (dirs w)) eqn:Hd.
  - destruct (rmtree_ok E w (os_path_join pf p)); intros H; inversion H; subst.
    + split; [apply fs_ok_removed|]. split.
      { intros q. cbn [dirs removed]. rewrite has_dir_filter_under.
        intros Hq. now apply andb_true_iff in Hq as [Hq _]. }
      exists [EvRmtree (os_path_join pf p)]. repeat split; auto.
      intros _. exists p. repeat split; auto; [|congruence].
      cbn [dirs removed]. rewrite has_dir_filter_under, is_under_refl.
      apply andb_false_r.
    + split; [auto|]. split; [auto|]. exists []. rewrite app_nil_r.
      repeat split; eauto. discriminate.
  - intros H. inversion H; subst. split; [auto|]. split; [auto|].
    exists [EvPrint "Package path not found"]. repeat split; auto.
    intros _. exists p. repeat split; auto. congruence.
Qed.

Lemma clear_modified_spec pf ms :
  forall w out w',
  clear_modified E pf ms w = (out, w') ->
  (fs_ok E w = true -> fs_ok E w' = true) /\
  (forall p, has_dir p (dirs w') = true -> has_dir p (dirs w) = true) /\
  exists l, events w' = events w ++ l /\
    forallb (fun e => is_output e || is_rmtree e) l = true /\
    (out = Ret tt \/ exists e, out = Raise e).
Proof.
  induction ms as [|d ms IH]; intros w out w' H.
  - cbn in H. inversion H; subst. split; [auto|]. split; [auto|].
    exists []. rewrite app_nil_r. auto.
  - cbn [clear_modified] in H. cbv beta iota delta [bind print emit] in H.
    match type of H with context [log ?e w] => set (ev := e) in * end.
    destruct (clear_deprecated_package E (m_path d) pf (log ev w)) as [o w1] eqn:Hc.
    apply clear_deprecated_package_spec in Hc
      as (Hok1 & Hanti1 & l1 & Hev1 & Hl1 & Hout1 & _).
    cbn [events log] in Hev1.
    destruct o as [[]|e|c].
    + apply IH in H as (Hok & Hanti & l & Hev & Hl & Hout).
      split; [auto|]. split; [auto|].
      exists (ev :: l1 ++ l). split.
      { rewrite Hev, Hev1. rewrite <- !app_assoc. reflexivity. }
      split; [|assumption]. cbn [forallb]. now rewrite forallb_app, Hl1, Hl.
    + inversion H; subst. split; [auto|]. split; [auto|].
      exists (ev :: l1). split; [rewrite Hev1; now rewrite <- app_assoc|].
      split; [assumption | eauto].
    + destruct Hout1 as [?|[? ?]]; discriminate.
Qed.

(** *** process_bundled_projects *)

Lemma rmtree_not_saved (l : list event) :
  forallb (fun e => is_output e || is_rmtree e) l = true ->
  forallb (fun e => negb (is_save_state e)) l = true
  /\ commands l = [] /\ no_failed_run l = true.
Proof.
  intros H. assert (Hc : commands l = []).
  { induction l as [|e l IH]; [reflexivity|]. cbn [forallb] in H.
    apply andb_true_iff in H as [He Hl]. destruct e; try discriminate; cbn; auto. }
  split; [|split; [assumption | now apply no_commands_no_failed_run]].
  revert H. apply forallb_impl. now intros [].
Qed.

Lemma quiet_not_saved (l : list event) :
  forallb quiet l = true -> forallb (fun e => negb (is_save_state e)) l = true.
Proof. apply forallb_impl. intros e H. now apply andb_true_iff in H as [_ H]. Qed.

(** The part of [process_bundled_projects] before the loop: the
    assertion, the package folder, the drift phase, the registry. *)
Lemma process_bundled_projects_eq platform_name pf m sm w :
  process_bundled_projects E platform_name pf m sm w
  = match projects m with
    | None =>
        (Raise (AssertionError "Missing the `projects` field in the package manifest!"), w)
    | Some ps =>
        let w1 := if has_dir (resolve pf) (dirs w) then w else made pf w in
        match
          match sm with
          | Some ((_ :: _) as state) =>
              clear_modified E pf (modified_entries (dict_of name ps) state) w1
          | _ => (Ret tt, w1)
          end
        with
        | (Ret _, w2) =>
            match remotes m with
            | None => (Raise (KeyError "remotes"), w2)
            | Some rs =>
                install_projects E platform_name pf (remotes_dict rs)
                  (match defaults_remote m with
                   | Some r => r
                   | None => EmptyString
                   end) ps [] w2
            end
        | (Raise e, w2) => (Raise e, w2)
        | (Exit c, w2) => (Exit c, w2)
        end
    end.
Proof.
  unfold process_bundled_projects.
  destruct (projects m) as [ps|]; [|reflexivity].
  cbv beta iota zeta delta [bind assert ret os_path_isdir when os_makedirs lift getitem].
  destruct (has_dir (resolve pf) (dirs w)) eqn:Hd; cbv beta iota delta [negb].
  - destruct sm as [[|x st]|]; cbv beta iota;
      try destruct (clear_modified E pf _ w) as [[[]|e|c] w2];
      destruct (remotes m); reflexivity.
  - rewrite Hd.
    destruct sm as [[|x st]|]; cbv beta iota;
      try destruct (clear_modified E pf _ (made pf w)) as [[[]|e|c] w2];
      destruct (remotes m); reflexivity.
Qed.

Lemma process_bundled_projects_spec platform_name pf m sm w out w' :
  process_bundled_projects E platform_name pf m sm w = (out, w') ->
  (fs_ok E w = true -> fs_ok E w' = true) /\
  exists l, events w' = events w ++ l /\
    forallb (fun e => negb (is_save_state e)) l = true /\
    match out with
    | Ret (true, r) => no_failed_run l = true
    | Ret (false, r) => ends_in_failure l = true
    | Raise e => no_failed_run l = true
    | Exit c => False
    end.
Proof.
  rewrite process_bundled_projects_eq.
  destruct (projects m) as [ps|].
  2:{ intros H. inversion H; subst. split; [auto|]. exists []. rewrite app_nil_r. auto. }
  cbv zeta.
  set (w1 := if has_dir (resolve pf) (dirs w) then w else made pf w).
  assert (H1 : (fs_ok E w = true -> fs_ok E w1 = true)
               /\ exists l1, events w1 = events w ++ l1
                             /\ forallb (fun e => negb (is_save_state e)) l1 = true
                             /\ no_failed_run l1 = true).
  { subst w1. destruct (has_dir (resolve pf) (dirs w)).
    - split; [auto|]. exists []. rewrite app_nil_r. auto.
    - split; [apply fs_ok_grown; [apply grown_made | reflexivity]|].
      exists [EvMakedirs pf]. auto. }
  destruct H1 as (Hok1 & l1 & Hev1 & Hs1 & Hc1). clearbody w1.
  assert (H2 : forall o w2,
            match sm with
            | Some ((_ :: _) as state) =>
                clear_modified E pf (modified_entries (dict_of name ps) state) w1
            | _ => (Ret tt, w1)
            end = (o, w2) ->
            (fs_ok E w1 = true -> fs_ok E w2 = true)
            /\ exists l2, events w2 = events w1 ++ l2
                          /\ forallb (fun e => negb (is_save_state e)) l2 = true
                          /\ no_failed_run l2 = true
                          /\ (o = Ret tt \/ exists e, o = Raise e)).
  { intros o w2 Hdrift.
    assert (Hskip : (Ret tt, w1) = (o, w2) ->
              (fs_ok E w1 = true -> fs_ok E w2 = true)
              /\ exists l2, events w2 = events w1 ++ l2
                            /\ forallb (fun e => negb (is_save_state e)) l2 = true
                            /\ no_failed_run l2 = true
                            /\ (o = Ret tt \/ exists e, o = Raise e)).
    { intros Heq. inversion Heq; subst. split; [auto|]. exists []. rewrite app_nil_r. auto. }
    destruct sm as [[|x st]|]; auto.
    apply clear_modified_spec in Hdrift as (Hok & _ & l2 & Hev & Hl & Hout).
    split; [assumption|]. exists l2.
    destruct (rmtree_not_saved _ Hl) as (Hsv & _ & Hcl). auto. }
  destruct (match sm with
            | Some ((_ :: _) as state) =>
                clear_modified E pf (modified_entries (dict_of name ps) state) w1
            | _ => (Ret tt, w1)
            end) as [o w2] eqn:Hdrift.
  destruct (H2 _ _ eq_refl) as (Hok2 & l2 & Hev2 & Hs2 & Hc2 & Hout2).
  destruct o as [[]|e|c].
  - destruct (remotes m) as [rs|].
    + intros H. pose proof (install_projects_grown _ _ _ _ _ _ _ _ _ H) as Hg.
      apply install_projects_spec in H as (Hst & _ & l & Hev & Hq & Hout & _).
      split; [eauto using fs_ok_grown|].
      exists (l1 ++ l2 ++ l). split.
      { rewrite Hev, Hev2, Hev1. now rewrite <- !app_assoc. }
      split; [now rewrite !forallb_app, Hs1, Hs2, (quiet_not_saved _ Hq)|].
      destruct out as [[[|] r]|e|c]; auto.
      * destruct Hout as [Hc _]. now rewrite !no_failed_run_app, Hc1, Hc2, Hc.
      * now rewrite !ends_in_failure_app_l.
      * now rewrite !no_failed_run_app, Hc1, Hc2, Hout.
    + intros H. inversion H; subst. split; [auto|]. exists (l1 ++ l2).
      split; [rewrite Hev2, Hev1; now rewrite <- app_assoc|].
      split; [now rewrite forallb_app, Hs1, Hs2|].
      now rewrite no_failed_run_app, Hc1, Hc2.
  - intros H. inversion H; subst. split; [auto|]. exists (l1 ++ l2).
    split; [rewrite Hev2, Hev1; now rewrite <- app_assoc|].
    split; [now rewrite forallb_app, Hs1, Hs2|].
    now rewrite no_failed_run_app, Hc1, Hc2.
  - destruct Hout2 as [?|[? ?]]; discriminate.
Qed.

(** *** clean_up and main *)

Lemma clean_up_eq pf w :
  clean_up E pf w
  = let w0 := say E "Installation failed. Cleaning package directory..." w in
    if has_dir (resolve pf) (dirs w0) then
      if rmtree_ok E w0 pf then (Ret tt, removed E pf w0)
      else (Exit 1,
            log (EvStderr ("Error: Failed to remove packages folder after failed "
                           ++ "installation. Please remove the `" ++ pf
                           ++ "` folder manually!" ++ nl)) w0)
    else (Ret tt, w0).
Proof.
  unfold clean_up. erewrite bind_Ret by apply when_verbose.
  cbv beta iota zeta delta [bind os_path_isdir when try_except shutil_rmtree
                             stderr_write emit sys_exit ret].
  destruct (has_dir (resolve pf) (dirs _)); [|reflexivity].
  now destruct (rmtree_ok E _ pf).
Qed.

Lemma os_path_isfile_state_file w :
  os_path_isfile E (state_file E) w
  = (Ret (match state_json w with Some _ => true | None => false end), w).
Proof. unfold os_path_isfile. now rewrite fpath_eqb_refl. Qed.

(** The run, step by step. *)
Lemma main_eq platform_name secondary_installation manifest_path w :
  main E platform_name secondary_installation manifest_path w
  = if match state_json w with Some _ => true | None => false end
       && negb secondary_installation
    then (Exit 0, say E "The state file is present. Skipping installation." w)
    else if negb (which_git E)
    then (Exit 1,
          log (EvStderr ("Error: A Git client is not installed in your system! "
                         ++ "Install a Git client from https://git-scm.com/downloads and try again."
                         ++ nl)) w)
    else match manifest_path with
         | NoManifestFile p =>
             (Exit 1, log (EvStderr ("Error: Couldn't find `" ++ p ++ "`" ++ nl)) w)
         | BadYaml p exc =>
             (Exit 1,
              log (EvStderr (exc ++ nl))
                (log (EvStderr ("Warning! Failed to parse `" ++ p ++ "`." ++ nl)) w))
         | ManifestDoc m =>
             match process_bundled_projects E platform_name (packages_folder E) m
                     (state_json w) w with
             | (Ret (true, []), w1) => (Exit 0, w1)
             | (Ret (true, ((_ :: _) as state)), w1) =>
                 (Exit 0, snd (save_state (state_file E) state w1))
             | (Ret (false, _), w1) =>
                 match clean_up E (packages_folder E) w1 with
                 | (Ret _, w2) => (Exit 1, w2)
                 | (Raise e, w2) => (Raise e, w2)
                 | (Exit c, w2) => (Exit c, w2)
                 end
             | (Raise e, w1) => (Raise e, w1)
             | (Exit c, w1) => (Exit c, w1)
             end
         end.
Proof.
  unfold main. erewrite bind_Ret by apply os_path_isfile_state_file.
  destruct (match state_json w with Some _ => true | None => false end
            && negb secondary_installation) eqn:Hshort.
  { erewrite bind_Ret by apply when_verbose. reflexivity. }
  destruct (which_git E); cbv beta iota delta [negb]; [|reflexivity].
  destruct manifest_path as [p|p exc|m]; try reflexivity.
  unfold load_west_manifest. erewrite bind_Ret by reflexivity.
  erewrite bind_Ret by apply os_path_isfile_state_file.
  assert (Hst : (if match state_json w with Some _ => true | None => false end
                 then bind (load_state_json (state_file E)) (fun s => ret (Some s))
                 else ret None) w = (Ret (state_json w), w)).
  { unfold load_state_json, bind, ret.
    destruct (state_json w) eqn:Hs; cbv beta iota; rewrite ?Hs; reflexivity. }
  erewrite bind_Ret by apply Hst. unfold bind at 1.
  destruct (process_bundled_projects E platform_name (packages_folder E) m
              (state_json w) w) as [[[[|] [|x st]]|e|c] w1]; try reflexivity.
Qed.

Lemma script_eq platform_name secondary_installation manifest_path w :
  script E platform_name secondary_installation manifest_path w
  = match main E platform_name secondary_installation manifest_path w with
    | (Raise e, w1) =>
        (Exit 1,
         log (EvStderr (exn_str e ++ nl))
           (log (EvStderr ("Error: Unknown exception occured. Failed to install bundled projects!"
                           ++ nl)) w1))
    | r => r
    end.
Proof.
  unfold script, try_except.
  destruct (main E platform_name secondary_installation manifest_path w)
    as [[[]|e|c] w1]; reflexivity.
Qed.

Lemma drift_phase_eq pf ps sm w :
  drift_phase E pf ps sm w
  = match sm with
    | Some ((_ :: _) as state) =>
        clear_modified E pf (modified_entries (dict_of name ps) state) w
    | _ => (Ret tt, w)
    end.
Proof. destruct sm as [[|x st]|]; reflexivity. Qed.

(** A run of [process_bundled_projects] that returned went through the
    folder check, the drift phase and the loop. *)
Lemma process_bundled_projects_returned platform_name pf m sm w b r w' :
  process_bundled_projects E platform_name pf m sm w = (Ret (b, r), w') ->
  exists ps rs w2,
    projects m = Some ps /\ remotes m = Some rs
    /\ drift_phase E pf ps sm (ensure_folder pf w) = (Ret tt, w2)
    /\ install_projects E platform_name pf (remotes_dict rs)
         (match defaults_remote m with Some x => x | None => EmptyString end)
         ps [] w2 = (Ret (b, r), w').
Proof.
  rewrite process_bundled_projects_eq.
  destruct (projects m) as [ps|]; [|discriminate]. cbv zeta.
  fold (ensure_folder pf w). rewrite <- drift_phase_eq.
  destruct (drift_phase E pf ps sm (ensure_folder pf w)) as [[[]|e|c] w2] eqn:Hd;
    try discriminate.
  destruct (remotes m) as [rs|] eqn:Hr; [|discriminate].
  intros H. exists ps, rs, w2. repeat split; assumption || reflexivity.
Qed.

Lemma not_saved_In (l : list event) f st :
  forallb (fun e => negb (is_save_state e)) l = true -> ~ In (EvSaveState f st) l.
Proof.
  intros H Hin. rewrite forallb_forall in H. now apply H in Hin.
Qed.

(** C8 (as the code has it). The state file is written only by a run whose
    [process_bundled_projects] returned [True]: then no command failed, the
    run ends with status 0 and the file holds the whole accumulated record;
    and a run that processed every entry without a fetch failure writes the
    accumulated record whenever that record is not empty (with an empty
    record the run writes no state file: it ends with status 0 where
    [process_bundled_projects] left off). *)
Theorem C8_state_persistence platform_name secondary_installation manifest_path
    w out w' :
  main E platform_name secondary_installation manifest_path w = (out, w') ->
  (forall f st, In (EvSaveState f st) (new_events w w') ->
     out = Exit 0 /\ f = state_file E /\ state_json w' = Some st /\ st <> []
     /\ no_failed_run (new_events w w') = true
     /\ exists m, manifest_path = ManifestDoc m
                  /\ fst (process_bundled_projects E platform_name (packages_folder E)
                            m (state_json w) w) = Ret (true, st))
  /\ (forall m st w1,
        manifest_path = ManifestDoc m ->
        state_json w = None \/ secondary_installation = true ->
        which_git E = true ->
        process_bundled_projects E platform_name (packages_folder E) m (state_json w) w
        = (Ret (true, st), w1) ->
        out = Exit 0
        /\ (st <> [] ->
            state_json w' = Some st
            /\ dirs w' = dirs w1
            /\ new_events w1 w' = [EvSaveState (state_file E) st])
        /\ (st = [] ->
            w' = w1
            /\ forallb (fun e => negb (is_save_state e)) (new_events w w') = true)).
Proof.
  rewrite main_eq. intros H. split.
  - intros f st Hin.
    assert (Hquiet : forall l, events w' = events w ++ l ->
              forallb (fun e => negb (is_save_state e)) l = true -> False).
    { intros l Hev Hl. rewrite (new_events_app _ _ _ Hev) in Hin.
      now apply not_saved_In in Hin. }
    destruct (match state_json w with Some _ => true | None => false end
              && negb secondary_installation).
    { exfalso. name_say H. inversion H; subst.
      eapply Hquiet; eauto. revert Hout0. apply forallb_impl. now intros []. }
    destruct (which_git E); cbv beta iota delta [negb] in H.
    2:{ exfalso. inversion H; subst. eapply Hquiet; cbn [events log]; reflexivity. }
    destruct manifest_path as [p|p exc|m].
    { exfalso. inversion H; subst. eapply Hquiet; cbn [events log]; reflexivity. }
    { exfalso. inversion H; subst.
      apply (Hquiet [EvStderr ("Warning! Failed to parse `" ++ p ++ "`." ++ nl)%string;
                     EvStderr (exc ++ nl)%string]); [|reflexivity].
      cbn [events log]. now rewrite <- app_assoc. }
    destruct (process_bundled_projects E platform_name (packages_folder E) m
                (state_json w) w) as [o w1] eqn:Hp.
    pose proof Hp as Hp'.
    apply process_bundled_projects_spec in Hp as (_ & l & Hev & Hsv & Hout).
    destruct o as [[[|] r]|e|c]; [| | |contradiction].
    + destruct r as [|x r].
      { exfalso. inversion H; subst. eauto. }
      remember (snd (save_state (state_file E) (x :: r) w1)) as w2 eqn:Hw2.
      assert (Hsaved : events w2 = events w1 ++ [EvSaveState (state_file E) (x :: r)]
                       /\ state_json w2 = Some (x :: r))
        by (subst w2; split; reflexivity).
      clear Hw2. destruct Hsaved as [Hev2 Hst2]. inversion H; subst.
      assert (Hn : new_events w w' = l ++ [EvSaveState (state_file E) (x :: r)]).
      { apply new_events_app. rewrite Hev2, Hev. now rewrite <- app_assoc. }
      rewrite Hn in Hin |- *. apply in_app_iff in Hin as [Hin|[Heq|[]]].
      { now apply not_saved_In in Hin. }
      inversion Heq; subst. split; [reflexivity|]. split; [reflexivity|].
      split; [assumption|]. split; [discriminate|]. split.
      { rewrite no_failed_run_app, Hout. reflexivity. }
      exists m. rewrite Hp'. auto.
    + exfalso. rewrite clean_up_eq in H. cbv zeta in H. name_say H.
      assert (Hl0 : forallb (fun e => negb (is_save_state e)) l0 = true).
      { revert Hout0. apply forallb_impl. now intros []. }
      destruct (has_dir (resolve (packages_folder E)) (dirs w0)).
      * destruct (rmtree_ok E w0 (packages_folder E)); inversion H; subst;
          (eapply Hquiet;
           [cbn [events removed log]; rewrite Hev0, Hev; rewrite <- !app_assoc; reflexivity
           |now rewrite !forallb_app, Hsv, Hl0]).
      * inversion H; subst. apply (Hquiet (l ++ l0)).
        -- rewrite Hev0, Hev. now rewrite <- !app_assoc.
        -- now rewrite !forallb_app, Hsv, Hl0.
    + exfalso. inversion H; subst. eauto.
  - intros m st w1 -> Hgate Hgit Hp.
    assert (Hshort : match state_json w with Some _ => true | None => false end
                     && negb secondary_installation = false).
    { destruct Hgate as [-> | ->]; [reflexivity | apply andb_false_r]. }
    rewrite Hshort, Hgit, Hp in H. cbv beta iota delta [negb] in H.
    pose proof Hp as Hp'.
    apply process_bundled_projects_spec in Hp' as (_ & l & Hev & Hsv & _).
    destruct st as [|x st]; inversion H; subst.
    + split; [reflexivity|]. split; [congruence|]. intros _.
      split; [reflexivity|]. now rewrite (new_events_app _ _ _ Hev).
    + split; [reflexivity|]. split; [|discriminate]. intros _.
      split; [reflexivity|]. split; [reflexivity|].
      apply new_events_app. reflexivity.
Qed.

(** C1. Whenever a fetch command of a run fails (the Fetch Engine fails
    on some entry B), the run ends with status 1; after the failed command
    the run does nothing but write error messages, announce the clean-up
    and remove the package folder (nothing is announced, made or run for an
    entry after B); the run writes no state file; and, the file system
    being consistent and the operating system carrying out the removal,
    nothing is left at or below the package folder, the state file
    included. *)
Theorem C1_fail_fast_cleanup platform_name secondary_installation manifest_path
    w out w' t :
  main E platform_name secondary_installation manifest_path w = (out, w') ->
  after_failure (new_events w w') = Some t ->
  out = Exit 1
  /\ forallb is_cleanup_event t = true
  /\ forallb (fun e => negb (is_save_state e)) (new_events w w') = true
  /\ (fs_ok E w = true ->
      (forall w0, rmtree_ok E w0 (packages_folder E) = true) ->
      state_json w' = None
      /\ forall d, In d (dirs w') -> is_under (resolve (packages_folder E)) d = false).
Proof.
  rewrite main_eq. intros H Hfail.
  assert (Hquiet : forall l, events w' = events w ++ l -> forallb is_output l = true -> False).
  { intros l Hev Hl. rewrite (new_events_app _ _ _ Hev) in Hfail.
    apply outputs_no_failed_run, no_failed_run_None in Hl. congruence. }
  destruct (match state_json w with Some _ => true | None => false end
            && negb secondary_installation).
  { exfalso. name_say H. inversion H; subst. eauto. }
  destruct (which_git E); cbv beta iota delta [negb] in H.
  2:{ exfalso. inversion H; subst. eapply Hquiet; cbn [events log]; reflexivity. }
  destruct manifest_path as [p|p exc|m].
  { exfalso. inversion H; subst. eapply Hquiet; cbn [events log]; reflexivity. }
  { exfalso. inversion H; subst.
    apply (Hquiet [EvStderr ("Warning! Failed to parse `" ++ p ++ "`." ++ nl)%string;
                   EvStderr (exc ++ nl)%string]); [|reflexivity].
    cbn [events log]. now rewrite <- app_assoc. }
  destruct (process_bundled_projects E platform_name (packages_folder E) m
              (state_json w) w) as [o w1] eqn:Hp.
  apply process_bundled_projects_spec in Hp as (Hok & l & Hev & Hsv & Hout).
  destruct o as [[[|] st]|e|c]; [| | |contradiction].
  - exfalso. apply no_failed_run_None in Hout.
    destruct st as [|x st]; inversion H; subst.
    + rewrite (new_events_app _ _ _ Hev) in Hfail. congruence.
    + rewrite (new_events_app _ _ (l ++ [EvSaveState (state_file E) (x :: st)])) in Hfail.
      * rewrite after_failure_app, Hout in Hfail. discriminate.
      * cbn [snd save_state events]. rewrite Hev. now rewrite <- app_assoc.
  - rewrite clean_up_eq in H. cbv zeta in H.
    remember (say E "Installation failed. Cleaning package directory..." w1) as w0 eqn:Hw0.
    assert (Hsay : exists l0, events w0 = events w1 ++ l0
                              /\ forallb is_cleanup_event l0 = true
                              /\ dirs w0 = dirs w1 /\ state_json w0 = state_json w1).
    { subst w0. unfold say. destruct (VERBOSE E).
      - exists [EvPrint "Installation failed. Cleaning package directory..."].
        repeat split.
      - exists []. rewrite app_nil_r. repeat split. }
    clear Hw0. destruct Hsay as (l0 & Hev0 & Hout0 & Hd0 & Hs0).
    unfold ends_in_failure in Hout.
    destruct (after_failure l) as [t0|] eqn:Ht0; [|discriminate].
    assert (Hnew : forall l2, events w' = events w0 ++ l2 ->
              forallb is_cleanup_event l2 = true ->
              forallb is_cleanup_event t = true
              /\ forallb (fun e => negb (is_save_state e)) (new_events w w') = true).
    { intros l2 Hev2 Hl2.
      assert (Hn : new_events w w' = l ++ l0 ++ l2).
      { apply new_events_app. rewrite Hev2, Hev0, Hev. now rewrite <- !app_assoc. }
      rewrite Hn in Hfail. rewrite after_failure_app, Ht0 in Hfail.
      inversion Hfail; subst t. rewrite Hn. split.
      - rewrite !forallb_app, Hout0, Hl2.
        rewrite (forallb_impl is_stderr is_cleanup_event t0); auto. now intros [].
      - rewrite !forallb_app, Hsv.
        rewrite (forallb_impl is_cleanup_event (fun e => negb (is_save_state e)) l0),
                (forallb_impl is_cleanup_event (fun e => negb (is_save_state e)) l2);
          auto; now intros []. }
    destruct (has_dir (resolve (packages_folder E)) (dirs w0)) eqn:Hdir.
    + destruct (rmtree_ok E w0 (packages_folder E)) eqn:Hrm; inversion H; subst.
      * destruct (Hnew [EvRmtree (packages_folder E)] eq_refl eq_refl) as (Ht & Hs).
        split; [reflexivity|]. split; [assumption|]. split; [assumption|].
        intros _ _. split.
        -- cbn [state_json removed]. now rewrite state_file_in_packages_folder.
        -- intros d Hd. cbn [dirs removed] in Hd. apply filter_In in Hd as [_ Hd].
           now apply negb_true_iff in Hd.
      * match goal with |- context [log ?e w0] =>
          destruct (Hnew [e] eq_refl eq_refl) as (Ht & Hs) end.
        split; [reflexivity|]. split; [assumption|]. split; [assumption|].
        intros _ Hall. rewrite Hall in Hrm. discriminate.
    + inversion H; subst.
      destruct (Hnew [] (eq_sym (app_nil_r _)) eq_refl) as (Ht & Hs).
      split; [reflexivity|]. split; [assumption|]. split; [assumption|].
      intros Hfs _. specialize (Hok Hfs). unfold fs_ok in Hok.
      apply andb_true_iff in Hok as [Hclosed Hstate].
      rewrite <- Hs0, <- Hd0, Hdir in Hstate. rewrite <- Hd0 in Hclosed. split.
      * destruct (state_json w'); [discriminate | reflexivity].
      * now apply closed_dirs_nothing_below.
  - exfalso. apply no_failed_run_None in Hout. inversion H; subst.
    rewrite (new_events_app _ _ _ Hev) in Hfail. congruence.
Qed.


(** The script ends with status 0 or 1. *)
Lemma script_exits platform_name secondary_installation manifest_path w :
  fst (script E platform_name secondary_installation manifest_path w) = Exit 0
  \/ fst (script E platform_name secondary_installation manifest_path w) = Exit 1.
Proof.
  rewrite script_eq, main_eq.
  destruct (match state_json w with Some _ => true | None => false end
            && negb secondary_installation); [now left|].
  destruct (which_git E); [|now right].
  destruct manifest_path as [p|p exc|m]; [now right | now right |].
  cbv beta iota delta [negb].
  destruct (process_bundled_projects E platform_name (packages_folder E) m
              (state_json w) w) as [o w1] eqn:Hp.
  apply process_bundled_projects_spec in Hp as (_ & l & _ & _ & Hout).
  destruct o as [[[|] [|x st]]|e|c]; auto; try contradiction;
    rewrite clean_up_eq; cbv zeta;
    destruct (has_dir _ _); try destruct (rmtree_ok E _ _); auto.
Qed.

(** C4 (as the code has it). For a run that gets as far as the manifest (no
    state-file short-circuit, a git client found): a manifest without
    [projects] ends the run with status 1 before anything is done to the
    file system; a manifest without [remotes] ends it with status 1 before
    any fetch command (the package folder may have been made and drifted
    packages removed by then); and an entry without a revision ends it with
    status 1 when the entry is required and not on the ignore list. *)
Theorem C4_malformed_manifest platform_name secondary_installation m w :
  state_json w = None \/ secondary_installation = true ->
  which_git E = true ->
  (projects m = None ->
   fst (script E platform_name secondary_installation (ManifestDoc m) w) = Exit 1
   /\ dirs (snd (script E platform_name secondary_installation (ManifestDoc m) w)) = dirs w
   /\ state_json (snd (script E platform_name secondary_installation (ManifestDoc m) w))
      = state_json w
   /\ forallb is_output
        (new_events w (snd (script E platform_name secondary_installation (ManifestDoc m) w)))
      = true)
  /\ (remotes m = None ->
      fst (script E platform_name secondary_installation (ManifestDoc m) w) = Exit 1
      /\ commands
           (new_events w (snd (script E platform_name secondary_installation (ManifestDoc m) w)))
         = [])
  /\ (forall ps pc,
        projects m = Some ps -> In pc ps ->
        is_project_required pc platform_name = Ret true ->
        str_in (name pc) IGNORED_PACKAGES = false ->
        revision pc = None ->
        fst (script E platform_name secondary_installation (ManifestDoc m) w) = Exit 1).
Proof.
  intros Hgate Hgit.
  assert (Hshort : match state_json w with Some _ => true | None => false end
                   && negb secondary_installation = false).
  { destruct Hgate as [-> | ->]; [reflexivity | apply andb_false_r]. }
  split; [|split].
  - intros Hp. rewrite script_eq, main_eq, Hshort, Hgit.
    cbv beta iota delta [negb]. rewrite process_bundled_projects_eq, Hp.
    cbn [fst snd dirs state_json log]. repeat split.
    erewrite new_events_app; [|cbn [events log]; rewrite <- app_assoc; reflexivity].
    reflexivity.
  - intros Hr. rewrite script_eq, main_eq, Hshort, Hgit.
    cbv beta iota delta [negb].
    destruct (process_bundled_projects E platform_name (packages_folder E) m
                (state_json w) w) as [o w1] eqn:Hp.
    assert (Hraise : exists e l, o = Raise e /\ events w1 = events w ++ l
                                /\ commands l = []).
    { rewrite process_bundled_projects_eq in Hp.
      destruct (projects m) as [ps|].
      2:{ inversion Hp; subst. exists (AssertionError "Missing the `projects` field in the package manifest!"), [].
          rewrite app_nil_r. auto. }
      cbv zeta in Hp. fold (ensure_folder (packages_folder E) w) in Hp.
      rewrite <- drift_phase_eq in Hp.
      assert (H1 : exists l1, events (ensure_folder (packages_folder E) w) = events w ++ l1
                              /\ commands l1 = []).
      { unfold ensure_folder. destruct (has_dir _ _).
        - exists []. now rewrite app_nil_r.
        - exists [EvMakedirs (packages_folder E)]. auto. }
      destruct H1 as (l1 & Hev1 & Hc1).
      destruct (drift_phase E (packages_folder E) ps (state_json w)
                  (ensure_folder (packages_folder E) w)) as [o2 w2] eqn:Hd.
      assert (H2 : exists l2, events w2 = events (ensure_folder (packages_folder E) w) ++ l2
                              /\ commands l2 = [] /\ (o2 = Ret tt \/ exists e, o2 = Raise e)).
      { rewrite drift_phase_eq in Hd. destruct (state_json w) as [[|x st]|];
          try solve [inversion Hd; subst; exists []; rewrite app_nil_r; auto].
        apply clear_modified_spec in Hd as (_ & _ & l2 & Hev2 & Hl2 & Hout2).
        exists l2. destruct (rmtree_not_saved _ Hl2) as (_ & Hc & _). auto. }
      destruct H2 as (l2 & Hev2 & Hc2 & Hout2).
      destruct o2 as [[]|e|c].
      - rewrite Hr in Hp. inversion Hp; subst. exists (KeyError "remotes"), (l1 ++ l2).
        split; [reflexivity|]. split; [rewrite Hev2, Hev1; now rewrite app_assoc|].
        now rewrite commands_app, Hc1, Hc2.
      - inversion Hp; subst. exists e, (l1 ++ l2).
        split; [reflexivity|]. split; [rewrite Hev2, Hev1; now rewrite app_assoc|].
        now rewrite commands_app, Hc1, Hc2.
      - destruct Hout2 as [?|[? ?]]; discriminate. }
    destruct Hraise as (e & l & -> & Hev & Hc). cbn [fst snd]. split; [reflexivity|].
    erewrite new_events_app;
      [|cbn [events log]; rewrite Hev; rewrite <- !app_assoc; reflexivity].
    rewrite commands_app, Hc. reflexivity.
  - intros ps pc Hps Hin Hreq Hign Hrev.
    destruct (script_exits platform_name secondary_installation (ManifestDoc m) w)
      as [H0|H1]; [exfalso | assumption].
    rewrite script_eq, main_eq, Hshort, Hgit in H0. cbv beta iota delta [negb] in H0.
    destruct (process_bundled_projects E platform_name (packages_folder E) m
                (state_json w) w) as [o w1] eqn:Hp.
    destruct o as [[[|] st]|e|c].
    + apply process_bundled_projects_returned in Hp
        as (ps' & rs & w2 & Hps' & _ & _ & Hloop).
      assert (ps' = ps) by congruence. subst ps'.
      apply install_projects_spec in Hloop as (_ & _ & l & _ & _ & [_ Hall] & _).
      destruct (Hall pc Hin Hreq) as [_ Hsome].
      destruct (Hsome Hign) as [rev Hrev']. congruence.
    + rewrite clean_up_eq in H0. cbv zeta in H0.
      destruct (has_dir _ _); try destruct (rmtree_ok E _ _); discriminate.
    + discriminate.
    + apply process_bundled_projects_spec in Hp as (_ & l & _ & _ & []).
Qed.

(** *** Runs that fetch nothing *)

(** When every required project is in place or ignored, the loop only
    writes messages. *)
Lemma install_projects_no_fetch platform_name pf remotes default_remote ps :
  forall result w out w',
  (forall pc, In pc ps -> is_project_required pc platform_name = Ret true ->
     has_dir (package_dir pf pc) (dirs w) = true
     \/ str_in (name pc) IGNORED_PACKAGES = true) ->
  install_projects E platform_name pf remotes default_remote ps result w = (out, w') ->
  dirs w' = dirs w /\
  exists l, events w' = events w ++ l /\ forallb is_output l = true.
Proof.
  induction ps as [|pc ps IH]; intros result w out w' Hall H.
  - cbn in H. inversion H; subst. split; [reflexivity|]. exists [].
    now rewrite app_nil_r.
  - rewrite install_projects_cons in H.
    destruct (process_project E platform_name pf remotes default_remote pc result w)
      as [o w1] eqn:Hturn.
    apply process_project_spec in Hturn as (_ & l1 & Hev1 & Hcases).
    destruct Hcases as [(Hd1 & Hl1 & _) | Hinst].
    + assert (Hrest : forall r, install_projects E platform_name pf remotes
                                  default_remote ps r w1 = (out, w') ->
                dirs w' = dirs w /\
                exists l, events w' = events w ++ l /\ forallb is_output l = true).
      { intros r Hr. apply IH in Hr as (Hd & l & Hev & Hl).
        - split; [congruence|]. exists (l1 ++ l).
          split; [rewrite Hev, Hev1; now rewrite app_assoc|].
          now rewrite forallb_app, Hl1, Hl.
        - intros pc' Hin Hreq. rewrite Hd1. apply Hall; simpl; auto. }
      destruct o as [[r|r]|e|c]; eauto; inversion H; subst; eauto.
    + exfalso.
      destruct Hinst as (u & r & l0 & lc & lt & ok1 & ok2 & Hreq & Hdir & Hign & _).
      destruct (Hall pc (or_introl eq_refl) Hreq); congruence.
Qed.

Lemma install_projects_nonempty platform_name pf remotes default_remote ps :
  forall result w b r w',
  install_projects E platform_name pf remotes default_remote ps result w
  = (Ret (b, r), w') ->
  result <> [] -> r <> [].
Proof.
  induction ps as [|pc ps IH]; intros result w b r w' H Hne.
  - cbn in H. inversion H; subst. assumption.
  - rewrite install_projects_cons in H.
    destruct (process_project E platform_name pf remotes default_remote pc result w)
      as [o w1] eqn:Hturn.
    apply process_project_spec in Hturn as (_ & l1 & _ & Hcases).
    assert (Hres : forall r1, o = Ret (Continue r1) \/ o = Ret (ReturnFalse r1) -> r1 <> []).
    { intros r1 Ho.
      destruct Hcases as [(_ & _ & [(e & ->) | [(-> & _) | (rev & -> & _)]])
                         | (u & r0 & l0 & lc & lt & ok1 & ok2 & _ & _ & _ & _ & _ & _ & _
                            & _ & _ & _ & _ & _ & [(-> & _) | (-> & _)])];
        destruct Ho as [Ho|Ho]; inversion Ho; subst;
        auto using dict_set_nonempty. }
    destruct o as [[r1|r1]|e|c]; try discriminate.
    + eapply IH; eauto.
    + inversion H; subst. auto.
Qed.

(** A loop that ran to its end with an empty record met no required
    project that is not ignored. *)
Lemma install_projects_empty_record platform_name pf remotes default_remote ps :
  forall w w',
  install_projects E platform_name pf remotes default_remote ps [] w
  = (Ret (true, []), w') ->
  forall pc, In pc ps -> is_project_required pc platform_name = Ret true ->
    str_in (name pc) IGNORED_PACKAGES = true.
Proof.
  induction ps as [|pc ps IH]; intros w w' H pc0 Hin Hreq; [contradiction|].
  rewrite install_projects_cons in H.
  destruct (process_project E platform_name pf remotes default_remote pc [] w)
    as [o w1] eqn:Hturn.
  apply process_project_spec in Hturn as (_ & l1 & _ & Hcases).
  destruct o as [[r1|r1]|e|c]; try discriminate.
  destruct r1 as [|x r1].
  2:{ exfalso. apply install_projects_nonempty in H; [congruence | discriminate]. }
  destruct Hin as [<-|Hin]; [|eauto].
  destruct Hcases as [(_ & _ & [(e & He) | [(_ & Hwhy) | (rev & He & _)]])
                     | (u & r0 & l0 & lc & lt & ok1 & ok2 & _ & _ & _ & _ & _ & _ & _
                        & _ & _ & _ & _ & _ & [(He & _) | (He & _)])];
    try discriminate.
  destruct Hwhy as [Hno | (_ & _ & Hign)]; congruence.
Qed.

(** With names that occur once, a record made of revisions of the manifest
    shows no drift. *)
Lemma modified_entries_none ps st :
  uniq (map name ps) = true ->
  (forall n v, In (n, v) st ->
     exists pc, In pc ps /\ name pc = n /\ revision pc = Some v) ->
  modified_entries (dict_of name ps) st = [].
Proof.
  intros Hu. induction st as [|[n v] st IH]; intros Hall; [reflexivity|].
  cbn [modified_entries].
  destruct (Hall n v (or_introl eq_refl)) as (pc & Hin & <- & Hrev).
  unfold dict_of at 1. rewrite (dict_of_get name ps [] pc Hu Hin), Hrev.
  cbn [opt_eqb]. rewrite String.eqb_refl. cbn [negb].
  apply IH. intros n' v' Hin'. apply Hall. now right.
Qed.

Lemma ensure_folder_facts pf w :
  state_json (ensure_folder pf w) = state_json w
  /\ grown (dirs w) (dirs (ensure_folder pf w))
  /\ exists l, events (ensure_folder pf w) = events w ++ l /\ commands l = [].
Proof.
  unfold ensure_folder. destruct (has_dir (resolve pf) (dirs w)).
  - split; [reflexivity|]. split; [apply grown_refl|]. exists [].
    now rewrite app_nil_r.
  - split; [reflexivity|]. split; [apply grown_made|]. now exists [EvMakedirs pf].
Qed.

Lemma drift_phase_spec pf ps sm w out w' :
  drift_phase E pf ps sm w = (out, w') ->
  exists l, events w' = events w ++ l /\ commands l = []
            /\ (out = Ret tt \/ exists e, out = Raise e).
Proof.
  rewrite drift_phase_eq.
  assert (Hskip : (Ret tt, w) = (out, w') ->
            exists l, events w' = events w ++ l /\ commands l = []
                      /\ (out = Ret tt \/ exists e, out = Raise e)).
  { intros H. inversion H; subst. exists []. rewrite app_nil_r. auto. }
  destruct sm as [[|x st]|]; auto.
  intros H. apply clear_modified_spec in H as (_ & _ & l & Hev & Hl & Hout).
  exists l. destruct (rmtree_not_saved _ Hl) as (_ & Hc & _). auto.
Qed.

(** When every required project is in place or ignored once the drift
    phase is over, [process_bundled_projects] runs no command. *)
Lemma process_bundled_projects_no_fetch platform_name pf m sm w out w' :
  (forall ps w2,
     projects m = Some ps ->
     drift_phase E pf ps sm (ensure_folder pf w) = (Ret tt, w2) ->
     forall pc, In pc ps -> is_project_required pc platform_name = Ret true ->
       has_dir (package_dir pf pc) (dirs w2) = true
       \/ str_in (name pc) IGNORED_PACKAGES = true) ->
  process_bundled_projects E platform_name pf m sm w = (out, w') ->
  exists l, events w' = events w ++ l /\ commands l = [].
Proof.
  intros Hall. rewrite process_bundled_projects_eq.
  destruct (projects m) as [ps|].
  2:{ intros H. inversion H; subst. exists []. now rewrite app_nil_r. }
  cbv zeta. fold (ensure_folder pf w). rewrite <- drift_phase_eq.
  destruct (ensure_folder_facts pf w) as (_ & _ & l1 & Hev1 & Hc1).
  destruct (drift_phase E pf ps sm (ensure_folder pf w)) as [o2 w2] eqn:Hd.
  pose proof Hd as Hd'.
  apply drift_phase_spec in Hd as (l2 & Hev2 & Hc2 & Hout2).
  assert (Hpre : events w2 = events w ++ (l1 ++ l2) /\ commands (l1 ++ l2) = []).
  { split; [rewrite Hev2, Hev1; now rewrite app_assoc|].
    now rewrite commands_app, Hc1, Hc2. }
  destruct Hpre as [Hev12 Hc12].
  destruct o2 as [[]|e|c].
  - destruct (remotes m) as [rs|].
    + intros H. apply install_projects_no_fetch in H as (_ & l & Hev & Hl).
      * exists ((l1 ++ l2) ++ l). split; [rewrite Hev, Hev12; now rewrite <- app_assoc|].
        now rewrite commands_app, Hc12, (outputs_no_commands _ Hl).
      * intros pc Hin Hreq. eapply Hall; eauto.
    + intros H. inversion H; subst. eauto.
  - intros H. inversion H; subst. eauto.
  - intros H. inversion H; subst. eauto.
Qed.

Lemma main_no_fetch platform_name secondary_installation manifest_path w out w' :
  (forall m o wp,
     manifest_path = ManifestDoc m ->
     process_bundled_projects E platform_name (packages_folder E) m (state_json w) w
     = (o, wp) ->
     exists l, events wp = events w ++ l /\ commands l = []) ->
  main E platform_name secondary_installation manifest_path w = (out, w') ->
  commands (new_events w w') = [].
Proof.
  intros Hproc. rewrite main_eq. intros H.
  assert (Hdone : forall l, events w' = events w ++ l -> commands l = [] ->
            commands (new_events w w') = []).
  { intros l Hev Hc. now rewrite (new_events_app _ _ _ Hev). }
  destruct (match state_json w with Some _ => true | None => false end
            && negb secondary_installation).
  { name_say H. inversion H; subst. eauto using outputs_no_commands. }
  destruct (which_git E); cbv beta iota delta [negb] in H.
  2:{ inversion H; subst. eapply Hdone; cbn [events log]; reflexivity. }
  destruct manifest_path as [p|p exc|m].
  { inversion H; subst. eapply Hdone; cbn [events log]; reflexivity. }
  { inversion H; subst.
    apply (Hdone [EvStderr ("Warning! Failed to parse `" ++ p ++ "`." ++ nl)%string;
                  EvStderr (exc ++ nl)%string]); [|reflexivity].
    cbn [events log]. now rewrite <- app_assoc. }
  destruct (process_bundled_projects E platform_name (packages_folder E) m
              (state_json w) w) as [o w1] eqn:Hp.
  destruct (Hproc m o w1 eq_refl Hp) as (l & Hev & Hc).
  destruct o as [[[|] st]|e|c].
  - destruct st as [|x st]; inversion H; subst; [eauto|].
    apply (Hdone (l ++ [EvSaveState (state_file E) (x :: st)])).
    + cbn [snd save_state events]. rewrite Hev. now rewrite <- app_assoc.
    + now rewrite commands_app, Hc.
  - rewrite clean_up_eq in H. cbv zeta in H. name_say H.
    pose proof (outputs_no_commands _ Hout0) as Hc0.
    destruct (has_dir (resolve (packages_folder E)) (dirs w0)).
    + destruct (rmtree_ok E w0 (packages_folder E)); inversion H; subst;
        (eapply Hdone;
         [cbn [events removed log]; rewrite Hev0, Hev; rewrite <- !app_assoc; reflexivity
         |now rewrite !commands_app, Hc, Hc0]).
    + inversion H; subst. apply (Hdone (l ++ l0)).
      * rewrite Hev0, Hev. now rewrite <- !app_assoc.
      * now rewrite commands_app, Hc, Hc0.
  - inversion H; subst. eauto.
  - inversion H; subst. eauto.
Qed.

(** C7. A run that ends with status 0, repeated at once with the same
    arguments and the same manifest (in which every name occurs once),
    runs no command at all: no fetch. And whenever the state file exists
    and the installation is not a forced secondary one, the run ends with
    status 0 having touched neither a directory nor the state file. *)
Theorem C7_idempotence platform_name secondary_installation manifest_path
    w w1 out2 w2 :
  (forall m, manifest_path = ManifestDoc m -> unique_names m = true) ->
  main E platform_name secondary_installation manifest_path w = (Exit 0, w1) ->
  main E platform_name secondary_installation manifest_path w1 = (out2, w2) ->
  commands (new_events w1 w2) = []
  /\ (forall platform_name' manifest_path' w0 s,
        state_json w0 = Some s ->
        fst (main E platform_name' false manifest_path' w0) = Exit 0
        /\ dirs (snd (main E platform_name' false manifest_path' w0)) = dirs w0
        /\ state_json (snd (main E platform_name' false manifest_path' w0)) = Some s
        /\ forallb is_output
             (new_events w0 (snd (main E platform_name' false manifest_path' w0)))
           = true).
Proof.
  intros Huniq H1 H2. split.
  2:{ intros platform_name' manifest_path' w0 s Hs. rewrite main_eq, Hs.
      cbn [andb negb fst snd].
      destruct (say_facts E "The state file is present. Skipping installation." w0)
        as (l & Hev & Hl & Hd & Hst).
      rewrite (new_events_app _ _ _ Hev). repeat split; auto. congruence. }
  rewrite main_eq in H1.
  destruct (match state_json w with Some _ => true | None => false end
            && negb secondary_installation) eqn:Hshort.
  { (* the first run was the short-circuit, so is the second *)
    name_say H1. inversion H1; subst. rewrite main_eq in H2.
    rewrite Hs0, Hshort in H2. name_say H2. inversion H2; subst.
    rewrite (new_events_app _ _ _ Hev1). now apply outputs_no_commands. }
  destruct (which_git E); cbv beta iota delta [negb] in H1; [|discriminate].
  destruct manifest_path as [p|p exc|m]; try discriminate.
  specialize (Huniq m eq_refl). unfold unique_names in Huniq.
  destruct (process_bundled_projects E platform_name (packages_folder E) m
              (state_json w) w) as [o wp] eqn:Hp.
  destruct o as [[[|] st]|e|c]; try discriminate.
  2:{ rewrite clean_up_eq in H1. cbv zeta in H1.
      destruct (has_dir _ _); try destruct (rmtree_ok E _ _); discriminate. }
  2:{ now apply process_bundled_projects_spec in Hp as (_ & l & _ & _ & Hout). }
  apply process_bundled_projects_returned in Hp as (ps & rs & wd & Hps & Hrs & _ & Hloop).
  rewrite Hps in Huniq.
  eapply main_no_fetch; [|exact H2].
  intros m' o' wp' Heq Hp'. inversion Heq; subst m'. clear Heq.
  eapply process_bundled_projects_no_fetch; [|exact Hp'].
  intros ps' w2' Hps' Hdrift pc Hin Hreq.
  assert (ps' = ps) by congruence. subst ps'.
  destruct st as [|x st].
  - right. eapply install_projects_empty_record; eauto.
  - inversion H1; subst w1.
    apply install_projects_spec in Hloop as (_ & _ & l & _ & _ & [_ Hall] & Hprov).
    destruct (Hall pc Hin Hreq) as [[Hdir|Hign] _]; [left | now right].
    cbn [snd save_state state_json dirs] in Hdrift.
    rewrite drift_phase_eq in Hdrift.
    rewrite (modified_entries_none ps (x :: st) Huniq) in Hdrift.
    + cbn in Hdrift. inversion Hdrift; subst w2'.
      destruct (ensure_folder_facts (packages_folder E)
                  (snd (save_state (state_file E) (x :: st) wp))) as (_ & Hg & _).
      eapply grown_has_dir; eauto.
    + intros n v Hnv. destruct (Hprov true (x :: st) eq_refl n v Hnv) as [[]|?]; auto.
Qed.

(** *** Drift *)

(** What the clone of a project counts for among the clones into [dst]. *)
Lemma clones_into_clone dst lc r sub remote_url target ok1 ok2 :
  commands lc =
    (["git"; "clone"]
     ++ (if is_commit_hash r then [] else ["--branch"; r; "--depth"; "1"])
     ++ sub ++ [remote_url; target], None, ok1)
    :: (if is_commit_hash r && ok1
        then [(["git"; "reset"; "--hard"; r], Some target, ok2)]
        else []) ->
  clones_into dst lc = if String.eqb target dst then 1 else 0.
Proof.
  intros Hc. unfold clones_into. rewrite Hc. cbn [app filter clone_into].
  assert (Hlast : last ((if is_commit_hash r then [] else ["--branch"; r; "--depth"; "1"])
                        ++ sub ++ [remote_url; target]) EmptyString = target).
  { rewrite app_assoc. apply last_two. }
  cbn [String.eqb Ascii.eqb Bool.eqb andb]. cbv beta iota.
  rewrite Hlast.
  destruct (is_commit_hash r && ok1); cbn [filter clone_into];
    destruct (String.eqb target dst); reflexivity.
Qed.

(** Each entry of [modified] comes from a project of the manifest. *)
Lemma modified_entries_from ps st d :
  In d (modified_entries (dict_of name ps) st) ->
  exists pc, In pc ps /\ m_path d = path pc /\ m_name d = name pc.
Proof.
  induction st as [|[n v] st IH]; cbn [modified_entries]; [contradiction|].
  destruct (dict_get n (dict_of name ps)) as [proj|] eqn:Hget; [|assumption].
  destruct (negb (opt_eqb (Some v) (revision proj))); [|assumption].
  intros [<-|Hin]; [|auto].
  apply dict_of_get_In in Hget as [[Hin Hn]|Hnil]; [|discriminate].
  exists proj. auto.
Qed.

(** A project whose recorded revision differs has its entry in
    [modified]. *)
Lemma modified_entries_drifted ps st pc v1 :
  In (name pc, v1) st ->
  dict_get (name pc) (dict_of name ps) = Some pc ->
  opt_eqb (Some v1) (revision pc) = false ->
  In {| m_name := name pc; m_state_hash := v1;
        m_west_revision := revision pc; m_path := path pc |}
     (modified_entries (dict_of name ps) st).
Proof.
  intros Hin Hget Hne. induction st as [|[n v] st IH]; [contradiction|].
  cbn [modified_entries]. destruct Hin as [Heq|Hin].
  - inversion Heq; subst. rewrite Hget, Hne. now left.
  - destruct (dict_get n (dict_of name ps)) as [proj|]; [|auto].
    destruct (negb (opt_eqb (Some v) (revision proj))); [right|]; auto.
Qed.

(** The drift phase removes the directory of a drifted project that is
    there, provided the other removals are apart from it. *)
Lemma clear_modified_removes pf target ms :
  forall w w',
  (forall d, In d ms ->
     forall q, m_path d = Some q ->
       os_path_join pf q = target
       \/ apart (resolve (os_path_join pf q)) (resolve target) = true) ->
  (exists d q, In d ms /\ m_path d = Some q /\ os_path_join pf q = target) ->
  has_dir (resolve target) (dirs w) = true ->
  clear_modified E pf ms w = (Ret tt, w') ->
  has_dir (resolve target) (dirs w') = false
  /\ exists l1 l2, events w' = events w ++ l1 ++ EvRmtree target :: l2
                   /\ commands l1 = [] /\ commands l2 = [].
Proof.
  induction ms as [|d ms IH]; intros w w' Hall (dA & qA & HinA & HpA & HjA) Hdir H.
  { contradiction. }
  cbn [clear_modified] in H. cbv beta iota delta [bind print emit] in H.
  match type of H with context [log ?e w] => set (ev := e) in * end.
  destruct (clear_deprecated_package E (m_path d) pf (log ev w)) as [o w1] eqn:Hc.
  apply clear_deprecated_package_spec in Hc
    as (_ & _ & l1 & Hev1 & Hl1 & _ & Hret).
  cbn [events log dirs] in Hev1, Hret.
  destruct o as [[]|e|c]; try discriminate.
  destruct (Hret eq_refl) as (q & Hq & Hgone & Hthere & Habsent).
  destruct (Hall d (or_introl eq_refl) q Hq) as [Hj|Hapart].
  - (* this entry removes the target *)
    rewrite Hj in Hgone, Hthere. specialize (Hthere Hdir). subst w1.
    pose proof H as H'.
    apply clear_modified_spec in H as (_ & Hanti & l & Hev & Hl & _).
    split.
    + destruct (has_dir (resolve target) (dirs w')) eqn:Hd; [|reflexivity].
      apply Hanti in Hd. congruence.
    + exists [ev], l. cbn [events removed log] in Hev. rewrite Hev.
      split; [now rewrite <- !app_assoc|]. split; [reflexivity|].
      now destruct (rmtree_not_saved _ Hl) as (_ & Hc & _).
  - (* this entry is apart from the target: the target stays *)
    assert (Hstay : has_dir (resolve target) (dirs w1) = true).
    { destruct (has_dir (resolve (os_path_join pf q)) (dirs w)) eqn:Hd.
      - rewrite (Hthere eq_refl). cbn [dirs removed log].
        rewrite has_dir_filter_under, Hdir. unfold apart in Hapart.
        apply andb_true_iff in Hapart as [H1 _]. now rewrite H1.
      - now rewrite (Habsent eq_refl). }
    assert (HinA' : exists d q, In d ms /\ m_path d = Some q /\ os_path_join pf q = target).
    { destruct HinA as [<-|HinA]; [|eauto].
      exfalso. assert (q = qA) by congruence. subst q.
      rewrite HjA, apart_irrefl in Hapart. discriminate. }
    apply IH in H as (Hgone' & l2 & l3 & Hev & Hc2 & Hc3); auto.
    2:{ intros d' Hd'. apply Hall. now right. }
    split; [assumption|]. exists (ev :: l1 ++ l2), l3.
    split.
    { rewrite Hev, Hev1. cbn [app]. rewrite <- !app_assoc. reflexivity. }
    split; [|assumption].
    destruct (rmtree_not_saved _ Hl1) as (_ & Hc1 & _).
    change (ev :: l1 ++ l2) with ([ev] ++ l1 ++ l2).
    now rewrite !commands_app, Hc1, Hc2.
Qed.

(** A drift phase that went through found a path in each of its entries. *)
Lemma clear_modified_paths pf ms :
  forall w w',
  clear_modified E pf ms w = (Ret tt, w') ->
  forall d, In d ms -> exists q, m_path d = Some q.
Proof.
  induction ms as [|d0 ms IH]; intros w w' H d Hin; [contradiction|].
  cbn [clear_modified] in H. cbv beta iota delta [bind print emit] in H.
  match type of H with context [log ?e w] => set (ev := e) in * end.
  destruct (clear_deprecated_package E (m_path d0) pf (log ev w)) as [o w1] eqn:Hc.
  apply clear_deprecated_package_spec in Hc as (_ & _ & l1 & _ & _ & _ & Hret).
  destruct o as [[]|e|c]; try discriminate.
  destruct Hin as [<-|Hin]; [|eauto].
  destruct (Hret eq_refl) as (q & Hq & _). eauto.
Qed.

Lemma install_projects_app platform_name pf remotes default_remote xs ys :
  forall result w,
  install_projects E platform_name pf remotes default_remote (xs ++ ys) result w
  = match install_projects E platform_name pf remotes default_remote xs result w with
    | (Ret (true, r), w1) =>
        install_projects E platform_name pf remotes default_remote ys r w1
    | other => other
    end.
Proof.
  induction xs as [|x xs IH]; intros result w; [reflexivity|].
  cbn [app]. rewrite !install_projects_cons.
  destruct (process_project E platform_name pf remotes default_remote x result w)
    as [[[r|r]|e|c] w1]; auto.
Qed.

(** A turn for a project whose directory is apart from [target] neither
    touches [target] nor clones into it, and leaves the record of any other
    name as it is. *)
Lemma process_project_other platform_name pf remotes default_remote A target pc
    result w out w' :
  name pc <> A ->
  apart (package_dir pf pc) (resolve target) = true ->
  process_project E platform_name pf remotes default_remote pc result w = (out, w') ->
  has_dir (resolve target) (dirs w') = has_dir (resolve target) (dirs w)
  /\ (forall r1, out = Ret (Continue r1) \/ out = Ret (ReturnFalse r1) ->
      dict_get A r1 = dict_get A result)
  /\ exists l, events w' = events w ++ l /\ clones_into target l = 0.
Proof.
  intros Hname Hapart H.
  apply process_project_spec in H as (_ & l & Hev & Hcases).
  destruct Hcases as [(Hd & Hl & Hout) | Hinst].
  - split; [now rewrite Hd|]. split.
    + intros r1 Hr1.
      destruct Hout as [(e & ->) | [(-> & _) | (rev & -> & _)]];
        destruct Hr1 as [Hr1|Hr1]; inversion Hr1; subst; auto.
      apply dict_get_set_other. congruence.
    + exists l. split; [assumption|].
      now apply clones_into_no_commands, outputs_no_commands.
  - destruct Hinst as (u & r & l0 & lc & lt & ok1 & ok2 & _ & _ & _ & _ & _ & _ & Hd
                       & -> & Hl0 & Hlt & _ & Hcmd & Hres).
    unfold apart in Hapart. apply andb_true_iff in Hapart as [_ Hnot].
    apply negb_true_iff in Hnot. split; [|split].
    + rewrite Hd, has_dir_app.
      destruct (has_dir (resolve target) (ancestors (package_dir pf pc))) eqn:Ha;
        [|reflexivity].
      apply has_dir_In, ancestors_spec in Ha. congruence.
    + intros r1 Hr1.
      destruct Hres as [(-> & _) | (-> & _)];
        destruct Hr1 as [Hr1|Hr1]; inversion Hr1; subst; auto.
      apply dict_get_set_other. congruence.
    + exists (l0 ++ EvMakedirs (package_path pf pc) :: lc ++ lt).
      split; [assumption|].
      change (EvMakedirs (package_path pf pc) :: lc ++ lt)
        with ([EvMakedirs (package_path pf pc)] ++ lc ++ lt).
      rewrite !clones_into_app.
      rewrite (clones_into_no_commands _ l0), (clones_into_no_commands _ lt)
        by auto using outputs_no_commands, stderr_outputs.
      rewrite (clones_into_clone target lc _ _ _ _ _ _ Hcmd), to_unix_path_posix.
      destruct (String.eqb_spec (package_path pf pc) target) as [Heq|Hne];
        [|reflexivity].
      exfalso. unfold package_dir in Hnot. rewrite Heq, is_under_refl in Hnot.
      discriminate.
Qed.

Lemma install_projects_others platform_name pf remotes default_remote A target qs :
  forall result w b r w',
  (forall pc, In pc qs ->
     name pc <> A /\ apart (package_dir pf pc) (resolve target) = true) ->
  install_projects E platform_name pf remotes default_remote qs result w
  = (Ret (b, r), w') ->
  has_dir (resolve target) (dirs w') = has_dir (resolve target) (dirs w)
  /\ dict_get A r = dict_get A result
  /\ exists l, events w' = events w ++ l /\ clones_into target l = 0.
Proof.
  induction qs as [|pc qs IH]; intros result w b r w' Hall H.
  - cbn in H. inversion H; subst. split; [reflexivity|]. split; [reflexivity|].
    exists []. now rewrite app_nil_r.
  - rewrite install_projects_cons in H.
    destruct (process_project E platform_name pf remotes default_remote pc result w)
      as [o w1] eqn:Hturn.
    destruct (Hall pc (or_introl eq_refl)) as [Hname Hapart].
    apply (process_project_other _ _ _ _ A target _ _ _ _ _ Hname Hapart) in Hturn
      as (Hd1 & Hr1 & l1 & Hev1 & Hc1).
    destruct o as [[r1|r1]|e|c]; try discriminate.
    + apply IH in H as (Hd & Hr & l & Hev & Hc).
      2:{ intros pc' Hin. apply Hall. now right. }
      split; [congruence|]. split; [rewrite Hr; now apply Hr1; left|].
      exists (l1 ++ l). split; [rewrite Hev, Hev1; now rewrite <- app_assoc|].
      now rewrite clones_into_app, Hc1, Hc.
    + inversion H; subst. split; [assumption|]. split; [now apply Hr1; right|].
      eauto.
Qed.

(** The turn of a required project whose directory is missing: it is
    cloned once, and recorded with its revision. *)
Lemma process_project_target platform_name pf remotes default_remote pc v
    result w r1 w' :
  is_project_required pc platform_name = Ret true ->
  str_in (name pc) IGNORED_PACKAGES = false ->
  revision pc = Some v ->
  has_dir (package_dir pf pc) (dirs w) = false ->
  process_project E platform_name pf remotes default_remote pc result w
  = (Ret (Continue r1), w') ->
  r1 = dict_set (name pc) v result
  /\ has_dir (package_dir pf pc) (dirs w') = true
  /\ exists l, events w' = events w ++ l /\ clones_into (package_path pf pc) l = 1.
Proof.
  intros Hreq Hign Hrev Hdir H.
  apply process_project_spec in H as (_ & l & Hev & Hcases).
  destruct Hcases as [(_ & _ & Hout) | Hinst].
  - exfalso.
    destruct Hout as [(e & He) | [(_ & [Hno | (_ & _ & Hi)]) | (rev & _ & _ & Hd & _)]];
      congruence.
  - destruct Hinst as (u & r & l0 & lc & lt & ok1 & ok2 & _ & _ & _ & _ & Hr & _ & Hd
                       & -> & Hl0 & Hlt & _ & Hcmd & Hres).
    destruct Hres as [(Hout & _) | (Hout & _)]; [|discriminate].
    inversion Hout; subst r1. assert (r = v) by congruence. subst r.
    split; [reflexivity|]. split.
    + rewrite Hd, has_dir_app. apply orb_true_iff. left.
      apply has_dir_In, ancestors_self.
    + exists (l0 ++ EvMakedirs (package_path pf pc) :: lc ++ lt).
      split; [assumption|].
      change (EvMakedirs (package_path pf pc) :: lc ++ lt)
        with ([EvMakedirs (package_path pf pc)] ++ lc ++ lt).
      rewrite !clones_into_app.
      rewrite (clones_into_no_commands _ l0), (clones_into_no_commands _ lt)
        by auto using outputs_no_commands, stderr_outputs.
      rewrite (clones_into_clone (package_path pf pc) lc _ _ _ _ _ _ Hcmd),
        to_unix_path_posix, String.eqb_refl.
      reflexivity.
Qed.

Lemma process_bundled_projects_first_run platform_name pf m sm w :
  sm = None \/ sm = Some [] ->
  forallb (fun e => negb (is_rmtree e))
    (new_events w (snd (process_bundled_projects E platform_name pf m sm w))) = true.
Proof.
  intros Hsm. rewrite process_bundled_projects_eq.
  destruct (projects m) as [ps|]; [|now rewrite new_events_same].
  cbv zeta. fold (ensure_folder pf w).
  assert (Hens : exists l1, events (ensure_folder pf w) = events w ++ l1
                            /\ forallb (fun e => negb (is_rmtree e)) l1 = true).
  { unfold ensure_folder. destruct (has_dir _ _).
    - exists []. now rewrite app_nil_r.
    - now exists [EvMakedirs pf]. }
  destruct Hens as (l1 & Hev1 & Hl1).
  assert (Hrest :
    forallb (fun e => negb (is_rmtree e))
      (new_events w
         (snd match remotes m with
              | Some rs =>
                  install_projects E platform_name pf (remotes_dict rs)
                    match defaults_remote m with
                    | Some r => r
                    | None => EmptyString
                    end ps [] (ensure_folder pf w)
              | None => (Raise (KeyError "remotes"), ensure_folder pf w)
              end)) = true).
  { destruct (remotes m) as [rs|].
    - destruct (install_projects E platform_name pf (remotes_dict rs) _ ps []
                  (ensure_folder pf w)) as [o w'] eqn:Hloop.
      apply install_projects_spec in Hloop as (_ & _ & l & Hev & Hq & _).
      cbn [snd]. rewrite (new_events_app w w' (l1 ++ l)).
      + rewrite forallb_app, Hl1. revert Hq. apply forallb_impl.
        intros e He. unfold quiet in He. now apply andb_true_iff in He as [He _].
      + rewrite Hev, Hev1. now rewrite <- app_assoc.
    - cbn [snd]. now rewrite (new_events_app _ _ _ Hev1). }
  destruct Hsm as [-> | ->]; exact Hrest.
Qed.

(** C2 (as the code has it). In a forced secondary installation that ends
    with status 0, with a state record that maps A to [v1] and a manifest,
    its project paths relative and without [..], that pins the required,
    not ignored project A (named once, its directory apart from those of
    the other projects) to another revision [v2]: the directory of A, being
    there, is removed before any command is run, A is cloned exactly once
    after that, and the state file written at the end maps A to [v2].
    Without a state record (or with an empty one)
    [process_bundled_projects] removes nothing. And a drifted package that
    has a path and whose directory is missing is reported with a message,
    without an error: [clear_deprecated_package] returns, and the drift
    phase goes on with its next entry. *)
Theorem C2_drift_refetch :
  (forall platform_name m w w' s pre pA post v1 v2,
     state_json w = Some s -> dict_get (name pA) s = Some v1 ->
     projects m = Some (pre ++ pA :: post) ->
     tame_paths (pre ++ pA :: post) = true ->
     forallb (fun e => negb (String.eqb (name e) (name pA))
                       && apart (package_dir (packages_folder E) e)
                                (package_dir (packages_folder E) pA))
       (pre ++ post) = true ->
     revision pA = Some v2 -> String.eqb v1 v2 = false ->
     is_project_required pA platform_name = Ret true ->
     str_in (name pA) IGNORED_PACKAGES = false ->
     has_dir (package_dir (packages_folder E) pA) (dirs w) = true ->
     main E platform_name true (ManifestDoc m) w = (Exit 0, w') ->
     exists l1 l2 s',
       new_events w w' = l1 ++ EvRmtree (package_path (packages_folder E) pA) :: l2
       /\ commands l1 = []
       /\ clones_into (package_path (packages_folder E) pA) l2 = 1
       /\ state_json w' = Some s' /\ dict_get (name pA) s' = Some v2)
  /\ (forall platform_name pf m sm w,
        sm = None \/ sm = Some [] ->
        forallb (fun e => negb (is_rmtree e))
          (new_events w (snd (process_bundled_projects E platform_name pf m sm w)))
        = true)
  /\ (forall p pf w,
        has_dir (resolve (os_path_join pf p)) (dirs w) = false ->
        clear_deprecated_package E (Some p) pf w
        = (Ret tt, log (EvPrint "Package path not found") w)
        /\ forall d ms,
             m_path d = Some p ->
             exists msg,
               clear_modified E pf (d :: ms) w
               = clear_modified E pf ms
                   (log (EvPrint "Package path not found") (log (EvPrint msg) w))).
Proof.
  split; [|split].
  2:{ intros. now apply process_bundled_projects_first_run. }
  2:{ intros p pf w Hd. split.
      - unfold clear_deprecated_package.
        cbv beta iota zeta delta [bind os_path_isdir]. now rewrite Hd.
      - intros d ms Hp. eexists. cbn [clear_modified]. rewrite Hp.
        unfold clear_deprecated_package.
        cbv beta iota zeta delta [bind print emit os_path_isdir].
        cbn [dirs log]. rewrite Hd. reflexivity. }
  intros platform_name m w w' s pre pA post v1 v2
         Hs Hget Hps _ Hothers Hrev Hne Hreq Hign Hdir H.
  rewrite main_eq, Hs in H. cbn [andb negb] in H.
  destruct (which_git E); cbv beta iota delta [negb] in H; [|discriminate].
  set (pf := packages_folder E) in *.
  set (target := package_path pf pA) in *.
  assert (Hdirt : package_dir pf pA = resolve target) by reflexivity.
  assert (Hoth : forall pc, In pc (pre ++ post) ->
            name pc <> name pA /\ apart (package_dir pf pc) (resolve target) = true).
  { intros pc Hin. rewrite forallb_forall in Hothers. specialize (Hothers pc Hin).
    apply andb_true_iff in Hothers as [Hn Ha]. split; [|exact Ha].
    apply negb_true_iff in Hn. now apply String.eqb_neq in Hn. }
  destruct (process_bundled_projects E platform_name pf m (Some s) w)
    as [o wp] eqn:Hp.
  destruct o as [[[|] st]|e|c]; try discriminate.
  2:{ rewrite clean_up_eq in H. cbv zeta in H.
      repeat match type of H with
             | context [if ?c then _ else _] => destruct c
             end; discriminate. }
  2:{ now apply process_bundled_projects_spec in Hp as (_ & l & _ & _ & Hout). }
  apply process_bundled_projects_returned in Hp
    as (ps & rs & w2 & Hps' & Hrs & Hdrift & Hloop).
  assert (ps = pre ++ pA :: post) by congruence. subst ps. clear Hps'.
  (* the drift phase *)
  destruct (ensure_folder_facts pf w) as (_ & Hgrown & le & Heve & Hce).
  rewrite drift_phase_eq in Hdrift.
  destruct s as [|x s]; [discriminate|].
  assert (HdA : In {| m_name := name pA; m_state_hash := v1;
                      m_west_revision := revision pA; m_path := path pA |}
                   (modified_entries (dict_of name (pre ++ pA :: post)) (x :: s))).
  { apply modified_entries_drifted.
    - now apply dict_get_In.
    - apply dict_of_get_last. intros Hin. apply in_map_iff in Hin as (pc & Hn & Hin).
      destruct (Hoth pc) as [Hne' _]; [apply in_app_iff; now right|]. congruence.
    - rewrite Hrev. exact Hne. }
  destruct (clear_modified_paths _ _ _ _ Hdrift _ HdA) as [p Hpath].
  cbn [m_path] in Hpath.
  assert (Htarget : os_path_join pf p = target)
    by (subst target; unfold package_path; now rewrite Hpath).
  apply (clear_modified_removes pf target) in Hdrift
    as (Hgone & d1 & d2 & Hevd & Hcd1 & Hcd2).
  2:{ intros d Hd q Hq.
      apply modified_entries_from in Hd as (pc & Hin & Hmp & _).
      rewrite Hq in Hmp. apply in_app_iff in Hin as [Hin|[<-|Hin]].
      - right. destruct (Hoth pc) as [_ Ha]; [apply in_app_iff; now left|].
        unfold package_dir, package_path in Ha. now rewrite <- Hmp in Ha.
      - left. assert (q = p) by congruence. now subst q.
      - right. destruct (Hoth pc) as [_ Ha]; [apply in_app_iff; now right|].
        unfold package_dir, package_path in Ha. now rewrite <- Hmp in Ha. }
  2:{ exists {| m_name := name pA; m_state_hash := v1;
               m_west_revision := revision pA; m_path := path pA |}, p.
      split; [|split]; assumption. }
  2:{ rewrite <- Hdirt. eapply grown_has_dir; eauto. }
  (* the loop: the projects before A, A, the projects after A *)
  rewrite install_projects_app in Hloop.
  destruct (install_projects E platform_name pf (remotes_dict rs) _ pre [] w2)
    as [o1 w3] eqn:Hpre.
  destruct o1 as [[[|] r1]|e1|c1]; try discriminate.
  apply (install_projects_others _ _ _ _ (name pA) target) in Hpre
    as (Hd3 & _ & lpre & Hevpre & Hcpre).
  2:{ intros pc Hin. apply Hoth, in_app_iff. now left. }
  rewrite install_projects_cons in Hloop.
  destruct (process_project E platform_name pf (remotes_dict rs) _ pA r1 w3)
    as [oA w4] eqn:HA.
  destruct oA as [[r2|r2]|eA|cA]; try discriminate.
  apply (process_project_target _ _ _ _ _ v2) in HA
    as (-> & _ & lA & HevA & HcA); auto.
  2:{ rewrite Hdirt. congruence. }
  apply (install_projects_others _ _ _ _ (name pA) target) in Hloop
    as (_ & Hrec & lpost & Hevpost & Hcpost).
  2:{ intros pc Hin. apply Hoth, in_app_iff. now right. }
  rewrite dict_get_set_same in Hrec.
  (* the end of the run *)
  destruct st as [|y st]; [discriminate|].
  inversion H; subst w'. clear H.
  exists (le ++ d1), (d2 ++ lpre ++ lA ++ lpost ++ [EvSaveState (state_file E) (y :: st)]),
         (y :: st).
  split.
  { apply new_events_app. cbn [snd save_state events].
    rewrite Hevpost, HevA, Hevpre, Hevd, Heve. rewrite <- !app_assoc.
    reflexivity. }
  split; [now rewrite commands_app, Hce, Hcd1|].
  split; [|split; [reflexivity | assumption]].
  change (package_path pf pA) with target in HcA.
  rewrite !clones_into_app, Hcpre, HcA, Hcpost.
  rewrite (clones_into_no_commands _ d2 Hcd2). reflexivity.
Qed.

End Runs.

(** ** Concrete runs *)

(** X25 at a pinned commit with submodules. *)
Lemma clone_invocation_by_shape_witness :
  exists ok1 ok2 : bool,
    commands
      (new_events fresh_world
         (snd (install_from_remote (sample_env git_always)
                 {| name := "cmsis"; path := Some "modules/hal/cmsis";
                    revision := Some "0123456789abcdef"; url := None;
                    url_base := None; remote := None; repo_path := None;
                    submodules := Some true |}
                 "/fw/_pio/modules/hal/cmsis" (remotes_dict sample_remotes)
                 "upstream" fresh_world)))
    = (["git"; "clone"; "--recursive";
        "https://github.com/zephyrproject-rtos/cmsis.git";
        "/fw/_pio/modules/hal/cmsis"], None, ok1)
      :: (if ok1
          then [(["git"; "reset"; "--hard"; "0123456789abcdef"],
                 Some "/fw/_pio/modules/hal/cmsis", ok2)]
          else []).
Proof.
  destruct (clone_invocation_by_shape (sample_env git_always)
              {| name := "cmsis"; path := Some "modules/hal/cmsis";
                 revision := Some "0123456789abcdef"; url := None;
                 url_base := None; remote := None; repo_path := None;
                 submodules := Some true |}
              "/fw/_pio/modules/hal/cmsis" (remotes_dict sample_remotes)
              "upstream" fresh_world
              "https://github.com/zephyrproject-rtos/cmsis.git"
              "0123456789abcdef" eq_refl eq_refl eq_refl eq_refl eq_refl)
    as (ok1 & ok2 & Hfull & _).
  exists ok1, ok2. apply Hfull.
  exists "0123456789abcdef". split; [reflexivity | left; reflexivity].
Defined.

(** C3. A revision of hexadecimal digits followed by a newline is not of
    the commit-hash shape: by the claim the install clones its branch
    shallowly. The install clones in full, without [--branch] and
    [--depth], and resets to the revision. *)
Theorem C3_newline_revision_cloned_in_full :
  lower_hex7 ("0123456789abcdef" ++ nl) = false
  /\ fst (install_from_remote (sample_env git_always)
            (mk_project "cmsis" (Some "modules/hal/cmsis")
               (Some ("0123456789abcdef" ++ nl)%string))
            "/fw/_pio/modules/hal/cmsis" (remotes_dict sample_remotes) "upstream"
            fresh_world) = Ret true
  /\ commands
       (new_events fresh_world
          (snd (install_from_remote (sample_env git_always)
                  (mk_project "cmsis" (Some "modules/hal/cmsis")
                     (Some ("0123456789abcdef" ++ nl)%string))
                  "/fw/_pio/modules/hal/cmsis" (remotes_dict sample_remotes)
                  "upstream" fresh_world)))
     = [(["git"; "clone"; "https://github.com/zephyrproject-rtos/cmsis.git";
          "/fw/_pio/modules/hal/cmsis"], None, true);
        (["git"; "reset"; "--hard"; ("0123456789abcdef" ++ nl)%string],
         Some "/fw/_pio/modules/hal/cmsis", true)].
Proof. repeat split; reflexivity. Qed.

(** C9: the install of an entry whose revision is the empty string raises,
    where the claim has it clone the branch [main]. *)
Lemma C9_empty_revision_counterexample :
  install_from_remote (sample_env git_always)
    (mk_project "foo" (Some "modules/foo") (Some EmptyString))
    "/fw/_pio/modules/foo" (remotes_dict sample_remotes) "upstream" fresh_world
  = (Raise (AssertionError "Missing project revision!"), fresh_world).
Proof. reflexivity. Qed.

Lemma C9_empty_revision_witness :
  fst (install_from_remote (sample_env git_always)
         (mk_project "foo" (Some "modules/foo") (Some EmptyString))
         "/fw/_pio/modules/foo" (remotes_dict sample_remotes) "upstream"
         fresh_world)
  = Raise (AssertionError "Missing project revision!").
Proof.
  apply (C9_empty_revision (sample_env git_always)
           (mk_project "foo" (Some "modules/foo") (Some EmptyString))
           "/fw/_pio/modules/foo" (remotes_dict sample_remotes) "upstream"
           "https://github.com/zephyrproject-rtos/foo.git" false fresh_world).
  - reflexivity.
  - right. reflexivity.
Defined.

(** C10. A revision of seven hexadecimal digits followed by a newline is
    not made of hexadecimal digits only, yet [is_commit_hash] accepts it
    and [clone_repository] takes the full clone and the hard reset. *)
Theorem C10_trailing_newline_taken_for_hash :
  lower_hex7 ("abcdef0" ++ nl) = false
  /\ is_commit_hash ("abcdef0" ++ nl) = true
  /\ commands
       (new_events fresh_world
          (snd (clone_repository (sample_env git_always) "/fw/_pio/modules/foo"
                  "https://github.com/zephyrproject-rtos/foo.git"
                  ("abcdef0" ++ nl) false fresh_world)))
     = [(["git"; "clone"; "https://github.com/zephyrproject-rtos/foo.git";
          "/fw/_pio/modules/foo"], None, true);
        (["git"; "reset"; "--hard"; ("abcdef0" ++ nl)%string],
         Some "/fw/_pio/modules/foo", true)].
Proof. repeat split; reflexivity. Qed.

(** The filter at a HAL entry for a target context without allow-list, at a
    tooling path and at a hardware-test name. *)
Example is_project_required_excludes_ex :
  is_project_required (mk_project "hal_nxp" (Some "modules/hal/nxp") (Some "main"))
    "espressif32" = Ret false
  /\ is_project_required (mk_project "net-tools" (Some "tools/net-tools") (Some "main"))
       "ststm32" = Ret false
  /\ is_project_required (mk_project "nrf_hw_models" (Some "modules/bsim_hw_models/nrf_hw_models")
                            (Some "main"))
       "nordicnrf52" = Ret false.
Proof. repeat split; reflexivity. Qed.

(** C6. A hardware-test entry that leaves out the optional [path] key is
    not excluded: the filter raises [KeyError], and the run over a manifest
    that holds such an entry ends with status 1 before the projects after
    it are looked at. *)
Theorem C6_hardware_test_entry_without_path :
  startswith "nrf_hw_" (name (mk_project "nrf_hw_models" None (Some "main"))) = true
  /\ is_project_required (mk_project "nrf_hw_models" None (Some "main")) "nordicnrf52"
     = Raise (KeyError "path")
  /\ fst (script (sample_env git_always) "nordicnrf52" false
            (ManifestDoc hw_test_manifest) fresh_world) = Exit 1
  /\ commands
       (new_events fresh_world
          (snd (script (sample_env git_always) "nordicnrf52" false
                  (ManifestDoc hw_test_manifest) fresh_world))) = [].
Proof. repeat split; reflexivity. Qed.

(** C1 on the manifest [cmsis, lvgl, mbedtls] when the clone of [lvgl]
    fails: the commands are those of [cmsis] and the failed clone, nothing
    is run for [mbedtls], and the package folder is gone. *)
Lemma C1_fail_fast_cleanup_witness :
  fst (main (sample_env (git_fails_on "https://github.com/zephyrproject-rtos/lvgl.git"))
         "ststm32" false (ManifestDoc sample_manifest) fresh_world) = Exit 1
  /\ commands
       (new_events fresh_world
          (snd (main (sample_env (git_fails_on "https://github.com/zephyrproject-rtos/lvgl.git"))
                  "ststm32" false (ManifestDoc sample_manifest) fresh_world)))
     = [(["git"; "clone"; "https://github.com/zephyrproject-rtos/cmsis.git";
          "/fw/_pio/modules/hal/cmsis"], None, true);
        (["git"; "reset"; "--hard"; "0123456789abcdef"],
         Some "/fw/_pio/modules/hal/cmsis", true);
        (["git"; "clone"; "--branch"; "v8.2.0"; "--depth"; "1";
          "https://github.com/zephyrproject-rtos/lvgl.git";
          "/fw/_pio/modules/lib/gui/lvgl"], None, false)]
  /\ state_json
       (snd (main (sample_env (git_fails_on "https://github.com/zephyrproject-rtos/lvgl.git"))
               "ststm32" false (ManifestDoc sample_manifest) fresh_world)) = None
  /\ forall d,
       In d (dirs (snd (main (sample_env (git_fails_on "https://github.com/zephyrproject-rtos/lvgl.git"))
                          "ststm32" false (ManifestDoc sample_manifest) fresh_world))) ->
       is_under ["fw"; "_pio"] d = false.
Proof.
  pose proof (C1_fail_fast_cleanup
                (sample_env (git_fails_on "https://github.com/zephyrproject-rtos/lvgl.git"))
                "ststm32" false (ManifestDoc sample_manifest) fresh_world
                _ _ _ (surjective_pairing _) eq_refl) as (Hexit & _ & _ & Hfs).
  split; [exact Hexit|]. split; [reflexivity|].
  apply Hfs; [reflexivity | intros w0; reflexivity].
Defined.

(** C4: without [remotes] the run fails only after it has made the package
    folder; and an entry without a revision that is not required does not
    make the run fail. *)
Lemma C4_malformed_manifest_counterexample :
  fst (script (sample_env git_always) "ststm32" false
         (ManifestDoc no_remotes_manifest) fresh_world) = Exit 1
  /\ has_dir ["fw"; "_pio"] (dirs fresh_world) = false
  /\ has_dir ["fw"; "_pio"]
       (dirs (snd (script (sample_env git_always) "ststm32" false
                     (ManifestDoc no_remotes_manifest) fresh_world))) = true
  /\ In (EvMakedirs "/fw/_pio")
       (events (snd (script (sample_env git_always) "ststm32" false
                       (ManifestDoc no_remotes_manifest) fresh_world)))
  /\ fst (script (sample_env git_always) "ststm32" false
            (ManifestDoc no_revision_manifest) fresh_world) = Exit 0.
Proof. repeat split; try reflexivity. left. reflexivity. Qed.

Lemma C4_malformed_manifest_witness :
  (fst (script (sample_env git_always) "ststm32" false
          (ManifestDoc no_projects_manifest) fresh_world) = Exit 1
   /\ dirs (snd (script (sample_env git_always) "ststm32" false
                   (ManifestDoc no_projects_manifest) fresh_world)) = dirs fresh_world)
  /\ (fst (script (sample_env git_always) "ststm32" false
             (ManifestDoc no_remotes_manifest) fresh_world) = Exit 1
      /\ commands
           (new_events fresh_world
              (snd (script (sample_env git_always) "ststm32" false
                      (ManifestDoc no_remotes_manifest) fresh_world))) = [])
  /\ fst (script (sample_env git_always) "ststm32" false
            (ManifestDoc missing_revision_manifest) fresh_world) = Exit 1.
Proof.
  split; [|split].
  - destruct (C4_malformed_manifest (sample_env git_always) "ststm32" false
                no_projects_manifest fresh_world (or_introl eq_refl) eq_refl)
      as [H _].
    destruct (H eq_refl) as (H1 & H2 & _). split; assumption.
  - destruct (C4_malformed_manifest (sample_env git_always) "ststm32" false
                no_remotes_manifest fresh_world (or_introl eq_refl) eq_refl)
      as (_ & H & _).
    exact (H eq_refl).
  - destruct (C4_malformed_manifest (sample_env git_always) "ststm32" false
                missing_revision_manifest fresh_world (or_introl eq_refl) eq_refl)
      as (_ & _ & H).
    apply (H _ (mk_project "cmsis" (Some "modules/hal/cmsis") None) eq_refl);
      [left|..]; reflexivity.
Defined.

(** C8: a forced run over the ignored project processes every required
    entry without a failure and accumulates the empty record; it ends with
    status 0 and the state file still holds the record of the earlier run. *)
Lemma C8_state_persistence_counterexample :
  fst (process_bundled_projects (sample_env git_always) "ststm32"
         (packages_folder (sample_env git_always)) ignored_manifest
         (state_json stale_world) stale_world) = Ret (true, [])
  /\ fst (main (sample_env git_always) "ststm32" true
            (ManifestDoc ignored_manifest) stale_world) = Exit 0
  /\ state_json (snd (main (sample_env git_always) "ststm32" true
                        (ManifestDoc ignored_manifest) stale_world))
     = Some [("cmsis", "v1")]
  /\ new_events stale_world
       (snd (main (sample_env git_always) "ststm32" true
               (ManifestDoc ignored_manifest) stale_world)) = [].
Proof. repeat split; reflexivity. Qed.

(** C8 on the three sample projects: the record of all three is saved. *)
Lemma C8_state_persistence_witness :
  fst (main (sample_env git_always) "ststm32" false
         (ManifestDoc sample_manifest) fresh_world) = Exit 0
  /\ state_json (snd (main (sample_env git_always) "ststm32" false
                        (ManifestDoc sample_manifest) fresh_world))
     = Some [("cmsis", "0123456789abcdef"); ("lvgl", "v8.2.0"); ("mbedtls", "main")].
Proof.
  destruct (C8_state_persistence (sample_env git_always) "ststm32" false
              (ManifestDoc sample_manifest) fresh_world _ _ (surjective_pairing _))
    as [_ H].
  destruct (H sample_manifest _ _ eq_refl (or_introl eq_refl) eq_refl
              (surjective_pairing _)) as (Hexit & Hsaved & _).
  split; [exact Hexit|].
  destruct Hsaved as (Hst & _); [discriminate|]. exact Hst.
Defined.

(** C7 on the three sample projects: after a forced run that installed
    them, a second forced run runs no command. *)
Lemma C7_idempotence_witness :
  commands
    (new_events
       (snd (main (sample_env git_always) "ststm32" true
               (ManifestDoc sample_manifest) fresh_world))
       (snd (main (sample_env git_always) "ststm32" true
               (ManifestDoc sample_manifest)
               (snd (main (sample_env git_always) "ststm32" true
                       (ManifestDoc sample_manifest) fresh_world)))))
  = [].
Proof.
  eapply (C7_idempotence (sample_env git_always) "ststm32" true
            (ManifestDoc sample_manifest) fresh_world).
  - intros m Heq. injection Heq as <-. reflexivity.
  - reflexivity.
  - apply surjective_pairing.
Defined.

(** C2: with the state record [cmsis -> v1] and the manifest pinning
    [cmsis] to another revision, a run that is not a forced secondary
    installation ends at once: nothing is removed, nothing is fetched and
    the recorded revision stays [v1]. *)
Lemma C2_drift_refetch_counterexample :
  dict_get "cmsis" [("cmsis", "v1")] = Some "v1"
  /\ main (sample_env git_always) "ststm32" false (ManifestDoc sample_manifest)
       drift_world
     = (Exit 0, drift_world)
  /\ state_json drift_world = Some [("cmsis", "v1")].
Proof. repeat split; reflexivity. Qed.

(** C2 on the forced run over the same world: [cmsis] is removed, cloned
    once and recorded at the pinned revision. *)
Lemma C2_drift_refetch_witness :
  exists l1 l2 s',
    new_events drift_world
      (snd (main (sample_env git_always) "ststm32" true
              (ManifestDoc sample_manifest) drift_world))
    = l1 ++ EvRmtree "/fw/_pio/modules/hal/cmsis" :: l2
    /\ commands l1 = []
    /\ clones_into "/fw/_pio/modules/hal/cmsis" l2 = 1
    /\ state_json (snd (main (sample_env git_always) "ststm32" true
                          (ManifestDoc sample_manifest) drift_world)) = Some s'
    /\ dict_get "cmsis" s' = Some "0123456789abcdef".
Proof.
  apply (proj1 (C2_drift_refetch (sample_env git_always))
           "ststm32" sample_manifest drift_world _ [("cmsis", "v1")] []
           (mk_project "cmsis" (Some "modules/hal/cmsis") (Some "0123456789abcdef"))
           [ mk_project "lvgl" (Some "modules/lib/gui/lvgl") (Some "v8.2.0");
             mk_project "mbedtls" (Some "modules/crypto/mbedtls") (Some "main") ]
           "v1" "0123456789abcdef");
    reflexivity.
Defined.

(** * Further properties of the script *)

(** ** The pure helpers *)

(** X1. [is_commit_hash] accepts exactly the strings made of seven or more
    lowercase hexadecimal digits, and those strings followed by a single
    newline (the [$] of the pattern matches before a final newline). *)
Theorem is_commit_hash_accepted (s : string) :
  is_commit_hash s = true <->
  exists h, str_forall is_hex_lower h = true /\ 7 <= String.length h
            /\ (s = h \/ s = (h ++ nl)%string).
Proof.
  rewrite is_commit_hash_spec. unfold lower_hex7.
  split; intros (h & H); exists h.
  - destruct H as [H Hs]. apply andb_true_iff in H as [Hh Hn].
    apply Nat.leb_le in Hn. auto.
  - destruct H as (Hh & Hn & Hs). rewrite Hh. apply Nat.leb_le in Hn.
    now rewrite Hn.
Qed.

(** X2. The filter keeps an entry exactly when the entry has a path that
    does not start with [tool], its name does not start with [nrf_hw_],
    and, if its name starts with [hal_], the rest of the name is on the
    allow-list of the platform. *)
Theorem is_project_required_true (e : project_config) (ctx : string) :
  is_project_required e ctx = Ret true <->
  (exists p, path e = Some p /\ startswith "tool" p = false)
  /\ startswith "nrf_hw_" (name e) = false
  /\ (startswith "hal_" (name e) = true ->
      In (str_from 4 (name e)) (hal_allow_list ctx)).
Proof.
  rewrite is_project_required_cases. split.
  - destruct (startswith "hal_" (name e)) eqn:Hhal; cbn [andb].
    + destruct (str_in (str_from 4 (name e)) (hal_allow_list ctx)) eqn:Hin;
        cbn [negb]; [|discriminate].
      apply str_in_In in Hin.
      destruct (path e) as [p|]; [|discriminate].
      destruct (startswith "tool" p) eqn:Ht, (startswith "nrf_hw_" (name e));
        try discriminate.
      intros _. split; [now exists p | auto].
    + destruct (path e) as [p|]; [|discriminate].
      destruct (startswith "tool" p) eqn:Ht, (startswith "nrf_hw_" (name e));
        try discriminate.
      intros _. split; [now exists p|]. split; [reflexivity | discriminate].
  - intros ((p & Hp & Htool) & Hnrf & Hhal). rewrite Hp, Htool, Hnrf.
    destruct (startswith "hal_" (name e)); [|reflexivity].
    apply str_in_In in Hhal; [|reflexivity]. now rewrite Hhal.
Qed.

(** X3. The platform matters to the filter only through its allow-list,
    and only for the entries named [hal_...]: an entry that is kept stays
    kept on every platform whose allow-list holds at least the same
    vendors, and an entry with another name gets the same answer on every
    platform. *)
Theorem is_project_required_monotone (e : project_config) (ctx ctx' : string) :
  ((forall v, In v (hal_allow_list ctx) -> In v (hal_allow_list ctx')) ->
   is_project_required e ctx = Ret true ->
   is_project_required e ctx' = Ret true)
  /\ (startswith "hal_" (name e) = false ->
      is_project_required e ctx = is_project_required e ctx').
Proof.
  rewrite !is_project_required_cases. split.
  - intros Hincl. destruct (startswith "hal_" (name e)); cbn [andb]; [|auto].
    destruct (str_in (str_from 4 (name e)) (hal_allow_list ctx)) eqn:Hin;
      cbn [negb]; [|discriminate].
    apply str_in_In, Hincl, str_in_In in Hin. now rewrite Hin.
  - now intros ->.
Qed.

Lemma prepare_package_url_no_exit remotes default_remote_name pc c :
  prepare_package_url remotes default_remote_name pc <> Exit c.
Proof.
  unfold prepare_package_url.
  destruct (url pc); [destruct (url_base pc); discriminate|].
  destruct (dict_get default_remote_name remotes); [|discriminate].
  destruct (remote pc) as [rn|]; [|discriminate].
  destruct (dict_get rn remotes) as [r'|]; [|discriminate].
  destruct (remote_url_base r'); discriminate.
Qed.

Lemma truthy_false (s : string) : truthy s = false <-> s = EmptyString.
Proof.
  unfold truthy. rewrite negb_false_iff. apply String.eqb_eq.
Qed.

(** X4. The URL resolver answers with a URL exactly in two cases: the
    entry has both the keys [url] and [url-base]; or it has no [url] key,
    the default remote is in the registry and the remote that the entry
    names, if it names one, is in the registry with a [url-base]. The URL
    ends in [.git]. In every other case the resolver raises: with an
    [AttributeError] when the entry has no [url] key and the default remote
    is not in the registry (also when the entry names a remote of its
    own), with a [KeyError] otherwise. *)
Theorem prepare_package_url_resolves remotes default_remote_name pc :
  ((exists u, prepare_package_url remotes default_remote_name pc = Ret u) <->
   (url pc <> None /\ url_base pc <> None)
   \/ (url pc = None
       /\ dict_get default_remote_name remotes <> None
       /\ forall rn, remote pc = Some rn ->
            exists r' b, dict_get rn remotes = Some r' /\ remote_url_base r' = Some b))
  /\ (forall u, prepare_package_url remotes default_remote_name pc = Ret u ->
      exists b, u = (b ++ ".git")%string)
  /\ (url pc = None -> dict_get default_remote_name remotes = None ->
      prepare_package_url remotes default_remote_name pc
      = Raise (AttributeError "'str' object has no attribute 'get'"))
  /\ (forall e, prepare_package_url remotes default_remote_name pc = Raise e ->
      (exists k, e = KeyError k)
      \/ (url pc = None /\ dict_get default_remote_name remotes = None))
  /\ (forall c, prepare_package_url remotes default_remote_name pc <> Exit c).
Proof.
  unfold prepare_package_url.
  destruct (url pc) as [u0|].
  { destruct (url_base pc) as [b|]; cbn [getitem];
      (split; [|split; [|split; [discriminate|split]]]); try discriminate.
    - split; [intros _; left; split; discriminate | eauto].
    - intros u Hu. inversion Hu. eauto.
    - split; [intros [u Hu]; discriminate|].
      intros [[_ Hb] | [Hu _]]; [now contradiction Hb | discriminate].
    - intros e He. inversion He. left. eauto. }
  destruct (dict_get default_remote_name remotes) as [r|].
  2:{ split; [|split; [|split; [reflexivity|split]]]; try discriminate.
      - split; [intros [u Hu]; discriminate|].
        intros [[Hu _] | (_ & Hd & _)]; [now contradiction Hu | now contradiction Hd].
      - intros e _. right. auto. }
  destruct (remote pc) as [rn|].
  2:{ split; [|split; [|split; [discriminate|split]]]; try discriminate.
      - split; [intros _; right|eauto].
        split; [reflexivity|]. split; [discriminate|]. discriminate.
      - intros u Hu. injection Hu as <-.
        match goal with
        | |- exists _, (?a ++ String "/" (?l ++ ".git"))%string = _ =>
            exists (a ++ String "/" l)%string
        end.
        now rewrite string_app_assoc. }
  destruct (dict_get rn remotes) as [r'|] eqn:Hrn.
  2:{ split; [|split; [|split; [discriminate|split]]]; try discriminate.
      - split; [intros [u Hu]; discriminate|].
        intros [[Hu _] | (_ & _ & Hn)]; [now contradiction Hu|].
        destruct (Hn rn eq_refl) as (r' & b & Hr' & _). congruence.
      - intros e He. inversion He. left. eauto. }
  destruct (remote_url_base r') as [b|] eqn:Hb; cbn [getitem].
  - split; [|split; [|split; [discriminate|split]]]; try discriminate.
    + split; [intros _; right|eauto].
      split; [reflexivity|]. split; [discriminate|].
      intros rn' Hrn'. inversion Hrn'; subst. eauto.
    + intros u Hu. injection Hu as <-.
      match goal with
      | |- exists _, (?a ++ String "/" (?l ++ ".git"))%string = _ =>
          exists (a ++ String "/" l)%string
      end.
      now rewrite string_app_assoc.
  - split; [|split; [|split; [discriminate|split]]]; try discriminate.
    + split; [intros [u Hu]; discriminate|].
      intros [[Hu _] | (_ & _ & Hn)]; [now contradiction Hu|].
      destruct (Hn rn eq_refl) as (r'' & b & Hr'' & Hb'). congruence.
    + intros e He. inversion He. left. eauto.
Qed.

(** X5. On Windows [to_unix_path] leaves no backslash in a path, keeps its
    length, changes nothing when applied again, and returns a path as it
    is exactly when the path has no backslash; elsewhere it returns every
    path as it is. *)
Theorem to_unix_path_on_windows (p : string) :
  str_forall (fun c => negb (Ascii.eqb c (ascii_of_nat 92))) (to_unix_path_on true p) = true
  /\ String.length (to_unix_path_on true p) = String.length p
  /\ to_unix_path_on true (to_unix_path_on true p) = to_unix_path_on true p
  /\ (to_unix_path_on true p = p <->
      str_forall (fun c => negb (Ascii.eqb c (ascii_of_nat 92))) p = true)
  /\ to_unix_path_on false p = p
  /\ to_unix_path p = to_unix_path_on IS_WINDOWS p.
Proof.
  assert (Hrep : forall s,
            str_forall (fun c => negb (Ascii.eqb c (ascii_of_nat 92)))
              (replace_char (ascii_of_nat 92) "/" s) = true
            /\ String.length (replace_char (ascii_of_nat 92) "/" s) = String.length s
            /\ (replace_char (ascii_of_nat 92) "/" s = s <->
                str_forall (fun c => negb (Ascii.eqb c (ascii_of_nat 92))) s = true)).
  { induction s as [|c s (IH1 & IH2 & IH3)]; [repeat split|].
    cbn [replace_char str_forall String.length].
    destruct (Ascii.eqb c (ascii_of_nat 92)) eqn:Hc.
    - split; [exact IH1|]. split; [now rewrite IH2|].
      split; [|discriminate]. intros H. inversion H; subst c. discriminate.
    - rewrite Hc. split; [exact IH1|]. split; [now rewrite IH2|].
      cbn [negb andb]. rewrite <- IH3. split; [intros H; now injection H | now intros ->]. }
  assert (Hon : to_unix_path_on true p = replace_char (ascii_of_nat 92) "/" p).
  { unfold to_unix_path_on. destruct p; reflexivity. }
  destruct (Hrep p) as (H1 & H2 & H3).
  split; [now rewrite Hon|]. split; [now rewrite Hon|].
  split.
  { rewrite Hon. unfold to_unix_path_on.
    destruct (negb true || negb (truthy _)); [reflexivity|].
    now apply (Hrep (replace_char (ascii_of_nat 92) "/" p)). }
  split; [now rewrite Hon|]. split; reflexivity.
Qed.

(** ** Cloning and installing one project *)

Section MoreRuns.

Variable E : env.

(** X6. [clone_repository] runs one or two commands and stops at the
    first that fails; it returns [True] exactly when every command it ran
    succeeded; it writes its error message exactly when the clone itself
    failed (a failed reset is passed on without a message); and it leaves
    the directories and the state file of the model alone. *)
Theorem clone_repository_result dst_dir remote_url revision submodules_required w :
  let r := clone_repository E dst_dir remote_url revision submodules_required w in
  let l := new_events w (snd r) in
  fst r = Ret (forallb cmd_ok (commands l))
  /\ 1 <= length (commands l) <= 2
  /\ forallb cmd_ok (removelast (commands l)) = true
  /\ existsb is_stderr l = negb (cmd_ok (hd ([], None, true) (commands l)))
  /\ dirs (snd r) = dirs w
  /\ state_json (snd r) = state_json w.
Proof.
  unfold clone_repository, run_cmd.
  cbv beta iota zeta delta [bind ret when print emit stderr_write].
  destruct (is_commit_hash revision), (truthy revision), submodules_required,
    (VERBOSE E); cbv beta iota zeta delta [negb app];
    repeat match goal with
           | |- context [check_call E ?w0 ?a ?c] =>
               destruct (check_call E w0 a c);
               cbv beta iota zeta delta [negb]
           end;
    cbn [fst snd];
    (erewrite new_events_app
       by (cbn [events log]; repeat rewrite <- app_assoc; reflexivity));
    cbn; repeat split; lia.
Qed.

(** X7. For a destination that is an absolute path without a [..]
    component, apart from the state file, [install_from_remote] raises
    exactly when the URL cannot be resolved, the revision is missing or
    empty, or the destination directory is already there (then with
    [FileExistsError], provided URL and revision are fine); and whenever it
    raises it has created no directory, run no command and left the state
    file alone. *)
Theorem install_from_remote_raises pc dst_dir remotes default_remote w :
  fit_destination E dst_dir = true ->
  let r := install_from_remote E pc dst_dir remotes default_remote w in
  ((exists e, fst r = Raise e) <->
     (exists e, prepare_package_url remotes default_remote pc = Raise e)
     \/ revision pc = None \/ revision pc = Some EmptyString
     \/ has_dir (resolve dst_dir) (dirs w) = true)
  /\ ((exists e, fst r = Raise e) ->
      dirs (snd r) = dirs w /\ state_json (snd r) = state_json w
      /\ forallb is_output (new_events w (snd r)) = true)
  /\ (forall u v, prepare_package_url remotes default_remote pc = Ret u ->
        revision pc = Some v -> v <> EmptyString ->
        has_dir (resolve dst_dir) (dirs w) = true ->
        fst r = Raise (OSError "FileExistsError")).
Proof.
  intros _. cbv zeta. split; [|split].
  - unfold install_from_remote.
    destruct (prepare_package_url remotes default_remote pc) as [u|e|c] eqn:Hu;
      cbv beta iota delta [bind lift].
    2:{ cbn [fst]. split; eauto. }
    2:{ now apply prepare_package_url_no_exit in Hu. }
    rewrite when_verbose.
    destruct (revision pc) as [v|] eqn:Hv.
    2:{ cbv beta iota delta [assert raise]. cbn [fst]. split; eauto. }
    destruct (truthy v) eqn:Ht.
    2:{ cbv beta iota delta [assert raise]. cbn [fst].
        apply truthy_false in Ht. subst v. split; eauto. }
    cbv beta iota delta [assert ret os_makedirs getitem]. rewrite dirs_say.
    destruct (has_dir (resolve dst_dir) (dirs w)) eqn:Hd.
    { cbn [fst]. split; eauto 6. }
    match goal with
    | |- context [clone_repository E ?d ?u ?rv ?sb ?w0] =>
        destruct (clone_repository E d u rv sb w0) as [o w1] eqn:Hc
    end.
    apply clone_repository_spec in Hc as (_ & _ & l & ok1 & ok2 & _ & _ & -> & _).
    cbn [fst]. split.
    + intros [e He]. discriminate.
    + intros [[e He] | [Hn | [Hn | Hn]]]; try discriminate.
      inversion Hn; subst v. discriminate.
  - intros [e He].
    destruct (install_from_remote E pc dst_dir remotes default_remote w)
      as [out w'] eqn:Hrun.
    cbn [fst snd] in *. subst out.
    apply install_from_remote_spec in Hrun as (Hs & l & Hev & Hcases).
    rewrite (new_events_app _ _ _ Hev).
    destruct Hcases as [(e' & _ & Hd & Hl & _) | Hok]; [auto|].
    destruct Hok as (u & r & l0 & lc & ok1 & ok2 & _ & _ & _ & _ & _ & _ & _ & _
                     & Hout & _).
    discriminate.
  - intros u v Hu Hv Hne Hd. unfold install_from_remote. rewrite Hu.
    cbv beta iota delta [bind lift]. rewrite when_verbose, Hv.
    assert (Ht : truthy v = true).
    { destruct (truthy v) eqn:Ht; [reflexivity|].
      now apply truthy_false in Ht. }
    rewrite Ht. cbv beta iota delta [assert ret os_makedirs]. rewrite dirs_say, Hd.
    reflexivity.
Qed.

(** X8. Whenever [install_from_remote] returns, with [True] or with
    [False], the destination directory did not exist before and exists
    afterwards together with all its ancestors (a failed fetch leaves the
    directory it made behind), no directory has disappeared, the state file
    is untouched, and the result is [True] exactly when every command that
    was run succeeded. *)
Theorem install_from_remote_returns pc dst_dir remotes default_remote w b :
  fst (install_from_remote E pc dst_dir remotes default_remote w) = Ret b ->
  let w' := snd (install_from_remote E pc dst_dir remotes default_remote w) in
  has_dir (resolve dst_dir) (dirs w) = false
  /\ (forall a, is_under a (resolve dst_dir) = true -> has_dir a (dirs w') = true)
  /\ (forall p, has_dir p (dirs w) = true -> has_dir p (dirs w') = true)
  /\ In (EvMakedirs dst_dir) (new_events w w')
  /\ b = forallb cmd_ok (commands (new_events w w'))
  /\ commands (new_events w w') <> []
  /\ state_json w' = state_json w.
Proof.
  destruct (install_from_remote E pc dst_dir remotes default_remote w)
    as [out w'] eqn:Hrun.
  cbn [fst snd]. intros ->. cbv zeta.
  apply install_from_remote_spec in Hrun as (Hs & l & Hev & Hcases).
  rewrite (new_events_app _ _ _ Hev).
  destruct Hcases as [(e' & He & _) | Hok]; [discriminate|].
  destruct Hok as (u & r & l0 & lc & ok1 & ok2 & _ & _ & _ & Hd & Hd' & -> & Hl0
                   & Hcmd & Hout & _).
  injection Hout as ->.
  split; [assumption|]. split.
  { intros a Ha. rewrite Hd', has_dir_app. apply orb_true_iff. left.
    now apply has_dir_In, ancestors_spec. }
  split.
  { intros p Hp. rewrite Hd', has_dir_app, Hp. apply orb_true_r. }
  split; [apply in_app_iff; right; now left|].
  rewrite commands_app, (outputs_no_commands _ Hl0). cbn [app commands flat_map].
  fold (commands lc). rewrite Hcmd. split; [|split; [discriminate | assumption]].
  cbn [forallb cmd_ok snd].
  destruct (is_commit_hash r), ok1, ok2; reflexivity.
Qed.

(** ** Cleaning up *)

(** X9. [clean_up] either returns or ends the run with status 1, and never
    raises. When the folder is not a directory it returns without touching
    anything. When it returns, the folder is not a directory any more and
    the directories outside the folder are exactly those of before (in a
    consistent file system nothing is left below the folder either). It
    ends the run with status 1 only when the folder was there and could not
    be removed, the last thing it does being a message on the standard
    error stream; it returns whenever the operating system carries out the
    removal. *)
Theorem clean_up_outcome pf w :
  let r := clean_up E pf w in
  (fst r = Ret tt \/ fst r = Exit 1)
  /\ (has_dir (resolve pf) (dirs w) = false ->
      fst r = Ret tt /\ dirs (snd r) = dirs w /\ state_json (snd r) = state_json w
      /\ forallb is_output (new_events w (snd r)) = true)
  /\ (fst r = Ret tt ->
      has_dir (resolve pf) (dirs (snd r)) = false
      /\ (forall d, is_under (resolve pf) d = false ->
            (In d (dirs (snd r)) <-> In d (dirs w)))
      /\ (closed_dirs (dirs w) = true ->
          forall d, In d (dirs (snd r)) -> is_under (resolve pf) d = false))
  /\ (fst r = Exit 1 ->
      has_dir (resolve pf) (dirs w) = true
      /\ exists l s, new_events w (snd r) = l ++ [EvStderr s]
                     /\ forallb is_output l = true)
  /\ ((forall w0, rmtree_ok E w0 pf = true) -> fst r = Ret tt).
Proof.
  cbv zeta. rewrite clean_up_eq. cbv zeta.
  destruct (say_facts E "Installation failed. Cleaning package directory..." w)
    as (l0 & Hev0 & Hl0 & Hd0 & Hs0).
  remember (say E "Installation failed. Cleaning package directory..." w) as w0 eqn:Hw0.
  clear Hw0. rewrite Hd0.
  destruct (has_dir (resolve pf) (dirs w)) eqn:Hdir.
  - destruct (rmtree_ok E w0 pf) eqn:Hrm; cbn [fst snd].
    + split; [now left|]. split; [discriminate|]. split.
      { intros _. cbn [dirs removed]. rewrite Hd0. split; [|split].
        - rewrite has_dir_filter_under, is_under_refl. apply andb_false_r.
        - intros d Hd. rewrite filter_In, Hd. cbn [negb]. tauto.
        - intros _ d Hin. apply filter_In in Hin as [_ Hin].
          now apply negb_true_iff in Hin. }
      split; [discriminate | reflexivity].
    + split; [now right|]. split; [discriminate|]. split; [discriminate|].
      split.
      { intros _. split; [reflexivity|]. eexists l0, _. split; [|assumption].
        apply new_events_app. cbn [events log]. rewrite Hev0.
        now rewrite <- app_assoc. }
      intros Hall. rewrite Hall in Hrm. discriminate.
  - cbn [fst snd]. split; [now left|]. split.
    { intros _. rewrite (new_events_app _ _ _ Hev0). auto. }
    split.
    { intros _. rewrite Hd0. split; [assumption|]. split; [tauto|].
      intros Hc. now apply closed_dirs_nothing_below. }
    split; [discriminate | reflexivity].
Qed.

(** ** The drift phase *)

Lemma opt_eqb_false (a b : option string) : opt_eqb a b = false <-> a <> b.
Proof.
  destruct a as [x|], b as [y|]; cbn [opt_eqb]; split; intros H;
    try discriminate; try congruence.
  - apply String.eqb_neq in H. congruence.
  - apply String.eqb_neq. congruence.
Qed.

(** Each entry of [modified] stands for a recorded project whose manifest
    entry has another revision. *)
Lemma modified_entries_sound west_dep st d :
  In d (modified_entries west_dep st) ->
  exists proj,
    dict_get (m_name d) west_dep = Some proj
    /\ In (m_name d, m_state_hash d) st
    /\ revision proj <> Some (m_state_hash d)
    /\ m_path d = path proj
    /\ m_west_revision d = revision proj.
Proof.
  induction st as [|[n v] st IH]; cbn [modified_entries]; [contradiction|].
  assert (Hrest : In d (modified_entries west_dep st) ->
            exists proj,
              dict_get (m_name d) west_dep = Some proj
              /\ In (m_name d, m_state_hash d) ((n, v) :: st)
              /\ revision proj <> Some (m_state_hash d)
              /\ m_path d = path proj
              /\ m_west_revision d = revision proj).
  { intros Hin. destruct (IH Hin) as (proj & H1 & H2 & H3). exists proj.
    split; [assumption|]. split; [now right | assumption]. }
  destruct (dict_get n west_dep) as [proj|] eqn:Hget; [|assumption].
  destruct (opt_eqb (Some v) (revision proj)) eqn:Heq; cbn [negb]; [assumption|].
  intros [<-|Hin]; [|auto]. cbn [m_name m_state_hash m_path m_west_revision].
  exists proj. split; [assumption|]. split; [now left|].
  apply opt_eqb_false in Heq. split; [congruence | auto].
Qed.

(** What [clear_deprecated_package] removes is the path it was given,
    joined to the package folder. *)
Lemma clear_deprecated_package_events path pf w :
  exists l,
    events (snd (clear_deprecated_package E path pf w)) = events w ++ l
    /\ forall p, In (EvRmtree p) l ->
         exists q, path = Some q /\ p = os_path_join pf q.
Proof.
  unfold clear_deprecated_package. destruct path as [q|].
  2:{ exists []. cbn. rewrite app_nil_r. split; [reflexivity | contradiction]. }
  cbv beta iota zeta delta [bind os_path_isdir shutil_rmtree print emit].
  destruct (has_dir (resolve (os_path_join pf q)) (dirs w)).
  - destruct (rmtree_ok E w (os_path_join pf q)); cbn [snd].
    + exists [EvRmtree (os_path_join pf q)]. split; [reflexivity|].
      intros p [Hp|[]]. inversion Hp. eauto.
    + exists []. rewrite app_nil_r. split; [reflexivity | contradiction].
  - exists [EvPrint "Package path not found"]. split; [reflexivity|].
    intros p [Hp|[]]. discriminate.
Qed.

Lemma clear_modified_rmtree pf ms :
  forall w,
  exists l,
    events (snd (clear_modified E pf ms w)) = events w ++ l
    /\ forall p, In (EvRmtree p) l ->
         exists d q, In d ms /\ m_path d = Some q /\ p = os_path_join pf q.
Proof.
  induction ms as [|d ms IH]; intros w.
  - exists []. cbn. rewrite app_nil_r. split; [reflexivity | contradiction].
  - cbn [clear_modified]. cbv beta iota delta [bind print emit].
    match goal with |- context [log ?e w] => set (ev := e) end.
    destruct (clear_deprecated_package_events (m_path d) pf (log ev w))
      as (l1 & Hev1 & Hl1).
    destruct (clear_deprecated_package E (m_path d) pf (log ev w)) as [o w1].
    cbn [snd events log] in Hev1.
    destruct o as [[]|e|c].
    + destruct (IH w1) as (l & Hev & Hl). exists (ev :: l1 ++ l). split.
      { rewrite Hev, Hev1. now rewrite <- !app_assoc. }
      intros p [Hp|Hp]; [discriminate|].
      apply in_app_iff in Hp as [Hp|Hp].
      * destruct (Hl1 p Hp) as (q & Hq & ->). exists d, q. cbn [In]. auto.
      * destruct (Hl p Hp) as (d' & q & Hd' & Hq & ->). exists d', q. cbn [In]. auto.
    + exists (ev :: l1). split; [cbn [snd]; rewrite Hev1; now rewrite <- app_assoc|].
      intros p [Hp|Hp]; [discriminate|].
      destruct (Hl1 p Hp) as (q & Hq & ->). exists d, q. cbn [In]. auto.
    + exists (ev :: l1). split; [cbn [snd]; rewrite Hev1; now rewrite <- app_assoc|].
      intros p [Hp|Hp]; [discriminate|].
      destruct (Hl1 p Hp) as (q & Hq & ->). exists d, q. cbn [In]. auto.
Qed.

Lemma quiet_no_rmtree (l : list event) p :
  forallb quiet l = true -> ~ In (EvRmtree p) l.
Proof.
  intros H Hin. rewrite forallb_forall in H. apply H in Hin. discriminate.
Qed.

(** X10. [process_bundled_projects] removes a directory only in its drift
    phase, and only the directory of a project of the manifest that the
    state record lists with a revision other than the one the manifest
    gives it: the path of the project joined to the package folder.
    (Packages that the record lists and the manifest does not name are
    left in place.) *)
Theorem drift_removes_only_changed platform_name pf m sm w p :
  In (EvRmtree p)
     (new_events w (snd (process_bundled_projects E platform_name pf m sm w))) ->
  exists st ps pc v q,
    sm = Some st /\ projects m = Some ps
    /\ In pc ps /\ In (name pc, v) st
    /\ revision pc <> Some v
    /\ path pc = Some q /\ p = os_path_join pf q.
Proof.
  rewrite process_bundled_projects_eq.
  destruct (projects m) as [ps|]; [|now rewrite new_events_same].
  cbv zeta. fold (ensure_folder pf w).
  assert (Hens : exists l1, events (ensure_folder pf w) = events w ++ l1
                            /\ ~ In (EvRmtree p) l1).
  { unfold ensure_folder. destruct (has_dir _ _).
    - exists []. rewrite app_nil_r. auto.
    - exists [EvMakedirs pf]. split; [reflexivity|]. intros [H|[]]. discriminate. }
  destruct Hens as (l1 & Hev1 & Hl1).
  remember (ensure_folder pf w) as w1 eqn:Hw1. clear Hw1.
  assert (Hloop : forall w2 l2,
            events w2 = events w1 ++ l2 ->
            In (EvRmtree p)
              (new_events w
                 (snd match remotes m with
                      | Some rs =>
                          install_projects E platform_name pf (remotes_dict rs)
                            match defaults_remote m with
                            | Some r => r
                            | None => EmptyString
                            end ps [] w2
                      | None => (Raise (KeyError "remotes"), w2)
                      end)) ->
            In (EvRmtree p) l2).
  { intros w2 l2 Hev2. destruct (remotes m) as [rs|]; cbn [snd].
    - match goal with
      | |- context [install_projects E ?a ?b ?c ?d ?e ?f ?g] =>
          destruct (install_projects E a b c d e f g) as [o w3] eqn:Hl
      end.
      apply install_projects_spec in Hl as (_ & _ & l & Hev & Hq & _).
      cbn [snd]. rewrite (new_events_app w w3 (l1 ++ l2 ++ l)).
      2:{ rewrite Hev, Hev2, Hev1. now rewrite <- !app_assoc. }
      intros Hin. apply in_app_iff in Hin as [Hin|Hin]; [contradiction|].
      apply in_app_iff in Hin as [Hin|Hin]; [assumption|].
      now apply quiet_no_rmtree in Hin.
    - rewrite (new_events_app w w2 (l1 ++ l2)).
      2:{ rewrite Hev2, Hev1. now rewrite <- !app_assoc. }
      intros Hin. apply in_app_iff in Hin as [Hin|Hin]; [contradiction | assumption]. }
  destruct sm as [[|x st]|].
  - intros Hin. apply (Hloop w1 []) in Hin; [contradiction | now rewrite app_nil_r].
  - destruct (clear_modified_rmtree pf (modified_entries (dict_of name ps) (x :: st)) w1)
      as (l2 & Hev2 & Hl2).
    destruct (clear_modified E pf (modified_entries (dict_of name ps) (x :: st)) w1)
      as [o w2].
    cbn [snd] in Hev2.
    assert (Hdone : In (EvRmtree p) l2 ->
              exists st0 ps0 pc v q,
                Some (x :: st) = Some st0 /\ Some ps = Some ps0
                /\ In pc ps0 /\ In (name pc, v) st0
                /\ revision pc <> Some v
                /\ path pc = Some q /\ p = os_path_join pf q).
    { intros Hin. destruct (Hl2 p Hin) as (d & q & Hd & Hq & ->).
      apply modified_entries_sound in Hd as (proj & Hget & Hst & Hrev & Hpath & _).
      apply dict_of_get_In in Hget as [[Hin' Hn]|Hnil]; [|discriminate].
      exists (x :: st), ps, proj, (m_state_hash d), q.
      rewrite Hn. repeat split; auto. congruence. }
    destruct o as [[]|e|c].
    + intros Hin. apply Hdone. eapply Hloop; eauto.
    + cbn [snd]. rewrite (new_events_app w w2 (l1 ++ l2)).
      2:{ rewrite Hev2, Hev1. now rewrite <- !app_assoc. }
      intros Hin. apply in_app_iff in Hin as [Hin|Hin]; [contradiction | auto].
    + cbn [snd]. rewrite (new_events_app w w2 (l1 ++ l2)).
      2:{ rewrite Hev2, Hev1. now rewrite <- !app_assoc. }
      intros Hin. apply in_app_iff in Hin as [Hin|Hin]; [contradiction | auto].
  - intros Hin. apply (Hloop w1 []) in Hin; [contradiction | now rewrite app_nil_r].
Qed.

(** The turn of a project that the filter excludes, or that is on the
    ignore list and has no directory: nothing happens. *)
Lemma process_project_skipped platform_name pf remotes default_remote pc result w r1 w' :
  is_project_required pc platform_name = Ret false
  \/ str_in (name pc) IGNORED_PACKAGES = true ->
  has_dir (package_dir pf pc) (dirs w) = false ->
  process_project E platform_name pf remotes default_remote pc result w
  = (Ret (Continue r1), w') ->
  r1 = result /\ dirs w' = dirs w
  /\ exists l, events w' = events w ++ l /\ commands l = [].
Proof.
  intros Hskip Hdir H.
  apply process_project_spec in H as (_ & l & Hev & Hcases).
  destruct Hcases as [(Hd & Hl & Hout) | Hinst].
  - destruct Hout as [(e & He) | [(Hr & _) | (rev & _ & _ & Hd' & _)]];
      [discriminate | | congruence].
    inversion Hr; subst. split; [reflexivity|]. split; [assumption|].
    exists l. auto using outputs_no_commands.
  - exfalso.
    destruct Hinst as (u & r & l0 & lc & lt & ok1 & ok2 & Hreq & _ & Hign & _).
    destruct Hskip; congruence.
Qed.

(** X11. The drift phase does not ask whether a package is wanted. In a
    forced secondary installation that ends with status 0, a package that
    the state record lists with another revision than the manifest, and
    that the filter excludes or the ignore list names, has its directory
    removed and is not fetched again: the directory is gone at the end of
    the run, nothing was cloned into it, and a state file written by the
    run does not list the package. (The paths of the projects are relative
    and without [..], the package is named once in the manifest and its
    directory is apart from those of the other projects.) *)
Theorem drift_drops_unwanted_package platform_name m w w' s pre pA post v1 :
  state_json w = Some s -> dict_get (name pA) s = Some v1 ->
  projects m = Some (pre ++ pA :: post) ->
  tame_paths (pre ++ pA :: post) = true ->
  forallb (fun e => negb (String.eqb (name e) (name pA))
                    && apart (package_dir (packages_folder E) e)
                             (package_dir (packages_folder E) pA))
    (pre ++ post) = true ->
  revision pA <> Some v1 ->
  is_project_required pA platform_name = Ret false
  \/ str_in (name pA) IGNORED_PACKAGES = true ->
  has_dir (package_dir (packages_folder E) pA) (dirs w) = true ->
  main E platform_name true (ManifestDoc m) w = (Exit 0, w') ->
  In (EvRmtree (package_path (packages_folder E) pA)) (new_events w w')
  /\ has_dir (package_dir (packages_folder E) pA) (dirs w') = false
  /\ clones_into (package_path (packages_folder E) pA) (new_events w w') = 0
  /\ forall f st, In (EvSaveState f st) (new_events w w') ->
       dict_get (name pA) st = None.
Proof.
  intros Hs Hget Hps _ Hothers Hrev Hskip Hdir H.
  rewrite main_eq, Hs in H. cbn [andb negb] in H.
  destruct (which_git E); cbv beta iota delta [negb] in H; [|discriminate].
  set (pf := packages_folder E) in *.
  set (target := package_path pf pA) in *.
  assert (Hdirt : package_dir pf pA = resolve target) by reflexivity.
  assert (Hoth : forall pc, In pc (pre ++ post) ->
            name pc <> name pA /\ apart (package_dir pf pc) (resolve target) = true).
  { intros pc Hin. rewrite forallb_forall in Hothers. specialize (Hothers pc Hin).
    apply andb_true_iff in Hothers as [Hn Ha]. split; [|exact Ha].
    apply negb_true_iff in Hn. now apply String.eqb_neq in Hn. }
  destruct (process_bundled_projects E platform_name pf m (Some s) w)
    as [o wp] eqn:Hp.
  destruct o as [[[|] st]|e|c]; try discriminate.
  2:{ rewrite clean_up_eq in H. cbv zeta in H.
      repeat match type of H with
             | context [if ?c then _ else _] => destruct c
             end; discriminate. }
  2:{ now apply process_bundled_projects_spec in Hp as (_ & l & _ & _ & Hout). }
  pose proof Hp as Hp0.
  apply process_bundled_projects_spec in Hp0 as (_ & l & Hev & Hsv & _).
  apply process_bundled_projects_returned in Hp
    as (ps & rs & w2 & Hps' & Hrs & Hdrift & Hloop).
  assert (ps = pre ++ pA :: post) by congruence. subst ps. clear Hps'.
  (* the drift phase *)
  destruct (ensure_folder_facts pf w) as (_ & Hgrown & le & Heve & Hce).
  rewrite drift_phase_eq in Hdrift.
  destruct s as [|x s]; [discriminate|].
  assert (HdA : In {| m_name := name pA; m_state_hash := v1;
                      m_west_revision := revision pA; m_path := path pA |}
                   (modified_entries (dict_of name (pre ++ pA :: post)) (x :: s))).
  { apply modified_entries_drifted.
    - now apply dict_get_In.
    - apply dict_of_get_last. intros Hin. apply in_map_iff in Hin as (pc & Hn & Hin).
      destruct (Hoth pc) as [Hne' _]; [apply in_app_iff; now right|]. congruence.
    - apply opt_eqb_false. congruence. }
  destruct (clear_modified_paths _ _ _ _ _ Hdrift _ HdA) as [p Hpath].
  cbn [m_path] in Hpath.
  assert (Htarget : os_path_join pf p = target)
    by (subst target; unfold package_path; now rewrite Hpath).
  apply (clear_modified_removes E pf target) in Hdrift
    as (Hgone & d1 & d2 & Hevd & Hcd1 & Hcd2).
  2:{ intros d Hd q Hq.
      apply modified_entries_from in Hd as (pc & Hin & Hmp & _).
      rewrite Hq in Hmp. apply in_app_iff in Hin as [Hin|[<-|Hin]].
      - right. destruct (Hoth pc) as [_ Ha]; [apply in_app_iff; now left|].
        unfold package_dir, package_path in Ha. now rewrite <- Hmp in Ha.
      - left. assert (q = p) by congruence. now subst q.
      - right. destruct (Hoth pc) as [_ Ha]; [apply in_app_iff; now right|].
        unfold package_dir, package_path in Ha. now rewrite <- Hmp in Ha. }
  2:{ exists {| m_name := name pA; m_state_hash := v1;
               m_west_revision := revision pA; m_path := path pA |}, p.
      split; [|split]; assumption. }
  2:{ rewrite <- Hdirt. eapply grown_has_dir; eauto. }
  (* the loop: the projects before A, A, the projects after A *)
  rewrite install_projects_app in Hloop.
  destruct (install_projects E platform_name pf (remotes_dict rs) _ pre [] w2)
    as [o1 w3] eqn:Hpre.
  destruct o1 as [[[|] r1]|e1|c1]; try discriminate.
  apply (install_projects_others E _ _ _ _ (name pA) target) in Hpre
    as (Hd3 & Hrec1 & lpre & Hevpre & Hcpre).
  2:{ intros pc Hin. apply Hoth, in_app_iff. now left. }
  rewrite install_projects_cons in Hloop.
  destruct (process_project E platform_name pf (remotes_dict rs) _ pA r1 w3)
    as [oA w4] eqn:HA.
  destruct oA as [[r2|r2]|eA|cA]; try discriminate.
  apply process_project_skipped in HA as (-> & Hd4 & lA & HevA & HcA); auto.
  2:{ rewrite Hdirt. congruence. }
  apply (install_projects_others E _ _ _ _ (name pA) target) in Hloop
    as (Hd5 & Hrec & lpost & Hevpost & Hcpost).
  2:{ intros pc Hin. apply Hoth, in_app_iff. now right. }
  cbn [dict_get] in Hrec1.
  assert (Hgone' : has_dir (resolve target) (dirs wp) = false) by congruence.
  assert (Hnone : dict_get (name pA) st = None) by congruence.
  assert (Hevp : events wp
                 = events w ++ le ++ d1 ++ EvRmtree target :: d2 ++ lpre ++ lA ++ lpost).
  { rewrite Hevpost, HevA, Hevpre, Hevd, Heve. now rewrite <- !app_assoc. }
  assert (Hclones : clones_into target
                      (le ++ d1 ++ EvRmtree target :: d2 ++ lpre ++ lA ++ lpost) = 0).
  { change (EvRmtree target :: d2 ++ lpre ++ lA ++ lpost)
      with ([EvRmtree target] ++ d2 ++ lpre ++ lA ++ lpost).
    rewrite !clones_into_app, Hcpre, Hcpost.
    rewrite (clones_into_no_commands _ le Hce), (clones_into_no_commands _ d1 Hcd1),
      (clones_into_no_commands _ d2 Hcd2), (clones_into_no_commands _ lA HcA).
    reflexivity. }
  assert (Hl : l = le ++ d1 ++ EvRmtree target :: d2 ++ lpre ++ lA ++ lpost).
  { apply (app_inv_head (events w)). congruence. }
  assert (Hin : In (EvRmtree target) l).
  { rewrite Hl. apply in_app_iff. right. apply in_app_iff. right. now left. }
  rewrite <- Hl in Hclones.
  destruct st as [|y st]; inversion H; subst w'; clear H.
  - rewrite (new_events_app _ _ _ Hev). repeat split; auto.
    intros f st0 Hsave. now apply not_saved_In in Hsave.
  - rewrite (new_events_app w _ (l ++ [EvSaveState (state_file E) (y :: st)])).
    2:{ cbn [snd save_state events]. rewrite Hev. now rewrite <- app_assoc. }
    split; [apply in_app_iff; now left|]. split; [assumption|]. split.
    + rewrite clones_into_app, Hclones. reflexivity.
    + intros f st0 Hsave. apply in_app_iff in Hsave as [Hsave|[Hsave|[]]].
      * now apply not_saved_In in Hsave.
      * inversion Hsave; subst. assumption.
Qed.

(** ** Where a run works *)

Lemma walk_tame (cs : list string) :
  str_in ".." cs = false ->
  forall st, exists t, fold_left walk cs st = t ++ st.
Proof.
  induction cs as [|c cs IH]; intros Hno st; [now exists []|].
  cbn [str_in] in Hno. apply orb_false_iff in Hno as [Hc Hcs].
  cbn [fold_left]. unfold walk at 2.
  destruct (String.eqb c EmptyString || String.eqb c "."); [now apply IH|].
  rewrite String.eqb_sym in Hc. rewrite Hc.
  destruct (IH Hcs (c :: st)) as [t Ht]. exists (t ++ [c]).
  rewrite Ht. now rewrite <- app_assoc.
Qed.

(** A tame path joined to a folder resolves to a place in that folder. *)
Lemma resolve_join_tame (pf q : string) :
  tame q = true -> is_under (resolve pf) (resolve (os_path_join pf q)) = true.
Proof.
  unfold tame. intros H. apply andb_true_iff in H as [Hrel Hno].
  apply negb_true_iff in Hrel, Hno.
  unfold os_path_join. rewrite Hrel.
  assert (Hgo : forall a, components (a ++ String "/" q) = components a ++ components q ->
            is_under (rev (fold_left walk (components a) []))
              (resolve (a ++ String "/" q)) = true).
  { intros a Ha. unfold resolve. rewrite Ha, fold_left_app.
    destruct (walk_tame _ Hno (fold_left walk (components a) [])) as [t ->].
    rewrite rev_app_distr. apply is_under_app. }
  destruct (truthy pf) eqn:Ht; cbn [negb orb].
  - destruct (ends_with_char "/" pf) eqn:He.
    + apply ends_with_char_split in He as [a ->].
      rewrite string_app_assoc. cbn [append].
      replace (resolve (a ++ "/")) with (rev (fold_left walk (components a) [])).
      * apply Hgo, components_app_slash.
      * unfold resolve. change "/"%string with (String "/" EmptyString).
        rewrite components_app_slash, fold_left_app. reflexivity.
    + change ("/" ++ q)%string with (String "/" q).
      apply (Hgo pf), components_app_slash.
  - apply truthy_false in Ht. subst pf. reflexivity.
Qed.

Lemma outputs_stay pf (l : list event) :
  forallb is_output l = true -> forallb (stays_in pf) l = true.
Proof. apply forallb_impl. now intros []. Qed.

(** Messages and commands stay in a folder when the commands do. *)
Lemma runs_stay pf (l : list event) :
  forallb (fun e => is_output e || is_run e) l = true ->
  forallb (fun c => stays_in pf (EvRun (fst (fst c)) (snd (fst c)) (snd c)))
    (commands l) = true ->
  forallb (stays_in pf) l = true.
Proof.
  induction l as [|e l IH]; [reflexivity|].
  cbn [forallb]. intros H Hc. apply andb_true_iff in H as [He Hl].
  destruct e; try discriminate; cbn [commands flat_map app] in Hc;
    fold (commands l) in Hc.
  - now rewrite IH.
  - now rewrite IH.
  - cbn [forallb fst snd] in Hc. apply andb_true_iff in Hc as [H1 H2].
    now rewrite H1, IH.
Qed.

Lemma process_project_stays platform_name pf remotes default_remote pc result w :
  tame (project_path pc) = true ->
  exists l,
    events (snd (process_project E platform_name pf remotes default_remote pc result w))
    = events w ++ l
    /\ forallb (stays_in pf) l = true.
Proof.
  intros Htame.
  destruct (process_project E platform_name pf remotes default_remote pc result w)
    as [out w'] eqn:H.
  apply process_project_spec in H as (_ & l & Hev & Hcases).
  exists l. split; [assumption|].
  destruct Hcases as [(_ & Hl & _) | Hinst]; [now apply outputs_stay|].
  destruct Hinst as (u & r & l0 & lc & lt & ok1 & ok2 & _ & _ & _ & _ & _ & _ & _
                     & -> & Hl0 & Hlt & Hall & Hcmd & _).
  assert (Hin : is_under (resolve pf) (resolve (package_path pf pc)) = true)
    by now apply resolve_join_tame.
  rewrite forallb_app. cbn [forallb]. rewrite forallb_app.
  rewrite (outputs_stay _ _ Hl0), (outputs_stay _ _ (stderr_outputs _ Hlt)).
  unfold stays_in at 1. cbn [places forallb]. rewrite Hin.
  rewrite (runs_stay pf lc Hall); [reflexivity|].
  rewrite Hcmd, to_unix_path_posix. cbn [forallb fst snd].
  unfold stays_in at 1. cbn [places forallb].
  replace (last (["git"; "clone"] ++
                 (if is_commit_hash r then [] else ["--branch"; r; "--depth"; "1"]) ++
                 match submodules pc with
                 | Some true => ["--recursive"]
                 | _ => []
                 end ++ [u; package_path pf pc]) EmptyString)
    with (package_path pf pc).
  2:{ rewrite !app_assoc. symmetry. apply last_two. }
  rewrite Hin.
  destruct (is_commit_hash r && ok1); [|reflexivity].
  cbn [forallb fst snd]. unfold stays_in. cbn [places forallb]. now rewrite Hin.
Qed.

Lemma install_projects_stays platform_name pf remotes default_remote ps :
  (forall pc, In pc ps -> tame (project_path pc) = true) ->
  forall result w,
  exists l,
    events (snd (install_projects E platform_name pf remotes default_remote ps result w))
    = events w ++ l
    /\ forallb (stays_in pf) l = true.
Proof.
  induction ps as [|pc ps IH]; intros Htame result w.
  - exists []. cbn. now rewrite app_nil_r.
  - rewrite install_projects_cons.
    destruct (process_project_stays platform_name pf remotes default_remote pc result w)
      as (l1 & Hev1 & Hl1); [apply Htame; now left|].
    destruct (process_project E platform_name pf remotes default_remote pc result w)
      as [[[r|r]|e|c] w1]; cbn [snd] in *; eauto.
    destruct (IH (fun pc' Hin => Htame pc' (or_intror Hin)) r w1) as (l & Hev & Hl).
    exists (l1 ++ l). split; [rewrite Hev, Hev1; now rewrite app_assoc|].
    now rewrite forallb_app, Hl1, Hl.
Qed.

Lemma clear_modified_stays pf ms :
  (forall d q, In d ms -> m_path d = Some q -> tame q = true) ->
  forall w,
  exists l,
    events (snd (clear_modified E pf ms w)) = events w ++ l
    /\ forallb (stays_in pf) l = true.
Proof.
  intros Htame w.
  destruct (clear_modified_rmtree pf ms w) as (l & Hev & Hl).
  exists l. split; [assumption|].
  destruct (clear_modified E pf ms w) as [out w'] eqn:H.
  apply clear_modified_spec in H as (_ & _ & l' & Hev' & Hall & _).
  cbn [snd] in Hev. assert (l' = l) by (apply (app_inv_head (events w)); congruence).
  subst l'. apply forallb_forall. intros e He.
  rewrite forallb_forall in Hall. specialize (Hall e He).
  destruct e; try discriminate; try reflexivity.
  destruct (Hl _ He) as (d & q & Hd & Hq & ->).
  unfold stays_in. cbn [places forallb].
  now rewrite resolve_join_tame by eauto.
Qed.

Lemma process_bundled_projects_stays platform_name pf m sm w :
  (forall ps pc, projects m = Some ps -> In pc ps -> tame (project_path pc) = true) ->
  exists l,
    events (snd (process_bundled_projects E platform_name pf m sm w)) = events w ++ l
    /\ forallb (stays_in pf) l = true.
Proof.
  intros Htame. rewrite process_bundled_projects_eq.
  destruct (projects m) as [ps|].
  2:{ exists []. cbn. now rewrite app_nil_r. }
  specialize (Htame ps). cbv zeta. fold (ensure_folder pf w).
  assert (Hens : exists l1, events (ensure_folder pf w) = events w ++ l1
                            /\ forallb (stays_in pf) l1 = true).
  { unfold ensure_folder. destruct (has_dir _ _).
    - exists []. now rewrite app_nil_r.
    - exists [EvMakedirs pf]. split; [reflexivity|].
      unfold stays_in. cbn [forallb places]. now rewrite is_under_refl. }
  destruct Hens as (l1 & Hev1 & Hl1).
  remember (ensure_folder pf w) as w1 eqn:Hw1. clear Hw1.
  assert (Hloop : forall w2 l2,
            events w2 = events w1 ++ l2 -> forallb (stays_in pf) l2 = true ->
            exists l,
              events
                (snd match remotes m with
                     | Some rs =>
                         install_projects E platform_name pf (remotes_dict rs)
                           match defaults_remote m with
                           | Some r => r
                           | None => EmptyString
                           end ps [] w2
                     | None => (Raise (KeyError "remotes"), w2)
                     end) = events w ++ l
              /\ forallb (stays_in pf) l = true).
  { intros w2 l2 Hev2 Hl2. destruct (remotes m) as [rs|]; cbn [snd].
    - destruct (install_projects_stays platform_name pf (remotes_dict rs)
                  match defaults_remote m with
                  | Some r => r
                  | None => EmptyString
                  end ps (fun pc Hin => Htame pc eq_refl Hin) [] w2)
        as (l & Hev & Hl).
      exists (l1 ++ l2 ++ l). split.
      + rewrite Hev, Hev2, Hev1. now rewrite <- !app_assoc.
      + now rewrite !forallb_app, Hl1, Hl2, Hl.
    - exists (l1 ++ l2). split.
      + rewrite Hev2, Hev1. now rewrite <- !app_assoc.
      + now rewrite forallb_app, Hl1, Hl2. }
  assert (Hnone : exists l,
            events
              (snd match remotes m with
                   | Some rs =>
                       install_projects E platform_name pf (remotes_dict rs)
                         match defaults_remote m with
                         | Some r => r
                         | None => EmptyString
                         end ps [] w1
                   | None => (Raise (KeyError "remotes"), w1)
                   end) = events w ++ l
            /\ forallb (stays_in pf) l = true).
  { apply (Hloop w1 []); [now rewrite app_nil_r | reflexivity]. }
  destruct sm as [[|x st]|]; try exact Hnone.
  destruct (clear_modified_stays pf (modified_entries (dict_of name ps) (x :: st)))
    with (w := w1) as (l2 & Hev2 & Hl2).
  { intros d q Hd Hq. apply modified_entries_from in Hd as (pc & Hin & Hp & _).
    specialize (Htame pc eq_refl Hin). unfold project_path in Htame.
    rewrite <- Hp, Hq in Htame. exact Htame. }
  destruct (clear_modified E pf (modified_entries (dict_of name ps) (x :: st)) w1)
    as [o w2].
  cbn [snd] in Hev2.
  destruct o as [[]|e|c]; [now apply (Hloop w2 l2)| |];
    (exists (l1 ++ l2); cbn [snd]; split;
     [rewrite Hev2, Hev1; now rewrite <- !app_assoc
     |now rewrite forallb_app, Hl1, Hl2]).
Qed.

(** X12. When the paths of the projects of the manifest are relative and
    have no [..] component (for a project without a path: its name), a run
    works in the package folder only: every directory it makes or removes,
    the state file it writes, every destination it clones into and every
    working directory it runs a command in lies in the package folder. *)
Theorem run_stays_in_package_folder platform_name secondary_installation
    manifest_path w :
  (forall m ps pc, manifest_path = ManifestDoc m -> projects m = Some ps ->
     In pc ps -> tame (project_path pc) = true) ->
  forallb (stays_in (packages_folder E))
    (new_events w
       (snd (script E platform_name secondary_installation manifest_path w)))
  = true.
Proof.
  intros Htame.
  assert (Hmain : exists l,
            events (snd (main E platform_name secondary_installation manifest_path w))
            = events w ++ l
            /\ forallb (stays_in (packages_folder E)) l = true).
  { rewrite main_eq.
    destruct (match state_json w with Some _ => true | None => false end
              && negb secondary_installation).
    { cbn [snd].
      destruct (say_facts E "The state file is present. Skipping installation." w)
        as (l & Hev & Hl & _).
      exists l. auto using outputs_stay. }
    destruct (which_git E); cbv beta iota delta [negb].
    2:{ eexists [_]. split; reflexivity. }
    destruct manifest_path as [p|p exc|m].
    { eexists [_]. split; reflexivity. }
    { eexists [_; _]. cbn [snd events log]. rewrite <- app_assoc.
      split; reflexivity. }
    destruct (process_bundled_projects_stays platform_name (packages_folder E) m
                (state_json w) w (fun ps pc => Htame m ps pc eq_refl))
      as (l & Hev & Hl).
    destruct (process_bundled_projects E platform_name (packages_folder E) m
                (state_json w) w) as [o w1].
    cbn [snd] in Hev.
    destruct o as [[[|] [|x st]]|e|c]; cbn [snd]; eauto.
    - exists (l ++ [EvSaveState (state_file E) (x :: st)]). split.
      + cbn [save_state snd events]. rewrite Hev. now rewrite <- app_assoc.
      + rewrite forallb_app, Hl. unfold stays_in. cbn [forallb places].
        now rewrite state_file_in_packages_folder.
    - rewrite clean_up_eq. cbv zeta.
      destruct (say_facts E "Installation failed. Cleaning package directory..." w1)
        as (l0 & Hev0 & Hl0 & _).
      remember (say E "Installation failed. Cleaning package directory..." w1) as w0.
      assert (Hpre : events w0 = events w ++ (l ++ l0)
                     /\ forallb (stays_in (packages_folder E)) (l ++ l0) = true).
      { split; [rewrite Hev0, Hev; now rewrite app_assoc|].
        now rewrite forallb_app, Hl, (outputs_stay _ _ Hl0). }
      destruct Hpre as [Hev' Hl'].
      destruct (has_dir _ _); [destruct (rmtree_ok E w0 _)|]; cbn [snd]; eauto.
      + exists ((l ++ l0) ++ [EvRmtree (packages_folder E)]). split.
        * cbn [removed events]. rewrite Hev'. now rewrite <- app_assoc.
        * rewrite forallb_app, Hl'. unfold stays_in. cbn [forallb places].
          now rewrite is_under_refl.
      + eexists ((l ++ l0) ++ [_]). split.
        * cbn [log events]. rewrite Hev'. now rewrite <- app_assoc.
        * rewrite forallb_app, Hl'. reflexivity.
    - rewrite clean_up_eq. cbv zeta.
      destruct (say_facts E "Installation failed. Cleaning package directory..." w1)
        as (l0 & Hev0 & Hl0 & _).
      remember (say E "Installation failed. Cleaning package directory..." w1) as w0.
      assert (Hpre : events w0 = events w ++ (l ++ l0)
                     /\ forallb (stays_in (packages_folder E)) (l ++ l0) = true).
      { split; [rewrite Hev0, Hev; now rewrite app_assoc|].
        now rewrite forallb_app, Hl, (outputs_stay _ _ Hl0). }
      destruct Hpre as [Hev' Hl'].
      destruct (has_dir _ _); [destruct (rmtree_ok E w0 _)|]; cbn [snd]; eauto.
      + exists ((l ++ l0) ++ [EvRmtree (packages_folder E)]). split.
        * cbn [removed events]. rewrite Hev'. now rewrite <- app_assoc.
        * rewrite forallb_app, Hl'. unfold stays_in. cbn [forallb places].
          now rewrite is_under_refl.
      + eexists ((l ++ l0) ++ [_]). split.
        * cbn [log events]. rewrite Hev'. now rewrite <- app_assoc.
        * rewrite forallb_app, Hl'. reflexivity. }
  destruct Hmain as (l & Hev & Hl). rewrite script_eq.
  destruct (main E platform_name secondary_installation manifest_path w)
    as [[[]|e|c] w1]; cbn [snd] in *;
    try (now rewrite (new_events_app _ _ _ Hev)).
  erewrite new_events_app.
  2:{ cbn [events log]. rewrite Hev. rewrite <- !app_assoc. reflexivity. }
  rewrite forallb_app, Hl. reflexivity.
Qed.

(** ** The record of a run *)

(** The shape of the events of a turn that installs. *)
Lemma commands_of_turn (l0 lc lt : list event) p :
  forallb is_output l0 = true -> forallb is_stderr lt = true ->
  commands (l0 ++ EvMakedirs p :: lc ++ lt) = commands lc.
Proof.
  intros H0 Ht.
  change (EvMakedirs p :: lc ++ lt) with ([EvMakedirs p] ++ lc ++ lt).
  rewrite !commands_app, (outputs_no_commands _ H0),
    (outputs_no_commands _ (stderr_outputs _ Ht)).
  cbn. apply app_nil_r.
Qed.

(** Every entry of the record that the loop returns comes from a turn
    that found the package directory or made it. *)
Lemma install_projects_record platform_name pf remotes default_remote ps :
  forall result w b r w',
  install_projects E platform_name pf remotes default_remote ps result w
  = (Ret (b, r), w') ->
  forall n v, In (n, v) r ->
    In (n, v) result
    \/ exists pc, In pc ps /\ name pc = n /\ revision pc = Some v
                  /\ is_project_required pc platform_name = Ret true
                  /\ has_dir (package_dir pf pc) (dirs w') = true.
Proof.
  induction ps as [|pc ps IH]; intros result w b r w' H n v Hin.
  - cbn in H. inversion H; subst. now left.
  - rewrite install_projects_cons in H.
    destruct (process_project E platform_name pf remotes default_remote pc result w)
      as [o w1] eqn:Hturn.
    apply process_project_spec in Hturn as (_ & l1 & _ & Hcases).
    assert (Hturn : forall r1, o = Ret (Continue r1) \/ o = Ret (ReturnFalse r1) ->
              forall n v, In (n, v) r1 ->
                In (n, v) result
                \/ (name pc = n /\ revision pc = Some v
                    /\ is_project_required pc platform_name = Ret true
                    /\ has_dir (package_dir pf pc) (dirs w1) = true)).
    { intros r1 Ho n0 v0 Hin0.
      destruct Hcases as [(Hd & _ & Hout) | Hinst].
      - destruct Hout as [(e & ->) | [(-> & _) | (rev & -> & Hreq & Hdir & Hrev)]];
          destruct Ho as [Ho|Ho]; inversion Ho; subst; auto.
        apply In_dict_set in Hin0 as [Heq|Hin0]; [|now left].
        inversion Heq; subst. right. rewrite Hd. auto.
      - destruct Hinst as (u & r0 & l0 & lc & lt & ok1 & ok2 & Hreq & _ & _ & _ & Hrev
                           & _ & Hd & _ & _ & _ & _ & _ & Hres).
        destruct Hres as [(-> & _) | (-> & _)];
          destruct Ho as [Ho|Ho]; inversion Ho; subst; auto.
        apply In_dict_set in Hin0 as [Heq|Hin0]; [|now left].
        inversion Heq; subst. right. repeat split; auto.
        rewrite Hd, has_dir_app. apply orb_true_iff. left.
        apply has_dir_In, ancestors_self. }
    destruct o as [[r1|r1]|e|c]; try discriminate.
    + pose proof H as Hmono.
      apply install_projects_spec in Hmono as (_ & Hmono & _).
      destruct (IH _ _ _ _ _ H n v Hin) as [Hin1|(pc' & Hin' & Hrest)].
      * destruct (Hturn r1 (or_introl eq_refl) n v Hin1)
          as [?|(Hn & Hv & Hreq & Hdir)]; [now left|].
        right. exists pc. cbn [In]. auto 8.
      * right. exists pc'. cbn [In]. auto.
    + inversion H; subst.
      destruct (Hturn r (or_intror eq_refl) n v Hin)
        as [?|(Hn & Hv & Hreq & Hdir)]; [now left|].
      right. exists pc. cbn [In]. auto 8.
Qed.

(** X13. Every entry of a state file that a run writes is the name of a
    project of the manifest that the filter keeps, with the revision the
    manifest gives it, and the package directory of that project exists
    when the file is written. *)
Theorem state_file_lists_installed platform_name secondary_installation
    manifest_path w f st n v :
  In (EvSaveState f st)
     (new_events w
        (snd (main E platform_name secondary_installation manifest_path w))) ->
  In (n, v) st ->
  exists m ps pc,
    manifest_path = ManifestDoc m /\ projects m = Some ps
    /\ In pc ps /\ name pc = n /\ revision pc = Some v
    /\ is_project_required pc platform_name = Ret true
    /\ has_dir (package_dir (packages_folder E) pc)
         (dirs (snd (main E platform_name secondary_installation manifest_path w)))
       = true.
Proof.
  rewrite main_eq. intros Hsave Hin.
  assert (Hquiet : forall w1 l, events w1 = events w ++ l ->
            forallb (fun e => negb (is_save_state e)) l = true ->
            ~ In (EvSaveState f st) (new_events w w1)).
  { intros w1 l Hev Hl. rewrite (new_events_app _ _ _ Hev).
    now apply not_saved_In. }
  destruct (match state_json w with Some _ => true | None => false end
            && negb secondary_installation).
  { exfalso. cbn [snd] in Hsave.
    destruct (say_facts E "The state file is present. Skipping installation." w)
      as (l & Hev & Hl & _).
    eapply Hquiet; eauto. revert Hl. apply forallb_impl. now intros []. }
  destruct (which_git E); cbv beta iota delta [negb] in Hsave |- *.
  2:{ exfalso. eapply (Hquiet _ [EvStderr _]); [| |exact Hsave]; reflexivity. }
  destruct manifest_path as [p|p exc|m].
  { exfalso. eapply (Hquiet _ [EvStderr _]); [| |exact Hsave]; reflexivity. }
  { exfalso. eapply (Hquiet _ [EvStderr _; EvStderr _]); [| |exact Hsave];
      [|reflexivity].
    cbn [snd events log]. now rewrite <- app_assoc. }
  destruct (process_bundled_projects E platform_name (packages_folder E) m
              (state_json w) w) as [o w1] eqn:Hp.
  pose proof Hp as Hp0.
  apply process_bundled_projects_spec in Hp0 as (_ & l & Hev & Hsv & Hout).
  destruct o as [[[|] r]|e|c]; [| | |contradiction].
  - destruct r as [|x r]; cbn [snd] in *.
    { exfalso. eapply Hquiet; eauto. }
    rewrite (new_events_app w _ (l ++ [EvSaveState (state_file E) (x :: r)])) in Hsave.
    2:{ cbn [snd save_state events]. rewrite Hev. now rewrite <- app_assoc. }
    apply in_app_iff in Hsave as [Hsave|[Hsave|[]]].
    { now apply not_saved_In in Hsave. }
    inversion Hsave; subst f st. clear Hsave.
    apply process_bundled_projects_returned in Hp
      as (ps & rs & w2 & Hps & _ & _ & Hloop).
    destruct (install_projects_record _ _ _ _ _ _ _ _ _ _ Hloop n v Hin)
      as [[]|(pc & Hpc & Hn & Hv & Hreq & Hdir)].
    exists m, ps, pc. cbn [snd save_state dirs]. auto 10.
  - exfalso. rewrite clean_up_eq in Hsave. cbv zeta in Hsave.
    destruct (say_facts E "Installation failed. Cleaning package directory..." w1)
      as (l0 & Hev0 & Hl0 & _).
    remember (say E "Installation failed. Cleaning package directory..." w1) as w0.
    assert (Hl0' : forallb (fun e => negb (is_save_state e)) l0 = true).
    { revert Hl0. apply forallb_impl. now intros []. }
    destruct (has_dir _ _); [destruct (rmtree_ok E w0 _)|]; cbn [snd] in Hsave.
    + eapply (Hquiet _ (l ++ l0 ++ [EvRmtree _])); [| |exact Hsave].
      * cbn [removed events]. rewrite Hev0, Hev. now rewrite <- !app_assoc.
      * now rewrite !forallb_app, Hsv, Hl0'.
    + eapply (Hquiet _ (l ++ l0 ++ [EvStderr _])); [| |exact Hsave].
      * cbn [log events]. rewrite Hev0, Hev. now rewrite <- !app_assoc.
      * now rewrite !forallb_app, Hsv, Hl0'.
    + eapply (Hquiet _ (l ++ l0)); [| |exact Hsave].
      * rewrite Hev0, Hev. now rewrite <- !app_assoc.
      * now rewrite !forallb_app, Hsv, Hl0'.
  - exfalso. eapply Hquiet; eauto.
Qed.

(** The loop leaves the record of a name alone when no project has that
    name. *)
Lemma install_projects_keeps platform_name pf remotes default_remote A qs :
  forall result w b r w',
  (forall pc, In pc qs -> name pc <> A) ->
  install_projects E platform_name pf remotes default_remote qs result w
  = (Ret (b, r), w') ->
  dict_get A r = dict_get A result.
Proof.
  induction qs as [|pc qs IH]; intros result w b r w' Hall H.
  - cbn in H. now inversion H.
  - rewrite install_projects_cons in H.
    destruct (process_project E platform_name pf remotes default_remote pc result w)
      as [o w1] eqn:Hturn.
    apply process_project_spec in Hturn as (_ & l1 & _ & Hcases).
    assert (Hne : name pc <> A) by (apply Hall; now left).
    assert (Hturn : forall r1, o = Ret (Continue r1) \/ o = Ret (ReturnFalse r1) ->
              dict_get A r1 = dict_get A result).
    { intros r1 Ho.
      destruct Hcases as [(_ & _ & [(e & ->) | [(-> & _) | (rev & -> & _)]])
                         | (u & r0 & l0 & lc & lt & ok1 & ok2 & _ & _ & _ & _ & _ & _ & _
                            & _ & _ & _ & _ & _ & [(-> & _) | (-> & _)])];
        destruct Ho as [Ho|Ho]; inversion Ho; subst; auto;
        apply dict_get_set_other; congruence. }
    destruct o as [[r1|r1]|e|c]; try discriminate.
    + rewrite (IH _ _ _ _ _ (fun pc' Hin => Hall pc' (or_intror Hin)) H). auto.
    + inversion H; subst. auto.
Qed.

(** With names that occur once, a loop that ran to its end has recorded
    every required project that is not ignored, at its revision. *)
Lemma install_projects_recorded platform_name pf remotes default_remote ps :
  forall result w r w',
  uniq (map name ps) = true ->
  install_projects E platform_name pf remotes default_remote ps result w
  = (Ret (true, r), w') ->
  forall pc, In pc ps ->
    is_project_required pc platform_name = Ret true ->
    str_in (name pc) IGNORED_PACKAGES = false ->
    dict_get (name pc) r = revision pc /\ revision pc <> None.
Proof.
  induction ps as [|p0 ps IH]; intros result w r w' Hu H pc Hin Hreq Hign;
    [contradiction|].
  cbn [map] in Hu. apply uniq_cons in Hu as [Hfresh Hu].
  rewrite install_projects_cons in H.
  destruct (process_project E platform_name pf remotes default_remote p0 result w)
    as [o w1] eqn:Hturn.
  destruct o as [[r1|r1]|e|c]; try discriminate.
  destruct Hin as [->|Hin]; [|eapply IH; eauto].
  apply process_project_spec in Hturn as (_ & l1 & _ & Hcases).
  assert (Hrec : exists rev, revision pc = Some rev
                             /\ r1 = dict_set (name pc) rev result).
  { destruct Hcases as [(_ & _ & [(e & He) | [(_ & Hwhy) | (rev & He & _ & _ & Hrev)]])
                       | (u & r0 & l0 & lc & lt & ok1 & ok2 & _ & _ & _ & _ & Hrev & _
                          & _ & _ & _ & _ & _ & _ & [(He & _) | (He & _)])];
      try discriminate.
    - destruct Hwhy as [Hno | (_ & _ & Hi)]; congruence.
    - inversion He; subst. eauto.
    - inversion He; subst. eauto. }
  destruct Hrec as (rev & Hrev & ->).
  apply (install_projects_keeps _ _ _ _ (name pc)) in H.
  - rewrite H, dict_get_set_same, Hrev. split; [reflexivity | discriminate].
  - intros pc' Hin' Heq. apply Hfresh. rewrite <- Heq. now apply in_map.
Qed.

(** X14. A run that is not cut short by the state file and ends with
    status 0 leaves the package directory of every project that the filter
    keeps and the ignore list does not name; and when every name occurs
    once in the manifest, the state file at the end of the run lists each
    of these projects with the revision of the manifest. *)
Theorem success_installs_required platform_name secondary_installation m w w' ps pc :
  state_json w = None \/ secondary_installation = true ->
  main E platform_name secondary_installation (ManifestDoc m) w = (Exit 0, w') ->
  projects m = Some ps -> In pc ps ->
  is_project_required pc platform_name = Ret true ->
  str_in (name pc) IGNORED_PACKAGES = false ->
  has_dir (package_dir (packages_folder E) pc) (dirs w') = true
  /\ (unique_names m = true ->
      exists st, state_json w' = Some st
                 /\ dict_get (name pc) st = revision pc
                 /\ revision pc <> None).
Proof.
  intros Hgate H Hps Hin Hreq Hign.
  assert (Hshort : match state_json w with Some _ => true | None => false end
                   && negb secondary_installation = false).
  { destruct Hgate as [-> | ->]; [reflexivity | apply andb_false_r]. }
  rewrite main_eq, Hshort in H.
  destruct (which_git E); cbv beta iota delta [negb] in H; [|discriminate].
  destruct (process_bundled_projects E platform_name (packages_folder E) m
              (state_json w) w) as [o wp] eqn:Hp.
  destruct o as [[[|] st]|e|c]; try discriminate.
  2:{ rewrite clean_up_eq in H. cbv zeta in H.
      repeat match type of H with
             | context [if ?c then _ else _] => destruct c
             end; discriminate. }
  2:{ now apply process_bundled_projects_spec in Hp as (_ & l & _ & _ & Hout). }
  apply process_bundled_projects_returned in Hp
    as (ps' & rs & w2 & Hps' & _ & _ & Hloop).
  assert (ps' = ps) by congruence. subst ps'.
  pose proof Hloop as Hspec.
  apply install_projects_spec in Hspec as (_ & _ & l & _ & _ & [_ Hall] & _).
  destruct (Hall pc Hin Hreq) as [[Hdir|Hi] _]; [|congruence].
  assert (Hdirs : dirs w' = dirs wp).
  { destruct st as [|x st]; inversion H; reflexivity. }
  split; [now rewrite Hdirs|].
  intros Hu. unfold unique_names in Hu. rewrite Hps in Hu.
  destruct (install_projects_recorded _ _ _ _ _ _ _ _ _ Hu Hloop pc Hin Hreq Hign)
    as [Hget Hsome].
  destruct st as [|x st].
  { cbn in Hget. now rewrite <- Hget in Hsome. }
  inversion H; subst w'. exists (x :: st). auto.
Qed.

(** ** The commands of a run *)

(** The commands of [process_bundled_projects] are those of its loop. *)
Lemma process_bundled_projects_commands platform_name pf m sm w :
  commands (new_events w (snd (process_bundled_projects E platform_name pf m sm w))) = []
  \/ exists ps rs w2,
       projects m = Some ps /\ remotes m = Some rs
       /\ drift_phase E pf ps sm (ensure_folder pf w) = (Ret tt, w2)
       /\ commands (new_events w (snd (process_bundled_projects E platform_name pf m sm w)))
          = commands
              (new_events w2
                 (snd (install_projects E platform_name pf (remotes_dict rs)
                         (match defaults_remote m with
                          | Some r => r
                          | None => EmptyString
                          end) ps [] w2))).
Proof.
  rewrite process_bundled_projects_eq.
  destruct (projects m) as [ps|]; [|left; now rewrite new_events_same].
  cbv zeta. fold (ensure_folder pf w). rewrite <- drift_phase_eq.
  destruct (ensure_folder_facts pf w) as (_ & _ & l1 & Hev1 & Hc1).
  destruct (drift_phase E pf ps sm (ensure_folder pf w)) as [o2 w2] eqn:Hd.
  pose proof Hd as Hd'.
  apply drift_phase_spec in Hd' as (l2 & Hev2 & Hc2 & _).
  assert (Hpre : events w2 = events w ++ (l1 ++ l2) /\ commands (l1 ++ l2) = []).
  { split; [rewrite Hev2, Hev1; now rewrite app_assoc|].
    now rewrite commands_app, Hc1, Hc2. }
  destruct Hpre as [Hev12 Hc12].
  destruct o2 as [[]|e|c]; cbn [snd];
    try (left; now rewrite (new_events_app _ _ _ Hev12)).
  destruct (remotes m) as [rs|]; cbn [snd];
    [|left; now rewrite (new_events_app _ _ _ Hev12)].
  right. exists ps, rs, w2.
  split; [reflexivity|]. split; [reflexivity|]. split; [exact Hd|].
  match goal with
  | |- context [install_projects E ?a ?b ?c ?d ?e ?f ?g] =>
      destruct (install_projects E a b c d e f g) as [o w3] eqn:Hl
  end.
  apply install_projects_spec in Hl as (_ & _ & l & Hev & _).
  cbn [snd]. rewrite (new_events_app _ _ _ Hev).
  rewrite (new_events_app w w3 ((l1 ++ l2) ++ l)).
  - now rewrite commands_app, Hc12.
  - rewrite Hev, Hev12. now rewrite <- app_assoc.
Qed.

(** The commands of a run are those of [process_bundled_projects]. *)
Lemma script_commands platform_name secondary_installation manifest_path w :
  commands
    (new_events w (snd (script E platform_name secondary_installation manifest_path w)))
  = []
  \/ exists m,
       manifest_path = ManifestDoc m
       /\ commands
            (new_events w
               (snd (script E platform_name secondary_installation manifest_path w)))
          = commands
              (new_events w
                 (snd (process_bundled_projects E platform_name (packages_folder E)
                         m (state_json w) w))).
Proof.
  assert (Hmain :
    exists l, events (snd (main E platform_name secondary_installation manifest_path w))
              = events w ++ l
      /\ (commands l = []
          \/ exists m,
               manifest_path = ManifestDoc m
               /\ commands l
                  = commands
                      (new_events w
                         (snd (process_bundled_projects E platform_name
                                 (packages_folder E) m (state_json w) w))))).
  { rewrite main_eq.
    destruct (match state_json w with Some _ => true | None => false end
              && negb secondary_installation).
    { cbn [snd].
      destruct (say_facts E "The state file is present. Skipping installation." w)
        as (l & Hev & Hl & _).
      exists l. auto using outputs_no_commands. }
    destruct (which_git E); cbv beta iota delta [negb].
    2:{ eexists [_]. split; [reflexivity | now left]. }
    destruct manifest_path as [p|p exc|m].
    { eexists [_]. split; [reflexivity | now left]. }
    { eexists [_; _]. cbn [snd events log]. rewrite <- app_assoc.
      split; [reflexivity | now left]. }
    match goal with
    | |- exists l, events (snd ?r) = _ /\ _ =>
        enough (G : exists l0, events (snd r) = events w ++ l0
                      /\ commands l0
                         = commands
                             (new_events w
                                (snd (process_bundled_projects E platform_name
                                        (packages_folder E) m (state_json w) w))))
    end.
    { destruct G as (l0 & H1 & H2). exists l0. split; [exact H1|].
      right. exists m. auto. }
    destruct (process_bundled_projects E platform_name (packages_folder E) m
                (state_json w) w) as [o w1] eqn:Hp.
    pose proof Hp as Hp0.
    apply process_bundled_projects_spec in Hp0 as (_ & l & Hev & _).
    cbn [snd]. rewrite (new_events_app _ _ _ Hev).
    assert (Hdone : forall w' l', events w' = events w1 ++ l' -> commands l' = [] ->
              exists l0, events w' = events w ++ l0 /\ commands l0 = commands l).
    { intros w' l' Hev' Hc'. exists (l ++ l'). split.
      - rewrite Hev', Hev. now rewrite app_assoc.
      - now rewrite commands_app, Hc', app_nil_r. }
    destruct o as [[[|] [|x st]]|e|c]; cbn [snd].
    - apply (Hdone w1 []); [now rewrite app_nil_r | reflexivity].
    - apply (Hdone _ [EvSaveState (state_file E) (x :: st)]); reflexivity.
    - rewrite clean_up_eq. cbv zeta.
      destruct (say_facts E "Installation failed. Cleaning package directory..." w1)
        as (l0 & Hev0 & Hl0 & _).
      remember (say E "Installation failed. Cleaning package directory..." w1) as w0.
      pose proof (outputs_no_commands _ Hl0) as Hc0.
      destruct (has_dir _ _); [destruct (rmtree_ok E w0 _)|]; cbn [snd].
      + apply (Hdone _ (l0 ++ [EvRmtree (packages_folder E)])).
        * cbn [removed events]. rewrite Hev0. now rewrite <- app_assoc.
        * now rewrite commands_app, Hc0.
      + eapply (Hdone _ (l0 ++ [EvStderr _])).
        * cbn [log events]. rewrite Hev0. now rewrite <- app_assoc.
        * now rewrite commands_app, Hc0.
      + now apply (Hdone _ l0).
    - rewrite clean_up_eq. cbv zeta.
      destruct (say_facts E "Installation failed. Cleaning package directory..." w1)
        as (l0 & Hev0 & Hl0 & _).
      remember (say E "Installation failed. Cleaning package directory..." w1) as w0.
      pose proof (outputs_no_commands _ Hl0) as Hc0.
      destruct (has_dir _ _); [destruct (rmtree_ok E w0 _)|]; cbn [snd].
      + apply (Hdone _ (l0 ++ [EvRmtree (packages_folder E)])).
        * cbn [removed events]. rewrite Hev0. now rewrite <- app_assoc.
        * now rewrite commands_app, Hc0.
      + eapply (Hdone _ (l0 ++ [EvStderr _])).
        * cbn [log events]. rewrite Hev0. now rewrite <- app_assoc.
        * now rewrite commands_app, Hc0.
      + now apply (Hdone _ l0).
    - apply (Hdone w1 []); [now rewrite app_nil_r | reflexivity].
    - apply (Hdone w1 []); [now rewrite app_nil_r | reflexivity]. }
  destruct Hmain as (l & Hev & Hl). rewrite script_eq.
  destruct (main E platform_name secondary_installation manifest_path w)
    as [[[]|e|c] w1]; cbn [snd] in *;
    try (rewrite (new_events_app _ _ _ Hev); exact Hl).
  erewrite new_events_app.
  2:{ cbn [events log]. rewrite Hev. rewrite <- !app_assoc. reflexivity. }
  rewrite commands_app. cbn [commands flat_map app]. rewrite app_nil_r. exact Hl.
Qed.

(** Every command of the loop is the clone, or the reset after the clone,
    of a required project that is not ignored. *)
Lemma install_projects_commands platform_name pf remotes default_remote ps :
  forall result w args cwd ok,
  In (args, cwd, ok)
     (commands
        (new_events w
           (snd (install_projects E platform_name pf remotes default_remote ps
                   result w)))) ->
  exists pc r u,
    In pc ps
    /\ is_project_required pc platform_name = Ret true
    /\ str_in (name pc) IGNORED_PACKAGES = false
    /\ revision pc = Some r
    /\ prepare_package_url remotes default_remote pc = Ret u
    /\ ((cwd = None
         /\ args = ["git"; "clone"]
                   ++ (if is_commit_hash r then [] else ["--branch"; r; "--depth"; "1"])
                   ++ (match submodules pc with
                       | Some true => ["--recursive"]
                       | _ => []
                       end)
                   ++ [u; to_unix_path (package_path pf pc)])
        \/ (is_commit_hash r = true
            /\ cwd = Some (to_unix_path (package_path pf pc))
            /\ args = ["git"; "reset"; "--hard"; r])).
Proof.
  induction ps as [|pc ps IH]; intros result w args cwd ok.
  - cbn [install_projects ret snd]. now rewrite new_events_same.
  - rewrite install_projects_cons.
    destruct (process_project E platform_name pf remotes default_remote pc result w)
      as [o w1] eqn:Hturn.
    apply process_project_spec in Hturn as (_ & l1 & Hev1 & Hcases).
    assert (Hhere : In (args, cwd, ok) (commands l1) ->
              exists pc0 r u,
                In pc0 (pc :: ps)
                /\ is_project_required pc0 platform_name = Ret true
                /\ str_in (name pc0) IGNORED_PACKAGES = false
                /\ revision pc0 = Some r
                /\ prepare_package_url remotes default_remote pc0 = Ret u
                /\ ((cwd = None
                     /\ args = ["git"; "clone"]
                               ++ (if is_commit_hash r then []
                                   else ["--branch"; r; "--depth"; "1"])
                               ++ (match submodules pc0 with
                                   | Some true => ["--recursive"]
                                   | _ => []
                                   end)
                               ++ [u; to_unix_path (package_path pf pc0)])
                    \/ (is_commit_hash r = true
                        /\ cwd = Some (to_unix_path (package_path pf pc0))
                        /\ args = ["git"; "reset"; "--hard"; r]))).
    { destruct Hcases as [(_ & Hl & _) | Hinst].
      { now rewrite (outputs_no_commands _ Hl). }
      destruct Hinst as (u & r & l0 & lc & lt & ok1 & ok2 & Hreq & _ & Hign & Hu & Hrev
                         & _ & _ & -> & Hl0 & Hlt & _ & Hcmd & _).
      rewrite (commands_of_turn _ _ _ _ Hl0 Hlt), Hcmd.
      intros [Hc|Hc]; exists pc, r, u; cbn [In];
        repeat (split; [solve [auto]|]).
      - left. inversion Hc; subst. auto.
      - right. destruct (is_commit_hash r); [|contradiction].
        destruct ok1; [|contradiction]. destruct Hc as [Hc|[]].
        inversion Hc; subst. auto. }
    assert (Hstop : In (args, cwd, ok) (commands (new_events w w1)) ->
              exists pc0 r u,
                In pc0 (pc :: ps)
                /\ is_project_required pc0 platform_name = Ret true
                /\ str_in (name pc0) IGNORED_PACKAGES = false
                /\ revision pc0 = Some r
                /\ prepare_package_url remotes default_remote pc0 = Ret u
                /\ ((cwd = None
                     /\ args = ["git"; "clone"]
                               ++ (if is_commit_hash r then []
                                   else ["--branch"; r; "--depth"; "1"])
                               ++ (match submodules pc0 with
                                   | Some true => ["--recursive"]
                                   | _ => []
                                   end)
                               ++ [u; to_unix_path (package_path pf pc0)])
                    \/ (is_commit_hash r = true
                        /\ cwd = Some (to_unix_path (package_path pf pc0))
                        /\ args = ["git"; "reset"; "--hard"; r]))).
    { now rewrite (new_events_app _ _ _ Hev1). }
    destruct o as [[r1|r1]|e|c]; cbn [snd]; try exact Hstop.
    destruct (install_projects E platform_name pf remotes default_remote ps r1 w1)
      as [o' w'] eqn:Hrest.
    pose proof (IH r1 w1 args cwd ok) as IH'. rewrite Hrest in IH'.
    apply install_projects_spec in Hrest as (_ & _ & l & Hev & _).
    cbn [snd] in *. rewrite (new_events_app _ _ _ Hev) in IH'.
    rewrite (new_events_app w w' (l1 ++ l)).
    2:{ rewrite Hev, Hev1. now rewrite app_assoc. }
    rewrite commands_app. intros Hin. apply in_app_iff in Hin as [Hin|Hin]; [auto|].
    destruct (IH' Hin) as (pc0 & r & u & Hpc0 & Hrest').
    exists pc0, r, u. cbn [In]. auto.
Qed.

(** X15. A run executes nothing but fetch commands: every command it runs
    is the [git clone] of a project of the manifest that the filter keeps
    and the ignore list does not name, with the URL the resolver gives and
    the package directory of the project as destination, or the
    [git reset --hard] to the revision of such a project, run in its package
    directory when that revision has the shape of a commit hash. *)
Theorem run_commands_are_fetches platform_name secondary_installation manifest_path
    w args cwd ok :
  In (args, cwd, ok)
     (commands
        (new_events w
           (snd (script E platform_name secondary_installation manifest_path w)))) ->
  exists m ps rs pc r u,
    manifest_path = ManifestDoc m /\ projects m = Some ps /\ remotes m = Some rs
    /\ In pc ps
    /\ is_project_required pc platform_name = Ret true
    /\ str_in (name pc) IGNORED_PACKAGES = false
    /\ revision pc = Some r
    /\ prepare_package_url (remotes_dict rs)
         (match defaults_remote m with Some d => d | None => EmptyString end) pc
       = Ret u
    /\ ((cwd = None
         /\ args = ["git"; "clone"]
                   ++ (if is_commit_hash r then [] else ["--branch"; r; "--depth"; "1"])
                   ++ (match submodules pc with
                       | Some true => ["--recursive"]
                       | _ => []
                       end)
                   ++ [u; to_unix_path (package_path (packages_folder E) pc)])
        \/ (is_commit_hash r = true
            /\ cwd = Some (to_unix_path (package_path (packages_folder E) pc))
            /\ args = ["git"; "reset"; "--hard"; r])).
Proof.
  destruct (script_commands platform_name secondary_installation manifest_path w)
    as [-> | (m & -> & ->)]; [contradiction|].
  destruct (process_bundled_projects_commands platform_name (packages_folder E) m
              (state_json w) w) as [-> | (ps & rs & w2 & Hps & Hrs & _ & ->)];
    [contradiction|].
  intros Hin. apply install_projects_commands in Hin
    as (pc & r & u & Hpc & Hrest).
  exists m, ps, rs, pc, r, u. auto.
Qed.

(** The loop does not clone into a directory that is there. *)
Lemma install_projects_existing platform_name pf remotes default_remote dst ps :
  forall result w,
  has_dir (resolve dst) (dirs w) = true ->
  clones_into dst
    (new_events w
       (snd (install_projects E platform_name pf remotes default_remote ps result w)))
  = 0.
Proof.
  induction ps as [|pc ps IH]; intros result w Hdst.
  - cbn [install_projects ret snd]. now rewrite new_events_same.
  - rewrite install_projects_cons.
    destruct (process_project E platform_name pf remotes default_remote pc result w)
      as [o w1] eqn:Hturn.
    apply process_project_spec in Hturn as (_ & l1 & Hev1 & Hcases).
    assert (Hhere : clones_into dst l1 = 0 /\ has_dir (resolve dst) (dirs w1) = true).
    { destruct Hcases as [(Hd & Hl & _) | Hinst].
      { split; [|congruence].
        now apply clones_into_no_commands, outputs_no_commands. }
      destruct Hinst as (u & r & l0 & lc & lt & ok1 & ok2 & _ & Hdir & _ & _ & _
                         & _ & Hd & -> & Hl0 & Hlt & _ & Hcmd & _).
      split.
      - unfold clones_into. rewrite (commands_of_turn _ _ _ _ Hl0 Hlt).
        fold (clones_into dst lc).
        rewrite (clones_into_clone dst lc _ _ _ _ _ _ Hcmd), to_unix_path_posix.
        destruct (String.eqb_spec (package_path pf pc) dst) as [Heq|]; [|reflexivity].
        unfold package_dir in Hdir. rewrite Heq in Hdir. congruence.
      - rewrite Hd, has_dir_app, Hdst. apply orb_true_r. }
    destruct Hhere as [Hc1 Hd1].
    destruct o as [[r1|r1]|e|c]; cbn [snd];
      try (now rewrite (new_events_app _ _ _ Hev1)).
    specialize (IH r1 w1 Hd1).
    destruct (install_projects E platform_name pf remotes default_remote ps r1 w1)
      as [o' w'] eqn:Hrest.
    apply install_projects_spec in Hrest as (_ & _ & l & Hev & _).
    cbn [snd] in *. rewrite (new_events_app _ _ _ Hev) in IH.
    rewrite (new_events_app w w' (l1 ++ l)).
    2:{ rewrite Hev, Hev1. now rewrite app_assoc. }
    now rewrite clones_into_app, Hc1, IH.
Qed.

(** The loop clones at most once into a directory. *)
Lemma install_projects_clones_once platform_name pf remotes default_remote dst ps :
  forall result w,
  clones_into dst
    (new_events w
       (snd (install_projects E platform_name pf remotes default_remote ps result w)))
  <= 1.
Proof.
  induction ps as [|pc ps IH]; intros result w.
  - cbn [install_projects ret snd]. rewrite new_events_same. cbn. lia.
  - rewrite install_projects_cons.
    destruct (process_project E platform_name pf remotes default_remote pc result w)
      as [o w1] eqn:Hturn.
    apply process_project_spec in Hturn as (_ & l1 & Hev1 & Hcases).
    assert (Hhere : clones_into dst l1 = 0
                    \/ (clones_into dst l1 = 1
                        /\ has_dir (resolve dst) (dirs w1) = true)).
    { destruct Hcases as [(Hd & Hl & _) | Hinst].
      { left. now apply clones_into_no_commands, outputs_no_commands. }
      destruct Hinst as (u & r & l0 & lc & lt & ok1 & ok2 & _ & Hdir & _ & _ & _
                         & _ & Hd & -> & Hl0 & Hlt & _ & Hcmd & _).
      unfold clones_into. rewrite (commands_of_turn _ _ _ _ Hl0 Hlt).
      fold (clones_into dst lc).
      rewrite (clones_into_clone dst lc _ _ _ _ _ _ Hcmd), to_unix_path_posix.
      destruct (String.eqb_spec (package_path pf pc) dst) as [Heq|]; [|now left].
      right. split; [reflexivity|]. rewrite Hd, has_dir_app. apply orb_true_iff.
      left. rewrite <- Heq. apply has_dir_In, ancestors_self. }
    assert (Hstop : clones_into dst (new_events w w1) <= 1).
    { rewrite (new_events_app _ _ _ Hev1). destruct Hhere as [-> | [-> _]]; lia. }
    destruct o as [[r1|r1]|e|c]; cbn [snd]; try exact Hstop.
    pose proof (IH r1 w1) as IH1.
    pose proof (install_projects_existing platform_name pf remotes default_remote
                  dst ps r1 w1) as Hex.
    destruct (install_projects E platform_name pf remotes default_remote ps r1 w1)
      as [o' w'] eqn:Hrest.
    apply install_projects_spec in Hrest as (_ & _ & l & Hev & _).
    cbn [snd] in *. rewrite (new_events_app _ _ _ Hev) in IH1, Hex.
    rewrite (new_events_app w w' (l1 ++ l)).
    2:{ rewrite Hev, Hev1. now rewrite app_assoc. }
    rewrite clones_into_app.
    destruct Hhere as [-> | [-> Hd1]]; [lia|]. rewrite (Hex Hd1). lia.
Qed.

(** X16. In one run no destination is cloned into twice; and a run that
    finds no state file clones into no directory that is already there. *)
Theorem no_destination_cloned_twice platform_name secondary_installation
    manifest_path w dst :
  clones_into dst
    (new_events w (snd (script E platform_name secondary_installation manifest_path w)))
  <= 1
  /\ (state_json w = None -> has_dir (resolve dst) (dirs w) = true ->
      clones_into dst
        (new_events w
           (snd (script E platform_name secondary_installation manifest_path w)))
      = 0).
Proof.
  unfold clones_into.
  destruct (script_commands platform_name secondary_installation manifest_path w)
    as [-> | (m & -> & ->)]; [cbn; split; [lia | reflexivity]|].
  destruct (process_bundled_projects_commands platform_name (packages_folder E) m
              (state_json w) w) as [-> | (ps & rs & w2 & Hps & Hrs & Hdrift & ->)];
    [cbn; split; [lia | reflexivity]|].
  split.
  - apply install_projects_clones_once.
  - intros Hs Hdst. apply install_projects_existing.
    rewrite Hs, drift_phase_eq in Hdrift. inversion Hdrift; subst w2.
    destruct (ensure_folder_facts (packages_folder E) w) as (_ & Hg & _).
    eapply grown_has_dir; eauto.
Qed.

(** X17. When the default remote of the manifest is not in the registry
    (the manifest names none, or one that the registry lacks), a run
    fetches nothing for the projects without a [url] key, whether or not
    they name a remote of their own: with no [url] key in the manifest the
    run executes no command at all. *)
Theorem no_default_remote_no_fetch platform_name secondary_installation m w :
  (forall rs, remotes m = Some rs ->
     dict_get (match defaults_remote m with Some d => d | None => EmptyString end)
       (remotes_dict rs) = None) ->
  (forall ps pc, projects m = Some ps -> In pc ps -> url pc = None) ->
  commands
    (new_events w
       (snd (script E platform_name secondary_installation (ManifestDoc m) w)))
  = [].
Proof.
  intros Hdef Hurl.
  destruct (script_commands platform_name secondary_installation (ManifestDoc m) w)
    as [-> | (m' & Hm & ->)]; [reflexivity|].
  injection Hm as <-.
  destruct (process_bundled_projects_commands platform_name (packages_folder E) m
              (state_json w) w) as [-> | (ps & rs & w2 & Hps & Hrs & _ & ->)];
    [reflexivity|].
  match goal with |- ?l = [] => destruct l as [|[[args cwd] ok] l'] eqn:Hl end;
    [reflexivity | exfalso].
  assert (Hin : In (args, cwd, ok) ((args, cwd, ok) :: l')) by now left.
  rewrite <- Hl in Hin.
  apply install_projects_commands in Hin as (pc & r & u & Hpc & _ & _ & _ & Hu & _).
  unfold prepare_package_url in Hu.
  rewrite (Hurl ps pc Hps Hpc), (Hdef rs Hrs) in Hu. discriminate.
Qed.

(** ** Before the manifest is read *)

(** X18. A run that is not cut short by the state file and finds no git
    client, or no manifest it can read, ends with status 1 having written
    to the standard error stream and nothing else: no directory is made or
    removed, the state file is left alone, no command is run. The git
    client is looked for first: without one the message is the one about
    git, whatever the manifest. *)
Theorem preflight_failure platform_name secondary_installation manifest_path w :
  state_json w = None \/ secondary_installation = true ->
  which_git E = false \/ (forall m, manifest_path <> ManifestDoc m) ->
  let r := script E platform_name secondary_installation manifest_path w in
  fst r = Exit 1
  /\ dirs (snd r) = dirs w /\ state_json (snd r) = state_json w
  /\ new_events w (snd r) <> []
  /\ forallb is_stderr (new_events w (snd r)) = true
  /\ (which_git E = false ->
      new_events w (snd r)
      = [EvStderr ("Error: A Git client is not installed in your system! "
                   ++ "Install a Git client from https://git-scm.com/downloads and try again."
                   ++ nl)]).
Proof.
  intros Hgate Hpre. cbv zeta.
  assert (Hshort : match state_json w with Some _ => true | None => false end
                   && negb secondary_installation = false).
  { destruct Hgate as [-> | ->]; [reflexivity | apply andb_false_r]. }
  rewrite script_eq, main_eq, Hshort.
  destruct (which_git E) eqn:Hgit; cbv beta iota delta [negb].
  2:{ cbn [fst snd dirs state_json log].
      erewrite new_events_app by (cbn [events log]; reflexivity).
      repeat split; try reflexivity; discriminate. }
  destruct Hpre as [Hno | Hno]; [discriminate|].
  destruct manifest_path as [p|p exc|m]; [| |now destruct (Hno m)].
  - cbn [fst snd dirs state_json log].
    erewrite new_events_app by (cbn [events log]; reflexivity).
    repeat split; try reflexivity; discriminate.
  - cbn [fst snd dirs state_json log].
    erewrite new_events_app
      by (cbn [events log]; rewrite <- app_assoc; reflexivity).
    repeat split; try reflexivity; discriminate.
Qed.

(** ** Exit status and error messages *)

Lemma say_no_stderr (s : string) (w : world) :
  exists l, events (say E s w) = events w ++ l
            /\ forallb (fun e => negb (is_stderr e)) l = true.
Proof.
  unfold say. destruct (VERBOSE E).
  - now exists [EvPrint s].
  - exists []. now rewrite app_nil_r.
Qed.

Lemma existsb_stderr_app (a b : list event) :
  existsb is_stderr (a ++ b) = existsb is_stderr a || existsb is_stderr b.
Proof. apply existsb_app. Qed.

Lemma no_stderr_existsb (l : list event) :
  forallb (fun e => negb (is_stderr e)) l = true <-> existsb is_stderr l = false.
Proof.
  induction l as [|e l IH]; cbn [forallb existsb]; [tauto|].
  rewrite andb_true_iff, orb_false_iff, negb_true_iff, IH. tauto.
Qed.

(** A clone that succeeded wrote nothing to the standard error stream. *)
Lemma clone_repository_no_stderr dst_dir remote_url revision sub w w' :
  clone_repository E dst_dir remote_url revision sub w = (Ret true, w') ->
  exists l, events w' = events w ++ l
            /\ forallb (fun e => negb (is_stderr e)) l = true.
Proof.
  unfold clone_repository, run_cmd.
  cbv beta iota zeta delta [bind ret when print emit stderr_write].
  intros H.
  destruct (is_commit_hash revision), (truthy revision), sub, (VERBOSE E);
    cbv beta iota zeta delta [negb app] in H;
    repeat match type of H with
           | context [check_call E ?w0 ?a ?c] =>
               destruct (check_call E w0 a c);
               cbv beta iota zeta delta [negb] in H
           end;
    inversion H; subst; clear H; cbn [events log];
    repeat rewrite <- app_assoc; eexists; split; reflexivity.
Qed.

Lemma install_from_remote_no_stderr pc dst_dir remotes default_remote w w' :
  install_from_remote E pc dst_dir remotes default_remote w = (Ret true, w') ->
  exists l, events w' = events w ++ l
            /\ forallb (fun e => negb (is_stderr e)) l = true.
Proof.
  unfold install_from_remote. intros H.
  destruct (prepare_package_url remotes default_remote pc) as [u|e|c];
    cbv beta iota delta [bind lift] in H; try discriminate.
  rewrite when_verbose in H.
  destruct (say_no_stderr ("Cloning package to `" ++ dst_dir ++ "`") w)
    as (l0 & Hev0 & Hl0).
  remember (say E ("Cloning package to `" ++ dst_dir ++ "`") w) as w0 eqn:Hw0.
  clear Hw0.
  destruct (revision pc) as [r|]; [|discriminate].
  destruct (truthy r); [|discriminate].
  cbv beta iota delta [assert ret os_makedirs getitem] in H.
  destruct (has_dir (resolve dst_dir) (dirs w0)); [discriminate|].
  apply clone_repository_no_stderr in H as (l & Hev & Hl).
  cbn [events made] in Hev.
  exists (l0 ++ EvMakedirs dst_dir :: l). split.
  - rewrite Hev, Hev0. now rewrite <- !app_assoc.
  - rewrite forallb_app, Hl0. cbn [forallb is_stderr negb andb]. exact Hl.
Qed.

(** A turn that goes on wrote nothing to the standard error stream; a turn
    that returns [False] ends with a message on it. *)
Lemma process_project_stderr platform_name pf remotes default_remote pc result w out w' :
  process_project E platform_name pf remotes default_remote pc result w = (out, w') ->
  exists l, events w' = events w ++ l
    /\ match out with
       | Ret (Continue _) => forallb (fun e => negb (is_stderr e)) l = true
       | Ret (ReturnFalse _) => existsb is_stderr l = true
       | _ => True
       end.
Proof.
  unfold process_project. intros H.
  cbv beta iota zeta delta [bind lift os_path_isdir] in H.
  destruct (is_project_required pc platform_name) as [[|]|e|c];
    cbv beta iota delta [negb ret] in H.
  2:{ inversion H; subst. exists []. now rewrite app_nil_r. }
  2:{ inversion H; subst. exists []. now rewrite app_nil_r. }
  2:{ inversion H; subst. exists []. now rewrite app_nil_r. }
  destruct (has_dir _ (dirs w)).
  { rewrite when_verbose in H.
    match type of H with
    | context [say E ?s w] => destruct (say_no_stderr s w) as (l & Hev & Hl)
    end.
    exists l. split; [|destruct (revision pc); inversion H; subst; auto].
    destruct (revision pc); inversion H; subst; assumption. }
  destruct (str_in (name pc) IGNORED_PACKAGES).
  { rewrite when_verbose in H.
    match type of H with
    | context [say E ?s w] => destruct (say_no_stderr s w) as (l & Hev & Hl)
    end.
    inversion H; subst. exists l. auto. }
  cbv beta iota delta [print emit] in H.
  match type of H with context [log ?e w] => set (ev := e) in * end.
  match type of H with
  | context [install_from_remote E ?a ?b ?c ?d ?w0] =>
      destruct (install_from_remote E a b c d w0) as [o w1] eqn:Hinst
  end.
  pose proof Hinst as Hspec.
  apply install_from_remote_spec in Hspec as (_ & l & Hev & _).
  cbn [events log] in Hev.
  destruct o as [[|]|e|c]; cbv beta iota delta [negb stderr_write emit ret] in H.
  - apply install_from_remote_no_stderr in Hinst as (l' & Hev' & Hl').
    cbn [events log] in Hev'.
    destruct (revision pc); cbv beta iota delta [getitem] in H; inversion H; subst.
    + exists (ev :: l'). split; [rewrite Hev'; now rewrite <- app_assoc|].
      cbn [forallb]. subst ev. exact Hl'.
    + exists (ev :: l'). split; [rewrite Hev'; now rewrite <- app_assoc | exact I].
  - inversion H; subst.
    match goal with |- context [log ?e w1] => set (ev' := e) end.
    exists ((ev :: l) ++ [ev']). split.
    + cbn [events log]. rewrite Hev. cbn [app]. now rewrite <- !app_assoc.
    + rewrite existsb_stderr_app. subst ev'. cbn. apply orb_true_r.
  - inversion H; subst. exists (ev :: l).
    split; [rewrite Hev; now rewrite <- app_assoc | exact I].
  - inversion H; subst. exists (ev :: l).
    split; [rewrite Hev; now rewrite <- app_assoc | exact I].
Qed.

Lemma install_projects_stderr platform_name pf remotes default_remote ps :
  forall result w out w',
  install_projects E platform_name pf remotes default_remote ps result w = (out, w') ->
  exists l, events w' = events w ++ l
    /\ match out with
       | Ret (true, _) => forallb (fun e => negb (is_stderr e)) l = true
       | Ret (false, _) => existsb is_stderr l = true
       | _ => True
       end.
Proof.
  induction ps as [|pc ps IH]; intros result w out w' H.
  - cbn in H. inversion H; subst. exists []. now rewrite app_nil_r.
  - rewrite install_projects_cons in H.
    destruct (process_project E platform_name pf remotes default_remote pc result w)
      as [o w1] eqn:Hturn.
    apply process_project_stderr in Hturn as (l1 & Hev1 & Hl1).
    destruct o as [[r1|r1]|e|c]; try (inversion H; subst; eauto).
    apply IH in H as (l & Hev & Hl). exists (l1 ++ l).
    split; [rewrite Hev, Hev1; now rewrite app_assoc|].
    destruct out as [[[|] r]|e|c]; auto.
    + now rewrite forallb_app, Hl1, Hl.
    + rewrite existsb_stderr_app, Hl. apply orb_true_r.
Qed.

Lemma clear_modified_no_stderr pf ms :
  forall w,
  exists l, events (snd (clear_modified E pf ms w)) = events w ++ l
            /\ forallb (fun e => negb (is_stderr e)) l = true.
Proof.
  induction ms as [|d ms IH]; intros w.
  - exists []. cbn. now rewrite app_nil_r.
  - cbn [clear_modified]. cbv beta iota delta [bind print emit].
    match goal with |- context [log ?e w] => set (ev := e) end.
    assert (H1 : exists l1,
              events (snd (clear_deprecated_package E (m_path d) pf (log ev w)))
              = events w ++ ev :: l1
              /\ forallb (fun e => negb (is_stderr e)) l1 = true).
    { unfold clear_deprecated_package. destruct (m_path d) as [q|].
      2:{ exists []. split; reflexivity. }
      cbv beta iota zeta delta [bind os_path_isdir shutil_rmtree print emit].
      destruct (has_dir _ _).
      - destruct (rmtree_ok E _ _); cbn [snd].
        + eexists [_]. cbn [events removed log]. rewrite <- app_assoc.
          split; reflexivity.
        + exists []. split; reflexivity.
      - eexists [_]. cbn [snd events log]. rewrite <- app_assoc.
        split; reflexivity. }
    destruct H1 as (l1 & Hev1 & Hl1).
    destruct (clear_deprecated_package E (m_path d) pf (log ev w)) as [o w1].
    cbn [snd] in Hev1.
    destruct o as [[]|e|c]; cbn [snd]; try (exists (ev :: l1); now split).
    destruct (IH w1) as (l & Hev & Hl). exists ((ev :: l1) ++ l). split.
    + rewrite Hev, Hev1. now rewrite <- app_assoc.
    + rewrite forallb_app, Hl. cbn [forallb]. subst ev. cbn. now rewrite Hl1.
Qed.

Lemma process_bundled_projects_stderr platform_name pf m sm w b r w' :
  process_bundled_projects E platform_name pf m sm w = (Ret (b, r), w') ->
  exists l, events w' = events w ++ l
    /\ if b then forallb (fun e => negb (is_stderr e)) l = true
       else existsb is_stderr l = true.
Proof.
  intros H.
  apply process_bundled_projects_returned in H as (ps & rs & w2 & _ & _ & Hd & Hloop).
  assert (H1 : exists l1, events (ensure_folder pf w) = events w ++ l1
                          /\ forallb (fun e => negb (is_stderr e)) l1 = true).
  { unfold ensure_folder. destruct (has_dir _ _).
    - exists []. now rewrite app_nil_r.
    - now exists [EvMakedirs pf]. }
  destruct H1 as (l1 & Hev1 & Hl1).
  assert (H2 : exists l2, events w2 = events (ensure_folder pf w) ++ l2
                          /\ forallb (fun e => negb (is_stderr e)) l2 = true).
  { rewrite drift_phase_eq in Hd. destruct sm as [[|x st]|];
      try (inversion Hd; subst; exists []; now rewrite app_nil_r).
    destruct (clear_modified_no_stderr pf
                (modified_entries (dict_of name ps) (x :: st)) (ensure_folder pf w))
      as (l2 & Hev2 & Hl2).
    rewrite Hd in Hev2. eauto. }
  destruct H2 as (l2 & Hev2 & Hl2).
  apply install_projects_stderr in Hloop as (l & Hev & Hl).
  exists (l1 ++ l2 ++ l). split.
  { rewrite Hev, Hev2, Hev1. now rewrite <- !app_assoc. }
  destruct b.
  - now rewrite !forallb_app, Hl1, Hl2, Hl.
  - rewrite !existsb_stderr_app, Hl. now rewrite !orb_true_r.
Qed.

(** X19. Every run ends with status 0 or 1 (never with an exception that
    was not caught, never without a status); it ends with status 1 exactly
    when it wrote to the standard error stream; and in a run that ends with
    status 0 no command failed. *)
Theorem exit_status_and_messages platform_name secondary_installation manifest_path w :
  let r := script E platform_name secondary_installation manifest_path w in
  (fst r = Exit 0 \/ fst r = Exit 1)
  /\ (fst r = Exit 1 <-> existsb is_stderr (new_events w (snd r)) = true)
  /\ (fst r = Exit 0 -> no_failed_run (new_events w (snd r)) = true).
Proof.
  cbv zeta.
  assert (Hmain :
    exists l, events (snd (main E platform_name secondary_installation manifest_path w))
              = events w ++ l
      /\ match fst (main E platform_name secondary_installation manifest_path w) with
         | Exit 0 => existsb is_stderr l = false /\ no_failed_run l = true
         | Exit 1 => existsb is_stderr l = true
         | Raise _ => True
         | _ => False
         end).
  { rewrite main_eq.
    destruct (match state_json w with Some _ => true | None => false end
              && negb secondary_installation).
    { cbn [fst snd].
      destruct (say_no_stderr "The state file is present. Skipping installation." w)
        as (l & Hev & Hl).
      destruct (say_facts E "The state file is present. Skipping installation." w)
        as (l' & Hev' & Hl' & _).
      assert (l' = l) by (apply (app_inv_head (events w)); congruence). subst l'.
      exists l. split; [assumption|]. split; [now apply no_stderr_existsb|].
      now apply outputs_no_failed_run. }
    destruct (which_git E); cbv beta iota delta [negb].
    2:{ eexists [_]. split; reflexivity. }
    destruct manifest_path as [p|p exc|m].
    { eexists [_]. split; reflexivity. }
    { eexists [_; _]. cbn [fst snd events log]. rewrite <- app_assoc.
      split; reflexivity. }
    destruct (process_bundled_projects E platform_name (packages_folder E) m
                (state_json w) w) as [o w1] eqn:Hp.
    pose proof Hp as Hp0.
    apply process_bundled_projects_spec in Hp0 as (_ & l & Hev & _ & Hout).
    destruct o as [[b r]|e|c]; [| |contradiction].
    2:{ exists l. cbn [fst snd]. auto. }
    apply process_bundled_projects_stderr in Hp as (l' & Hev' & Hl').
    assert (l' = l) by (apply (app_inv_head (events w)); congruence). subst l'.
    destruct b.
    - apply no_stderr_existsb in Hl'.
      destruct r as [|x st]; cbn [fst snd].
      + exists l. auto.
      + exists (l ++ [EvSaveState (state_file E) (x :: st)]). split.
        * cbn [snd save_state events]. rewrite Hev. now rewrite <- app_assoc.
        * rewrite existsb_stderr_app, Hl', no_failed_run_app, Hout. split; reflexivity.
    - rewrite clean_up_eq. cbv zeta.
      destruct (say_facts E "Installation failed. Cleaning package directory..." w1)
        as (l0 & Hev0 & _).
      remember (say E "Installation failed. Cleaning package directory..." w1) as w0.
      destruct (has_dir _ _); [destruct (rmtree_ok E w0 _)|]; cbn [fst snd].
      + exists (l ++ l0 ++ [EvRmtree (packages_folder E)]). split.
        * cbn [removed events]. rewrite Hev0, Hev. now rewrite <- !app_assoc.
        * now rewrite existsb_stderr_app, Hl'.
      + eexists (l ++ l0 ++ [EvStderr _]). split.
        * cbn [log events]. rewrite Hev0, Hev. now rewrite <- !app_assoc.
        * now rewrite existsb_stderr_app, Hl'.
      + exists (l ++ l0). split.
        * rewrite Hev0, Hev. now rewrite <- !app_assoc.
        * now rewrite existsb_stderr_app, Hl'. }
  destruct Hmain as (l & Hev & Hl). rewrite script_eq.
  destruct (main E platform_name secondary_installation manifest_path w)
    as [[[]|e|c] w1]; cbn [fst snd] in *; [contradiction| |].
  - erewrite new_events_app.
    2:{ cbn [events log]. rewrite Hev. rewrite <- !app_assoc. reflexivity. }
    split; [now right|]. split; [|discriminate].
    rewrite existsb_stderr_app. cbn. rewrite orb_true_r. tauto.
  - rewrite (new_events_app _ _ _ Hev).
    destruct c as [|[|c]]; [| |contradiction].
    + destruct Hl as [Hq Hf]. split; [now left|]. rewrite Hq.
      split; [split; discriminate | auto].
    + split; [now right|]. rewrite Hl. split; [tauto | discriminate].
Qed.

(** X20. An exception is no fetch failure: when [main] raises in a run
    that found no state file (a required project without revision, a
    remote that cannot be resolved, a missing [remotes] collection, ...),
    the script reports it in two messages and ends with status 1 without
    cleaning up: nothing is removed, every directory that was there or was
    made stays, the package folder included once the manifest has its
    [projects], and no state file is written. *)
Theorem exception_leaves_packages platform_name secondary_installation
    manifest_path w e :
  state_json w = None ->
  fst (main E platform_name secondary_installation manifest_path w) = Raise e ->
  let r := script E platform_name secondary_installation manifest_path w in
  fst r = Exit 1
  /\ (exists l,
        new_events w (snd r)
        = l ++ [EvStderr ("Error: Unknown exception occured. Failed to install bundled projects!"
                          ++ nl);
                EvStderr (exn_str e ++ nl)]
        /\ forallb quiet l = true)
  /\ state_json (snd r) = None
  /\ (forall p, has_dir p (dirs w) = true -> has_dir p (dirs (snd r)) = true)
  /\ (forall m ps, manifest_path = ManifestDoc m -> projects m = Some ps ->
      has_dir (resolve (packages_folder E)) (dirs (snd r)) = true).
Proof.
  intros Hs Hraise. cbv zeta. rewrite script_eq.
  destruct (main E platform_name secondary_installation manifest_path w)
    as [o w1] eqn:Hmain.
  cbn [fst] in Hraise. subst o. cbn [fst snd dirs state_json log].
  split; [reflexivity|].
  rewrite main_eq, Hs in Hmain. cbn [andb] in Hmain.
  destruct (which_git E); cbv beta iota delta [negb] in Hmain; [|discriminate].
  destruct manifest_path as [p|p exc|m]; try discriminate.
  destruct (process_bundled_projects E platform_name (packages_folder E) m None w)
    as [o wp] eqn:Hp.
  destruct o as [[[|] [|x st]]|e'|c]; try discriminate.
  { rewrite clean_up_eq in Hmain. cbv zeta in Hmain.
    repeat match type of Hmain with
           | context [if ?c then _ else _] => destruct c
           end; discriminate. }
  { rewrite clean_up_eq in Hmain. cbv zeta in Hmain.
    repeat match type of Hmain with
           | context [if ?c then _ else _] => destruct c
           end; discriminate. }
  inversion Hmain; subst e' wp. clear Hmain.
  rewrite process_bundled_projects_eq in Hp.
  assert (Hgoal : forall l,
            events w1 = events w ++ l -> forallb quiet l = true ->
            exists l0,
              new_events w
                (log (EvStderr (exn_str e ++ nl))
                   (log (EvStderr ("Error: Unknown exception occured. Failed to install bundled projects!"
                                   ++ nl)) w1))
              = l0 ++ [EvStderr ("Error: Unknown exception occured. Failed to install bundled projects!"
                                 ++ nl);
                       EvStderr (exn_str e ++ nl)]
              /\ forallb quiet l0 = true).
  { intros l Hev Hl. exists l. split; [|assumption].
    apply new_events_app. cbn [events log]. rewrite Hev.
    now rewrite <- !app_assoc. }
  destruct (projects m) as [ps|] eqn:Hps.
  2:{ injection Hp as _ <-. split; [apply (Hgoal []); [now rewrite app_nil_r | reflexivity]|].
      split; [assumption|]. split; [auto|].
      intros m0 ps0 Hm Hps0. injection Hm as <-. congruence. }
  cbv zeta in Hp. fold (ensure_folder (packages_folder E) w) in Hp.
  assert (Hens : exists l1,
            events (ensure_folder (packages_folder E) w) = events w ++ l1
            /\ forallb quiet l1 = true
            /\ state_json (ensure_folder (packages_folder E) w) = None
            /\ (forall p, has_dir p (dirs w) = true ->
                  has_dir p (dirs (ensure_folder (packages_folder E) w)) = true)
            /\ has_dir (resolve (packages_folder E))
                 (dirs (ensure_folder (packages_folder E) w)) = true).
  { unfold ensure_folder.
    destruct (has_dir (resolve (packages_folder E)) (dirs w)) eqn:Hd.
    - exists []. rewrite app_nil_r. auto.
    - exists [EvMakedirs (packages_folder E)]. cbn [made dirs state_json events].
      repeat split; auto.
      + intros p Hp'. rewrite has_dir_app, Hp'. apply orb_true_r.
      + rewrite has_dir_app. apply orb_true_iff. left.
        apply has_dir_In, ancestors_self. }
  destruct Hens as (l1 & Hev1 & Hl1 & Hs1 & Hmono1 & Hpf).
  remember (ensure_folder (packages_folder E) w) as w0 eqn:Hw0. clear Hw0.
  destruct (remotes m) as [rs|].
  2:{ injection Hp as _ <-. split; [now apply (Hgoal l1)|].
      split; [assumption|]. split; [auto|]. intros; assumption. }
  apply install_projects_spec in Hp as (Hst & Hmono & l & Hev & Hl & _).
  split.
  { apply (Hgoal (l1 ++ l)).
    - rewrite Hev, Hev1. now rewrite app_assoc.
    - now rewrite forallb_app, Hl1, Hl. }
  split; [congruence|]. split; [auto|]. intros. auto.
Qed.

(** ** What a run trusts *)

(** With names that occur once, a loop that ran to its end has recorded
    every required project whose directory was there from the start. *)
Lemma install_projects_recorded_existing platform_name pf remotes default_remote ps :
  forall result w r w',
  uniq (map name ps) = true ->
  install_projects E platform_name pf remotes default_remote ps result w
  = (Ret (true, r), w') ->
  forall pc, In pc ps ->
    is_project_required pc platform_name = Ret true ->
    has_dir (package_dir pf pc) (dirs w) = true ->
    dict_get (name pc) r = revision pc /\ revision pc <> None.
Proof.
  induction ps as [|p0 ps IH]; intros result w r w' Hu H pc Hin Hreq Hdir;
    [contradiction|].
  cbn [map] in Hu. apply uniq_cons in Hu as [Hfresh Hu].
  rewrite install_projects_cons in H.
  destruct (process_project E platform_name pf remotes default_remote p0 result w)
    as [o w1] eqn:Hturn.
  destruct o as [[r1|r1]|e|c]; try discriminate.
  apply process_project_spec in Hturn as (_ & l1 & _ & Hcases).
  destruct Hin as [->|Hin].
  - assert (Hrec : exists rev, revision pc = Some rev
                               /\ r1 = dict_set (name pc) rev result).
    { destruct Hcases as [(_ & _ & [(e & He) | [(_ & Hwhy) | (rev & He & _ & _ & Hrev)]])
                         | (u & r0 & l0 & lc & lt & ok1 & ok2 & _ & Hno & _)];
        try discriminate; try congruence.
      - destruct Hwhy as [Hno | (_ & Hno & _)]; congruence.
      - inversion He; subst. eauto. }
    destruct Hrec as (rev & Hrev & ->).
    apply (install_projects_keeps _ _ _ _ (name pc)) in H.
    + rewrite H, dict_get_set_same, Hrev. split; [reflexivity | discriminate].
    + intros pc' Hin' Heq. apply Hfresh. rewrite <- Heq. now apply in_map.
  - eapply IH; eauto.
    destruct Hcases as [(Hd & _) | (u & r0 & l0 & lc & lt & ok1 & ok2 & _ & _ & _ & _
                                   & _ & _ & Hd & _)].
    + now rewrite Hd.
    + rewrite Hd, has_dir_app, Hdir. apply orb_true_r.
Qed.

(** X21. A directory that is already there is taken for an installed
    package: in a run that finds no state file and ends with status 0,
    over a manifest whose project paths are relative and without [..],
    nothing is cloned into the package directory of a required project
    that existed when the run began, and, the names of the manifest
    occurring once, the state file lists the project with the revision of
    the manifest, whatever the directory holds. *)
Theorem existing_directory_is_trusted platform_name secondary_installation m w w' ps pc :
  state_json w = None ->
  script E platform_name secondary_installation (ManifestDoc m) w = (Exit 0, w') ->
  projects m = Some ps -> tame_paths ps = true -> In pc ps ->
  is_project_required pc platform_name = Ret true ->
  has_dir (package_dir (packages_folder E) pc) (dirs w) = true ->
  clones_into (package_path (packages_folder E) pc) (new_events w w') = 0
  /\ (unique_names m = true ->
      exists st, state_json w' = Some st
                 /\ dict_get (name pc) st = revision pc
                 /\ revision pc <> None).
Proof.
  intros Hs H Hps _ Hin Hreq Hdir. split.
  - replace w' with (snd (script E platform_name secondary_installation
                            (ManifestDoc m) w)) by now rewrite H.
    unfold clones_into.
    destruct (script_commands platform_name secondary_installation (ManifestDoc m) w)
      as [-> | (m' & Hm & ->)]; [reflexivity|].
    injection Hm as <-.
    destruct (process_bundled_projects_commands platform_name (packages_folder E) m
                (state_json w) w) as [-> | (ps' & rs & w2 & _ & _ & Hdrift & ->)];
      [reflexivity|].
    apply install_projects_existing.
    rewrite Hs, drift_phase_eq in Hdrift. inversion Hdrift; subst w2.
    destruct (ensure_folder_facts (packages_folder E) w) as (_ & Hg & _).
    eapply grown_has_dir; eauto.
  - intros Hu. unfold unique_names in Hu. rewrite Hps in Hu.
    rewrite script_eq in H.
    destruct (main E platform_name secondary_installation (ManifestDoc m) w)
      as [o wm] eqn:Hmain.
    destruct o as [[]|e|c]; try discriminate.
    rewrite main_eq, Hs in Hmain. cbn [andb] in Hmain.
    destruct (which_git E); cbv beta iota delta [negb] in Hmain.
    2:{ inversion Hmain; subst. discriminate. }
    destruct (process_bundled_projects E platform_name (packages_folder E) m None w)
      as [o wp] eqn:Hp.
    destruct o as [[[|] st]|e|c0].
    + apply process_bundled_projects_returned in Hp
        as (ps' & rs & w2 & Hps' & _ & Hdrift & Hloop).
      assert (ps' = ps) by congruence. subst ps'.
      rewrite drift_phase_eq in Hdrift. inversion Hdrift; subst w2.
      destruct (ensure_folder_facts (packages_folder E) w) as (_ & Hg & _).
      destruct (install_projects_recorded_existing _ _ _ _ _ _ _ _ _ Hu Hloop pc Hin
                  Hreq (grown_has_dir _ _ _ Hg Hdir)) as [Hget Hsome].
      destruct st as [|x st].
      { cbn in Hget. now rewrite <- Hget in Hsome. }
      inversion Hmain; subst. inversion H; subst. exists (x :: st). auto.
    + exfalso. rewrite clean_up_eq in Hmain. cbv zeta in Hmain.
      repeat match type of Hmain with
             | context [if ?c then _ else _] => destruct c
             end; inversion Hmain; subst; discriminate.
    + inversion Hmain.
    + now apply process_bundled_projects_spec in Hp as (_ & l & _ & _ & Hout).
Qed.

(** A run that wrote the state file went through
    [process_bundled_projects], which returned [True] and the record that
    was written. *)
Lemma main_saved platform_name secondary_installation manifest_path w f st :
  In (EvSaveState f st)
     (new_events w
        (snd (main E platform_name secondary_installation manifest_path w))) ->
  exists m wp,
    manifest_path = ManifestDoc m
    /\ process_bundled_projects E platform_name (packages_folder E) m (state_json w) w
       = (Ret (true, st), wp)
    /\ main E platform_name secondary_installation manifest_path w
       = (Exit 0, snd (save_state (state_file E) st wp)).
Proof.
  rewrite main_eq. intros Hsave.
  assert (Hquiet : forall w1 l, events w1 = events w ++ l ->
            forallb (fun e => negb (is_save_state e)) l = true ->
            ~ In (EvSaveState f st) (new_events w w1)).
  { intros w1 l Hev Hl. rewrite (new_events_app _ _ _ Hev).
    now apply not_saved_In. }
  destruct (match state_json w with Some _ => true | None => false end
            && negb secondary_installation).
  { exfalso. cbn [snd] in Hsave.
    destruct (say_facts E "The state file is present. Skipping installation." w)
      as (l & Hev & Hl & _).
    eapply Hquiet; eauto. revert Hl. apply forallb_impl. now intros []. }
  destruct (which_git E); cbv beta iota delta [negb] in Hsave.
  2:{ exfalso. eapply (Hquiet _ [EvStderr _]); [| |exact Hsave]; reflexivity. }
  destruct manifest_path as [p|p exc|m].
  { exfalso. eapply (Hquiet _ [EvStderr _]); [| |exact Hsave]; reflexivity. }
  { exfalso. eapply (Hquiet _ [EvStderr _; EvStderr _]); [| |exact Hsave];
      [|reflexivity].
    cbn [snd events log]. now rewrite <- app_assoc. }
  destruct (process_bundled_projects E platform_name (packages_folder E) m
              (state_json w) w) as [o w1] eqn:Hp.
  pose proof Hp as Hp0.
  apply process_bundled_projects_spec in Hp0 as (_ & l & Hev & Hsv & Hout).
  destruct o as [[[|] r]|e|c]; [| | |contradiction].
  - destruct r as [|x r]; cbn [snd] in *.
    { exfalso. eapply Hquiet; eauto. }
    rewrite (new_events_app w _ (l ++ [EvSaveState (state_file E) (x :: r)])) in Hsave.
    2:{ cbn [snd save_state events]. rewrite Hev. now rewrite <- app_assoc. }
    apply in_app_iff in Hsave as [Hsave|[Hsave|[]]].
    { now apply not_saved_In in Hsave. }
    inversion Hsave; subst f st. exists m, w1. auto.
  - exfalso. rewrite clean_up_eq in Hsave. cbv zeta in Hsave.
    destruct (say_facts E "Installation failed. Cleaning package directory..." w1)
      as (l0 & Hev0 & Hl0 & _).
    remember (say E "Installation failed. Cleaning package directory..." w1) as w0.
    assert (Hl0' : forallb (fun e => negb (is_save_state e)) l0 = true).
    { revert Hl0. apply forallb_impl. now intros []. }
    destruct (has_dir _ _); [destruct (rmtree_ok E w0 _)|]; cbn [snd] in Hsave.
    + eapply (Hquiet _ (l ++ l0 ++ [EvRmtree _])); [| |exact Hsave].
      * cbn [removed events]. rewrite Hev0, Hev. now rewrite <- !app_assoc.
      * now rewrite !forallb_app, Hsv, Hl0'.
    + eapply (Hquiet _ (l ++ l0 ++ [EvStderr _])); [| |exact Hsave].
      * cbn [log events]. rewrite Hev0, Hev. now rewrite <- !app_assoc.
      * now rewrite !forallb_app, Hsv, Hl0'.
    + eapply (Hquiet _ (l ++ l0)); [| |exact Hsave].
      * rewrite Hev0, Hev. now rewrite <- !app_assoc.
      * now rewrite !forallb_app, Hsv, Hl0'.
  - exfalso. eapply Hquiet; eauto.
Qed.

(** X22. The record that a run saves agrees with the manifest it was made
    from: when the names of the manifest occur once, a later call of
    [process_bundled_projects] with the saved record and the same manifest
    finds no drift and removes nothing, on any platform and in any state of
    the file system. *)
Theorem saved_state_shows_no_drift platform_name secondary_installation m w f st :
  In (EvSaveState f st)
     (new_events w
        (snd (main E platform_name secondary_installation (ManifestDoc m) w))) ->
  unique_names m = true ->
  (exists ps, projects m = Some ps
              /\ modified_entries (dict_of name ps) st = [])
  /\ forall platform_name' pf w2,
       forallb (fun e => negb (is_rmtree e))
         (new_events w2
            (snd (process_bundled_projects E platform_name' pf m (Some st) w2)))
       = true.
Proof.
  intros Hsave Hu.
  apply main_saved in Hsave as (m' & wp & Hm & Hp & _). injection Hm as <-.
  apply process_bundled_projects_returned in Hp
    as (ps & rs & w1 & Hps & Hrs & _ & Hloop).
  unfold unique_names in Hu. rewrite Hps in Hu.
  apply install_projects_spec in Hloop as (_ & _ & l & _ & _ & _ & Hprov).
  assert (Hnone : modified_entries (dict_of name ps) st = []).
  { apply modified_entries_none; [assumption|].
    intros n v Hin. destruct (Hprov true st eq_refl n v Hin) as [[]|?]; auto. }
  split; [eauto|].
  intros platform_name' pf w2. rewrite process_bundled_projects_eq, Hps, Hrs.
  cbv zeta. fold (ensure_folder pf w2).
  assert (Hens : exists l1, events (ensure_folder pf w2) = events w2 ++ l1
                            /\ forallb (fun e => negb (is_rmtree e)) l1 = true).
  { unfold ensure_folder. destruct (has_dir _ _).
    - exists []. now rewrite app_nil_r.
    - now exists [EvMakedirs pf]. }
  destruct Hens as (l1 & Hev1 & Hl1).
  assert (Hdrift : match st with
                   | _ :: _ =>
                       clear_modified E pf (modified_entries (dict_of name ps) st)
                         (ensure_folder pf w2)
                   | [] => (Ret tt, ensure_folder pf w2)
                   end = (Ret tt, ensure_folder pf w2)).
  { rewrite Hnone. now destruct st. }
  rewrite Hdrift.
  match goal with
  | |- context [install_projects E ?a ?b ?c ?d ?e ?f ?g] =>
      destruct (install_projects E a b c d e f g) as [o w3] eqn:Hl
  end.
  apply install_projects_spec in Hl as (_ & _ & l' & Hev & Hq & _).
  cbn [snd]. rewrite (new_events_app w2 w3 (l1 ++ l')).
  - rewrite forallb_app, Hl1. revert Hq. apply forallb_impl.
    intros e He. unfold quiet in He. now apply andb_true_iff in He as [He _].
  - rewrite Hev, Hev1. now rewrite <- app_assoc.
Qed.

(** X23. After a run that wrote the state file, a second run over the
    same manifest (its names occurring once) and for the same platform,
    forced or not, makes no directory, removes none and runs no command:
    it only writes messages and, at most, the state file again. (The
    package folder, which holds the state file, is there when the second
    run begins.) *)
Theorem rerun_changes_no_directory platform_name secondary_installation
    secondary_installation' m w f st :
  let w1 := snd (main E platform_name secondary_installation (ManifestDoc m) w) in
  let w2 := snd (main E platform_name secondary_installation' (ManifestDoc m) w1) in
  In (EvSaveState f st) (new_events w w1) ->
  unique_names m = true ->
  has_dir (resolve (packages_folder E)) (dirs w1) = true ->
  dirs w2 = dirs w1
  /\ forallb (fun e => is_output e || is_save_state e) (new_events w1 w2) = true.
Proof.
  cbv zeta. intros Hsave Hu Hpf.
  apply main_saved in Hsave as (m' & wp & Hm & Hp & Hmain). injection Hm as <-.
  rewrite Hmain in *. cbn [snd] in *.
  set (w1 := snd (save_state (state_file E) st wp)) in *.
  assert (Hw1 : dirs w1 = dirs wp /\ state_json w1 = Some st) by (split; reflexivity).
  destruct Hw1 as [Hd1 Hs1]. clearbody w1.
  apply process_bundled_projects_returned in Hp
    as (ps & rs & w0 & Hps & Hrs & _ & Hloop).
  unfold unique_names in Hu. rewrite Hps in Hu.
  apply install_projects_spec in Hloop as (_ & _ & l & _ & _ & [_ Hall] & Hprov).
  assert (Hnone : modified_entries (dict_of name ps) st = []).
  { apply modified_entries_none; [assumption|].
    intros n v Hin. destruct (Hprov true st eq_refl n v Hin) as [[]|?]; auto. }
  rewrite main_eq, Hs1.
  destruct (true && negb secondary_installation').
  { cbn [snd].
    destruct (say_facts E "The state file is present. Skipping installation." w1)
      as (l0 & Hev0 & Hl0 & Hd0 & _).
    rewrite (new_events_app _ _ _ Hev0). split; [assumption|].
    revert Hl0. apply forallb_impl. now intros []. }
  destruct (which_git E); cbv beta iota delta [negb].
  2:{ cbn [snd dirs log]. split; [reflexivity|].
      erewrite new_events_app by (cbn [events log]; reflexivity). reflexivity. }
  rewrite process_bundled_projects_eq, Hps, Hrs. cbv zeta. rewrite Hpf.
  assert (Hdrift : match st with
                   | _ :: _ =>
                       clear_modified E (packages_folder E)
                         (modified_entries (dict_of name ps) st) w1
                   | [] => (Ret tt, w1)
                   end = (Ret tt, w1)).
  { rewrite Hnone. now destruct st. }
  rewrite Hdrift.
  match goal with
  | |- context [install_projects E ?a ?b ?c ?d ?e ?f ?g] =>
      destruct (install_projects E a b c d e f g) as [o w3] eqn:Hl
  end.
  pose proof Hl as Hspec.
  apply install_projects_spec in Hspec as (_ & _ & l' & Hev' & _ & Hout & _).
  apply install_projects_no_fetch in Hl as (Hd3 & l3 & Hev3 & Hl3).
  2:{ intros pc Hin Hreq. rewrite Hd1.
      destruct (Hall pc Hin Hreq) as [Hor _]. exact Hor. }
  assert (l' = l3) by (apply (app_inv_head (events w1)); congruence). subst l'.
  assert (Hl3' : forallb (fun e => is_output e || is_save_state e) l3 = true).
  { revert Hl3. apply forallb_impl. now intros []. }
  destruct o as [[[|] [|x r]]|e|c]; cbn [snd].
  - rewrite (new_events_app _ _ _ Hev3). auto.
  - cbn [snd save_state dirs]. split; [assumption|].
    rewrite (new_events_app w1 _ (l3 ++ [EvSaveState (state_file E) (x :: r)])).
    + now rewrite forallb_app, Hl3'.
    + cbn [snd save_state events]. rewrite Hev3. now rewrite <- app_assoc.
  - exfalso. unfold ends_in_failure in Hout.
    apply outputs_no_failed_run, no_failed_run_None in Hl3.
    rewrite Hl3 in Hout. discriminate.
  - exfalso. unfold ends_in_failure in Hout.
    apply outputs_no_failed_run, no_failed_run_None in Hl3.
    rewrite Hl3 in Hout. discriminate.
  - rewrite (new_events_app _ _ _ Hev3). auto.
  - contradiction.
Qed.

End MoreRuns.

(** ** The verbose flag *)

Section Verbose.

Variable E : env.
Variables b b' : bool.

(** The outcome of a command and of a removal may depend on the
    directories, the state file and what was done, not on what was
    printed. *)
Hypothesis check_call_alike :
  forall w w' args cwd, alike w w' -> check_call E w args cwd = check_call E w' args cwd.
Hypothesis rmtree_ok_alike :
  forall w w' p, alike w w' -> rmtree_ok E w p = rmtree_ok E w' p.

Lemma alike_log (e : event) w w' : alike w w' -> alike (log e w) (log e w').
Proof.
  intros (Hd & Hs & He). unfold alike, deeds in *. cbn [dirs state_json events log].
  rewrite !filter_app, He. auto.
Qed.

Lemma alike_print_l s w w' : alike w w' -> alike (log (EvPrint s) w) w'.
Proof.
  intros (Hd & Hs & He). unfold alike, deeds in *. cbn [dirs state_json events log].
  rewrite filter_app, He. cbn. rewrite app_nil_r. auto.
Qed.

Lemma alike_sym w w' : alike w w' -> alike w' w.
Proof. intros (Hd & Hs & He). unfold alike. auto. Qed.

Lemma sim_ret {A} (a : A) : sim (ret a) (ret a).
Proof. intros w w' H. now split. Qed.

Lemma sim_lift {A} (o : outcome A) : sim (lift o) (lift o).
Proof. intros w w' H. now split. Qed.

Lemma sim_raise {A} (e : exn) : sim (@raise A e) (raise e).
Proof. intros w w' H. now split. Qed.

Lemma sim_sys_exit {A} (c : nat) : sim (@sys_exit A c) (sys_exit c).
Proof. intros w w' H. now split. Qed.

Lemma sim_bind {A B} (m m' : M A) (k k' : A -> M B) :
  sim m m' -> (forall a, sim (k a) (k' a)) -> sim (bind m k) (bind m' k').
Proof.
  intros Hm Hk w w' H. unfold bind. destruct (Hm w w' H) as [Ho Hw].
  destruct (m w) as [o w1], (m' w') as [o' w1']. cbn [fst snd] in *. subst o'.
  destruct o as [a|e|c]; [now apply Hk | now split | now split].
Qed.

Lemma sim_try_except {A} (m m' : M A) (h h' : exn -> M A) :
  sim m m' -> (forall e, sim (h e) (h' e)) -> sim (try_except m h) (try_except m' h').
Proof.
  intros Hm Hh w w' H. unfold try_except. destruct (Hm w w' H) as [Ho Hw].
  destruct (m w) as [o w1], (m' w') as [o' w1']. cbn [fst snd] in *. subst o'.
  destruct o as [a|e|c]; [now split | now apply Hh | now split].
Qed.

Lemma sim_emit (e : event) : sim (emit e) (emit e).
Proof. intros w w' H. split; [reflexivity | now apply alike_log]. Qed.

(** A message that depends on the verbose flag. *)
Lemma sim_verbose (s : string) :
  sim (when (VERBOSE (with_verbose b E)) (print s))
      (when (VERBOSE (with_verbose b' E)) (print s)).
Proof.
  intros w w' H. cbn [VERBOSE with_verbose]. unfold when, print, emit, ret.
  destruct b, b'; cbn [fst snd]; split; try reflexivity; auto using alike_log.
  - now apply alike_print_l.
  - now apply alike_sym, alike_print_l, alike_sym.
Qed.

Lemma sim_when (c : bool) (m m' : M unit) : sim m m' -> sim (when c m) (when c m').
Proof. intros H. destruct c; [exact H | apply sim_ret]. Qed.

Lemma sim_assert (c : bool) (msg : string) : sim (assert c msg) (assert c msg).
Proof. destruct c; [apply sim_ret | apply sim_raise]. Qed.

Lemma sim_os_path_isdir p :
  sim (os_path_isdir p) (os_path_isdir p).
Proof.
  intros w w' H. unfold os_path_isdir. cbn [fst snd].
  destruct H as (Hd & Hs & He). rewrite Hd. split; [reflexivity|]. now split.
Qed.

Lemma sim_os_path_isfile p :
  sim (os_path_isfile (with_verbose b E) p) (os_path_isfile (with_verbose b' E) p).
Proof.
  intros w w' H. unfold os_path_isfile. cbn [fst snd].
  destruct H as (Hd & Hs & He). rewrite Hs. split; [reflexivity|]. now split.
Qed.

Lemma sim_os_makedirs p :
  sim (os_makedirs p) (os_makedirs p).
Proof.
  intros w w' H. unfold os_makedirs. destruct H as (Hd & Hs & He). rewrite Hd.
  destruct (has_dir (resolve p) (dirs w')); cbn [fst snd];
    (split; [reflexivity|]).
  - now split.
  - unfold alike, deeds in *. cbn [made dirs state_json events].
    rewrite !filter_app, He, Hd. auto.
Qed.

Lemma sim_shutil_rmtree p :
  sim (shutil_rmtree (with_verbose b E) p) (shutil_rmtree (with_verbose b' E) p).
Proof.
  intros w w' H. unfold shutil_rmtree. cbn [rmtree_ok with_verbose].
  rewrite (rmtree_ok_alike w w' p H). destruct H as (Hd & Hs & He).
  destruct (rmtree_ok E w' p); cbn [fst snd]; (split; [reflexivity|]).
  - unfold alike, deeds in *. cbn [removed dirs state_json events].
    rewrite !filter_app, He, Hd, Hs. auto.
  - now split.
Qed.

Lemma sim_load_state_json p :
  sim (load_state_json p) (load_state_json p).
Proof.
  intros w w' H. unfold load_state_json. pose proof H as (Hd & Hs & He). rewrite Hs.
  destruct (state_json w'); cbn [fst snd]; split; try reflexivity; exact H.
Qed.

Lemma sim_save_state f st :
  sim (save_state f st) (save_state f st).
Proof.
  intros w w' (Hd & Hs & He). unfold save_state. cbn [fst snd].
  split; [reflexivity|]. unfold alike, deeds in *. cbn [dirs state_json events].
  rewrite !filter_app, He, Hd. auto.
Qed.

Lemma sim_run_cmd args cwd :
  sim (run_cmd (with_verbose b E) args cwd) (run_cmd (with_verbose b' E) args cwd).
Proof.
  unfold run_cmd. apply sim_bind; [apply sim_verbose|]. intros _ w w' H.
  cbn [check_call with_verbose fst snd]. rewrite (check_call_alike w w' args cwd H).
  split; [reflexivity | now apply alike_log].
Qed.

(** Take a computation apart along its structure; [known] closes the
    calls of functions already compared. *)
Ltac sim_go_with known :=
  repeat first
    [ known
    | apply sim_ret | apply sim_lift | apply sim_raise | apply sim_sys_exit
    | apply sim_verbose | apply sim_emit | apply sim_assert
    | apply sim_os_path_isdir | apply sim_os_path_isfile | apply sim_os_makedirs
    | apply sim_shutil_rmtree | apply sim_load_state_json | apply sim_save_state
    | apply sim_run_cmd
    | progress cbv zeta
    | apply sim_when
    | apply sim_try_except; [|intro]
    | apply sim_bind; [|intro]
    | match goal with
      | |- sim (if ?c then _ else _) (if ?c then _ else _) => destruct c
      | |- sim (match ?x with _ => _ end) (match ?x with _ => _ end) => destruct x
      end ].

Ltac sim_go := sim_go_with fail.

Lemma sim_clone_repository dst_dir remote_url revision sub :
  sim (clone_repository (with_verbose b E) dst_dir remote_url revision sub)
      (clone_repository (with_verbose b' E) dst_dir remote_url revision sub).
Proof. unfold clone_repository, print, stderr_write. sim_go. Qed.

Lemma sim_install_from_remote pc dst_dir remotes default_remote :
  sim (install_from_remote (with_verbose b E) pc dst_dir remotes default_remote)
      (install_from_remote (with_verbose b' E) pc dst_dir remotes default_remote).
Proof.
  unfold install_from_remote, print.
  sim_go_with ltac:(apply sim_clone_repository).
Qed.

Lemma sim_process_project platform_name pf remotes default_remote pc result :
  sim (process_project (with_verbose b E) platform_name pf remotes default_remote pc result)
      (process_project (with_verbose b' E) platform_name pf remotes default_remote pc result).
Proof.
  unfold process_project, print, stderr_write.
  sim_go_with ltac:(apply sim_install_from_remote).
Qed.

Lemma sim_install_projects platform_name pf remotes default_remote ps :
  forall result,
  sim (install_projects (with_verbose b E) platform_name pf remotes default_remote ps result)
      (install_projects (with_verbose b' E) platform_name pf remotes default_remote ps result).
Proof.
  induction ps as [|pc ps IH]; intros result; cbn [install_projects];
    [apply sim_ret|].
  apply sim_bind; [apply sim_process_project|].
  intros [r|r]; [apply IH | apply sim_ret].
Qed.

Lemma sim_clear_deprecated_package pf d :
  sim (clear_deprecated_package (with_verbose b E) pf d)
      (clear_deprecated_package (with_verbose b' E) pf d).
Proof. unfold clear_deprecated_package, print. sim_go. Qed.

Lemma sim_clear_modified pf ms :
  sim (clear_modified (with_verbose b E) pf ms) (clear_modified (with_verbose b' E) pf ms).
Proof.
  induction ms as [|d ms IH]; cbn [clear_modified]; [apply sim_ret|].
  sim_go_with ltac:(first [exact IH | apply sim_clear_deprecated_package]).
Qed.

Lemma sim_process_bundled_projects platform_name pf m sm :
  sim (process_bundled_projects (with_verbose b E) platform_name pf m sm)
      (process_bundled_projects (with_verbose b' E) platform_name pf m sm).
Proof.
  unfold process_bundled_projects.
  sim_go_with ltac:(first [apply sim_clear_modified | apply sim_install_projects]).
Qed.

Lemma sim_clean_up pf :
  sim (clean_up (with_verbose b E) pf) (clean_up (with_verbose b' E) pf).
Proof. unfold clean_up, stderr_write. sim_go. Qed.

Lemma sim_main platform_name secondary_installation manifest_path :
  sim (main (with_verbose b E) platform_name secondary_installation manifest_path)
      (main (with_verbose b' E) platform_name secondary_installation manifest_path).
Proof.
  unfold main, load_west_manifest, stderr_write.
  change (state_file (with_verbose b' E)) with (state_file (with_verbose b E)).
  change (packages_folder (with_verbose b' E)) with (packages_folder (with_verbose b E)).
  cbn [which_git with_verbose].
  sim_go_with ltac:(first [apply sim_process_bundled_projects | apply sim_clean_up]).
Qed.

(** X24. The verbose flag changes nothing but what is printed: two runs
    with the same arguments that differ in the flag, started where the
    directories, the state file and the record of what was done are the
    same, end with the same status, the same directories, the same state
    file and the same record of directories made and removed, commands run
    with their results, files written and messages on the standard error
    stream (the results of the commands and removals not depending on what
    was printed). *)
Theorem verbose_changes_only_prints platform_name secondary_installation
    manifest_path w w' :
  alike w w' ->
  fst (script (with_verbose b E) platform_name secondary_installation manifest_path w)
  = fst (script (with_verbose b' E) platform_name secondary_installation manifest_path w')
  /\ alike
       (snd (script (with_verbose b E) platform_name secondary_installation
               manifest_path w))
       (snd (script (with_verbose b' E) platform_name secondary_installation
               manifest_path w')).
Proof.
  revert w w'. change (sim (script (with_verbose b E) platform_name
                              secondary_installation manifest_path)
                           (script (with_verbose b' E) platform_name
                              secondary_installation manifest_path)).
  unfold script, stderr_write.
  sim_go_with ltac:(apply sim_main).
Qed.

End Verbose.

(** ** Concrete instances *)

(** X2 at the HAL package of the platform. *)
Lemma is_project_required_true_witness :
  is_project_required (mk_project "hal_stm32" (Some "modules/hal/stm32") (Some "main"))
    "ststm32" = Ret true.
Proof.
  apply is_project_required_true.
  split; [now exists "modules/hal/stm32"|]. split; [reflexivity|].
  intros _. right. left. reflexivity.
Defined.

(** X3: a project without the [hal_] prefix that is kept on an unknown
    platform is kept on a known one. *)
Lemma is_project_required_monotone_witness :
  is_project_required (mk_project "cmsis" (Some "modules/hal/cmsis") (Some "main"))
    "ststm32" = Ret true
  /\ is_project_required (mk_project "cmsis" (Some "modules/hal/cmsis") (Some "main"))
       "native"
     = is_project_required (mk_project "cmsis" (Some "modules/hal/cmsis") (Some "main"))
         "ststm32".
Proof.
  destruct (is_project_required_monotone
              (mk_project "cmsis" (Some "modules/hal/cmsis") (Some "main"))
              "native" "ststm32") as [H1 H2].
  split; [apply H1; [intros v []|reflexivity] | apply H2; reflexivity].
Defined.

(** X4 at the default remote, at a default remote that the registry
    lacks, and at a named remote that the registry lacks. *)
Lemma prepare_package_url_resolves_witness :
  (exists b, "https://github.com/zephyrproject-rtos/cmsis.git" = (b ++ ".git")%string)
  /\ prepare_package_url (remotes_dict sample_remotes) "origin"
       {| name := "cmsis"; path := None; revision := None; url := None;
          url_base := None; remote := Some "upstream"; repo_path := None;
          submodules := None |}
     = Raise (AttributeError "'str' object has no attribute 'get'")
  /\ ((exists k, KeyError "origin" = KeyError k)
      \/ (url {| name := "cmsis"; path := None; revision := None; url := None;
                 url_base := None; remote := Some "origin"; repo_path := None;
                 submodules := None |} = None
          /\ dict_get "upstream" (remotes_dict sample_remotes) = None)).
Proof.
  split; [|split].
  - apply (proj1 (proj2 (prepare_package_url_resolves (remotes_dict sample_remotes)
                           "upstream"
                           (mk_project "cmsis" (Some "modules/hal/cmsis") (Some "main"))))).
    reflexivity.
  - apply (proj1 (proj2 (proj2 (prepare_package_url_resolves
                                  (remotes_dict sample_remotes) "origin"
                                  {| name := "cmsis"; path := None; revision := None;
                                     url := None; url_base := None;
                                     remote := Some "upstream"; repo_path := None;
                                     submodules := None |}))));
      reflexivity.
  - apply (proj1 (proj2 (proj2 (proj2 (prepare_package_url_resolves
                                  (remotes_dict sample_remotes) "upstream"
                                  {| name := "cmsis"; path := None; revision := None;
                                     url := None; url_base := None;
                                     remote := Some "origin"; repo_path := None;
                                     submodules := None |}))))).
    reflexivity.
Defined.

(** X7: the destination is already there. *)
Lemma install_from_remote_raises_witness :
  fst (install_from_remote (sample_env git_always)
         (mk_project "cmsis" (Some "modules/hal/cmsis") (Some "0123456789abcdef"))
         "/fw" (remotes_dict sample_remotes) "upstream" fresh_world)
  = Raise (OSError "FileExistsError")
  /\ dirs (snd (install_from_remote (sample_env git_always)
                  (mk_project "cmsis" (Some "modules/hal/cmsis") (Some "0123456789abcdef"))
                  "/fw" (remotes_dict sample_remotes) "upstream" fresh_world))
     = dirs fresh_world.
Proof.
  destruct (install_from_remote_raises (sample_env git_always)
              (mk_project "cmsis" (Some "modules/hal/cmsis") (Some "0123456789abcdef"))
              "/fw" (remotes_dict sample_remotes) "upstream" fresh_world eq_refl)
    as (_ & Hclean & Hexists).
  split.
  - apply (Hexists "https://github.com/zephyrproject-rtos/cmsis.git" "0123456789abcdef");
      [reflexivity | reflexivity | discriminate | reflexivity].
  - apply Hclean. now exists (OSError "FileExistsError").
Defined.

(** X8: a clone that fails leaves the directory that was made for it. *)
Lemma install_from_remote_returns_witness :
  fst (install_from_remote
         (sample_env (git_fails_on "https://github.com/zephyrproject-rtos/cmsis.git"))
         (mk_project "cmsis" (Some "modules/hal/cmsis") (Some "0123456789abcdef"))
         "/fw/_pio/modules/hal/cmsis" (remotes_dict sample_remotes) "upstream"
         fresh_world) = Ret false
  /\ has_dir ["fw"; "_pio"; "modules"; "hal"; "cmsis"]
       (dirs (snd (install_from_remote
                     (sample_env (git_fails_on "https://github.com/zephyrproject-rtos/cmsis.git"))
                     (mk_project "cmsis" (Some "modules/hal/cmsis") (Some "0123456789abcdef"))
                     "/fw/_pio/modules/hal/cmsis" (remotes_dict sample_remotes) "upstream"
                     fresh_world))) = true.
Proof.
  split; [reflexivity|].
  destruct (install_from_remote_returns
              (sample_env (git_fails_on "https://github.com/zephyrproject-rtos/cmsis.git"))
              (mk_project "cmsis" (Some "modules/hal/cmsis") (Some "0123456789abcdef"))
              "/fw/_pio/modules/hal/cmsis" (remotes_dict sample_remotes) "upstream"
              fresh_world false eq_refl) as (_ & Hmade & _).
  apply Hmade. reflexivity.
Defined.

(** X9: the clean-up of a package folder with one package. *)
Lemma clean_up_outcome_witness :
  fst (clean_up (sample_env git_always) "/fw/_pio" drift_world) = Ret tt
  /\ has_dir ["fw"; "_pio"]
       (dirs (snd (clean_up (sample_env git_always) "/fw/_pio" drift_world))) = false
  /\ has_dir ["fw"]
       (dirs (snd (clean_up (sample_env git_always) "/fw/_pio" drift_world))) = true.
Proof.
  destruct (clean_up_outcome (sample_env git_always) "/fw/_pio" drift_world)
    as (_ & _ & Hret & _ & Hok).
  pose proof (Hok (fun _ => eq_refl)) as Hr.
  destruct (Hret Hr) as (Hgone & Hout & _).
  split; [exact Hr|]. split; [exact Hgone|].
  apply has_dir_In, Hout; [reflexivity|]. right. left. reflexivity.
Defined.

(** Membership in a list that computation makes explicit. *)
Ltac in_list := vm_compute; repeat first [left; reflexivity | right].

(** X10: the directory that the forced run over [drift_world] removes is
    that of [cmsis], recorded at [v1] and pinned to another revision. *)
Lemma drift_removes_only_changed_witness :
  exists st ps pc v q,
    Some [("cmsis", "v1")] = Some st /\ projects sample_manifest = Some ps
    /\ In pc ps /\ In (name pc, v) st
    /\ revision pc <> Some v
    /\ path pc = Some q
    /\ "/fw/_pio/modules/hal/cmsis" = os_path_join "/fw/_pio" q.
Proof.
  apply (drift_removes_only_changed (sample_env git_always) "ststm32" "/fw/_pio"
           sample_manifest (Some [("cmsis", "v1")]) drift_world).
  in_list.
Defined.

(** X11: the ignored package [trusted-firmware-m], recorded at another
    revision than the manifest has, is removed and not fetched again. *)
Lemma drift_drops_unwanted_package_witness :
  In (EvRmtree "/fw/_pio/modules/tee/tf-m/trusted-firmware-m")
     (new_events ignored_drift_world
        (snd (main (sample_env git_always) "ststm32" true
                (ManifestDoc ignored_manifest) ignored_drift_world)))
  /\ has_dir ["fw"; "_pio"; "modules"; "tee"; "tf-m"; "trusted-firmware-m"]
       (dirs (snd (main (sample_env git_always) "ststm32" true
                     (ManifestDoc ignored_manifest) ignored_drift_world))) = false
  /\ commands
       (new_events ignored_drift_world
          (snd (main (sample_env git_always) "ststm32" true
                  (ManifestDoc ignored_manifest) ignored_drift_world))) = [].
Proof.
  destruct (drift_drops_unwanted_package (sample_env git_always) "ststm32"
              ignored_manifest ignored_drift_world
              (snd (main (sample_env git_always) "ststm32" true
                      (ManifestDoc ignored_manifest) ignored_drift_world))
              [("trusted-firmware-m", "v1.7.0")] []
              (mk_project "trusted-firmware-m"
                 (Some "modules/tee/tf-m/trusted-firmware-m") (Some "v1.8.0"))
              [] "v1.7.0")
    as (Hrm & Hgone & _); try reflexivity.
  - discriminate.
  - right. reflexivity.
  - split; [exact Hrm|]. split; [exact Hgone | reflexivity].
Defined.

(** X12 on the three sample projects. *)
Lemma run_stays_in_package_folder_witness :
  forallb (stays_in "/fw/_pio")
    (new_events fresh_world
       (snd (script (sample_env git_always) "ststm32" false
               (ManifestDoc sample_manifest) fresh_world))) = true.
Proof.
  apply (run_stays_in_package_folder (sample_env git_always) "ststm32" false
           (ManifestDoc sample_manifest) fresh_world).
  intros m ps pc Hm Hps Hin. injection Hm as <-. injection Hps as <-.
  destruct Hin as [<-|[<-|[<-|[]]]]; reflexivity.
Defined.

(** X13 on the three sample projects: the entry of [lvgl]. *)
Lemma state_file_lists_installed_witness :
  exists m ps pc,
    ManifestDoc sample_manifest = ManifestDoc m /\ projects m = Some ps
    /\ In pc ps /\ name pc = "lvgl" /\ revision pc = Some "v8.2.0"
    /\ is_project_required pc "ststm32" = Ret true
    /\ has_dir (package_dir (packages_folder (sample_env git_always)) pc)
         (dirs (snd (main (sample_env git_always) "ststm32" false
                       (ManifestDoc sample_manifest) fresh_world))) = true.
Proof.
  apply (state_file_lists_installed (sample_env git_always) "ststm32" false
           (ManifestDoc sample_manifest) fresh_world "/fw/_pio/state.json"
           [("cmsis", "0123456789abcdef"); ("lvgl", "v8.2.0"); ("mbedtls", "main")]).
  - in_list.
  - right. left. reflexivity.
Defined.

(** X14 on the three sample projects: [lvgl] is there and recorded. *)
Lemma success_installs_required_witness :
  has_dir ["fw"; "_pio"; "modules"; "lib"; "gui"; "lvgl"]
    (dirs (snd (main (sample_env git_always) "ststm32" false
                  (ManifestDoc sample_manifest) fresh_world))) = true
  /\ exists st,
       state_json (snd (main (sample_env git_always) "ststm32" false
                          (ManifestDoc sample_manifest) fresh_world)) = Some st
       /\ dict_get "lvgl" st = Some "v8.2.0".
Proof.
  destruct (success_installs_required (sample_env git_always) "ststm32" false
              sample_manifest fresh_world
              (snd (main (sample_env git_always) "ststm32" false
                      (ManifestDoc sample_manifest) fresh_world))
              _ (mk_project "lvgl" (Some "modules/lib/gui/lvgl") (Some "v8.2.0"))
              (or_introl eq_refl) eq_refl eq_refl
              (or_intror (or_introl eq_refl)) eq_refl eq_refl)
    as [Hdir Hrec].
  split; [exact Hdir|].
  destruct (Hrec eq_refl) as (st & Hst & Hget & _). exists st. auto.
Defined.

(** X15 on the three sample projects: the clone of [lvgl]. *)
Lemma run_commands_are_fetches_witness :
  exists m ps rs pc r u,
    ManifestDoc sample_manifest = ManifestDoc m /\ projects m = Some ps
    /\ remotes m = Some rs /\ In pc ps
    /\ is_project_required pc "ststm32" = Ret true
    /\ str_in (name pc) IGNORED_PACKAGES = false
    /\ revision pc = Some r
    /\ prepare_package_url (remotes_dict rs)
         (match defaults_remote m with Some d => d | None => EmptyString end) pc
       = Ret u
    /\ ((@None string = None
         /\ ["git"; "clone"; "--branch"; "v8.2.0"; "--depth"; "1";
             "https://github.com/zephyrproject-rtos/lvgl.git";
             "/fw/_pio/modules/lib/gui/lvgl"]
            = ["git"; "clone"]
              ++ (if is_commit_hash r then [] else ["--branch"; r; "--depth"; "1"])
              ++ (match submodules pc with
                  | Some true => ["--recursive"]
                  | _ => []
                  end)
              ++ [u; to_unix_path
                       (package_path (packages_folder (sample_env git_always)) pc)])
        \/ (is_commit_hash r = true
            /\ @None string = Some (to_unix_path
                              (package_path (packages_folder (sample_env git_always)) pc))
            /\ ["git"; "clone"; "--branch"; "v8.2.0"; "--depth"; "1";
                "https://github.com/zephyrproject-rtos/lvgl.git";
                "/fw/_pio/modules/lib/gui/lvgl"]
               = ["git"; "reset"; "--hard"; r])).
Proof.
  apply (run_commands_are_fetches (sample_env git_always) "ststm32" false
           (ManifestDoc sample_manifest) fresh_world
           ["git"; "clone"; "--branch"; "v8.2.0"; "--depth"; "1";
            "https://github.com/zephyrproject-rtos/lvgl.git";
            "/fw/_pio/modules/lib/gui/lvgl"] None true).
  in_list.
Defined.

(** X16 on the three sample projects: [cmsis] is cloned once, and nothing
    is cloned into the framework directory, which is there. *)
Lemma no_destination_cloned_twice_witness :
  clones_into "/fw/_pio/modules/hal/cmsis"
    (new_events fresh_world
       (snd (script (sample_env git_always) "ststm32" false
               (ManifestDoc sample_manifest) fresh_world))) <= 1
  /\ clones_into "/fw"
       (new_events fresh_world
          (snd (script (sample_env git_always) "ststm32" false
                  (ManifestDoc sample_manifest) fresh_world))) = 0.
Proof.
  split.
  - apply (no_destination_cloned_twice (sample_env git_always) "ststm32" false
             (ManifestDoc sample_manifest) fresh_world "/fw/_pio/modules/hal/cmsis").
  - apply (no_destination_cloned_twice (sample_env git_always) "ststm32" false
             (ManifestDoc sample_manifest) fresh_world "/fw"); reflexivity.
Defined.

(** X17: without a default remote nothing is fetched, though the project
    names a remote of the registry. *)
Lemma no_default_remote_no_fetch_witness :
  commands
    (new_events fresh_world
       (snd (script (sample_env git_always) "ststm32" false
               (ManifestDoc no_default_manifest) fresh_world))) = [].
Proof.
  apply (no_default_remote_no_fetch (sample_env git_always) "ststm32" false
           no_default_manifest fresh_world).
  - intros rs Hrs. injection Hrs as <-. reflexivity.
  - intros ps pc Hps Hin. injection Hps as <-.
    destruct Hin as [<-|[]]. reflexivity.
Defined.

(** X18: no git client. *)
Lemma preflight_failure_witness :
  fst (script no_git_env "ststm32" false (ManifestDoc sample_manifest) fresh_world)
  = Exit 1
  /\ dirs (snd (script no_git_env "ststm32" false (ManifestDoc sample_manifest)
                  fresh_world)) = dirs fresh_world.
Proof.
  destruct (preflight_failure no_git_env "ststm32" false (ManifestDoc sample_manifest)
              fresh_world (or_introl eq_refl) (or_introl eq_refl))
    as (Hexit & Hdirs & _).
  split; assumption.
Defined.

(** X19 on a run whose clone of [lvgl] fails: status 1, with a message. *)
Lemma exit_status_and_messages_witness :
  existsb is_stderr
    (new_events fresh_world
       (snd (script (sample_env (git_fails_on "https://github.com/zephyrproject-rtos/lvgl.git"))
               "ststm32" false (ManifestDoc sample_manifest) fresh_world))) = true
  /\ no_failed_run
       (new_events fresh_world
          (snd (script (sample_env git_always) "ststm32" false
                  (ManifestDoc sample_manifest) fresh_world))) = true.
Proof.
  split.
  - apply (proj1 (proj2 (exit_status_and_messages
                           (sample_env (git_fails_on "https://github.com/zephyrproject-rtos/lvgl.git"))
                           "ststm32" false (ManifestDoc sample_manifest) fresh_world))).
    reflexivity.
  - apply (proj2 (proj2 (exit_status_and_messages (sample_env git_always)
                           "ststm32" false (ManifestDoc sample_manifest) fresh_world))).
    reflexivity.
Defined.

(** X20: a required project without revision makes [main] raise; the
    package folder that was made stays. *)
Lemma exception_leaves_packages_witness :
  fst (script (sample_env git_always) "ststm32" false
         (ManifestDoc missing_revision_manifest) fresh_world) = Exit 1
  /\ has_dir ["fw"; "_pio"]
       (dirs (snd (script (sample_env git_always) "ststm32" false
                     (ManifestDoc missing_revision_manifest) fresh_world))) = true
  /\ state_json (snd (script (sample_env git_always) "ststm32" false
                        (ManifestDoc missing_revision_manifest) fresh_world)) = None.
Proof.
  destruct (exception_leaves_packages (sample_env git_always) "ststm32" false
              (ManifestDoc missing_revision_manifest) fresh_world
              (AssertionError "Missing project revision!") eq_refl eq_refl)
    as (Hexit & _ & Hstate & _ & Hpf).
  split; [exact Hexit|]. split; [|exact Hstate].
  exact (Hpf missing_revision_manifest _ eq_refl eq_refl).
Defined.

(** X21: the package directory of [cmsis] is there before the first run;
    nothing is cloned into it and [cmsis] is recorded. *)
Lemma existing_directory_is_trusted_witness :
  clones_into "/fw/_pio/modules/hal/cmsis"
    (new_events
       {| dirs := dirs drift_world; state_json := None; events := [] |}
       (snd (script (sample_env git_always) "ststm32" false
               (ManifestDoc sample_manifest)
               {| dirs := dirs drift_world; state_json := None; events := [] |})))
  = 0
  /\ exists st,
       state_json
         (snd (script (sample_env git_always) "ststm32" false
                 (ManifestDoc sample_manifest)
                 {| dirs := dirs drift_world; state_json := None; events := [] |}))
       = Some st
       /\ dict_get "cmsis" st = Some "0123456789abcdef".
Proof.
  destruct (existing_directory_is_trusted (sample_env git_always) "ststm32" false
              sample_manifest
              {| dirs := dirs drift_world; state_json := None; events := [] |}
              _ _ (mk_project "cmsis" (Some "modules/hal/cmsis") (Some "0123456789abcdef"))
              eq_refl (surjective_pairing _) eq_refl eq_refl (or_introl eq_refl)
              eq_refl eq_refl)
    as [Hclones Hrec].
  split; [exact Hclones|].
  destruct (Hrec eq_refl) as (st & Hst & Hget & _). exists st. auto.
Defined.

(** X22: the record saved by the run over the three sample projects shows
    no drift. *)
Lemma saved_state_shows_no_drift_witness :
  exists ps,
    projects sample_manifest = Some ps
    /\ modified_entries (dict_of name ps)
         [("cmsis", "0123456789abcdef"); ("lvgl", "v8.2.0"); ("mbedtls", "main")]
       = [].
Proof.
  apply (saved_state_shows_no_drift (sample_env git_always) "ststm32" false
           sample_manifest fresh_world "/fw/_pio/state.json"
           [("cmsis", "0123456789abcdef"); ("lvgl", "v8.2.0"); ("mbedtls", "main")]).
  - in_list.
  - reflexivity.
Defined.

(** X23 on the three sample projects: a forced second run leaves the
    directories as they are. *)
Lemma rerun_changes_no_directory_witness :
  dirs (snd (main (sample_env git_always) "ststm32" true (ManifestDoc sample_manifest)
               (snd (main (sample_env git_always) "ststm32" false
                       (ManifestDoc sample_manifest) fresh_world))))
  = dirs (snd (main (sample_env git_always) "ststm32" false
                 (ManifestDoc sample_manifest) fresh_world)).
Proof.
  apply (rerun_changes_no_directory (sample_env git_always) "ststm32" false true
           sample_manifest fresh_world "/fw/_pio/state.json"
           [("cmsis", "0123456789abcdef"); ("lvgl", "v8.2.0"); ("mbedtls", "main")]).
  - in_list.
  - reflexivity.
  - reflexivity.
Defined.

(** X24 on the three sample projects: the quiet run and the verbose run
    from the same start agree on everything but what is printed. *)
Lemma verbose_changes_only_prints_witness :
  fst (script (with_verbose false (sample_env git_always)) "ststm32" false
         (ManifestDoc sample_manifest) fresh_world)
  = fst (script (with_verbose true (sample_env git_always)) "ststm32" false
           (ManifestDoc sample_manifest) fresh_world)
  /\ alike
       (snd (script (with_verbose false (sample_env git_always)) "ststm32" false
               (ManifestDoc sample_manifest) fresh_world))
       (snd (script (with_verbose true (sample_env git_always)) "ststm32" false
               (ManifestDoc sample_manifest) fresh_world)).
Proof.
  apply (verbose_changes_only_prints (sample_env git_always) false true).
  - intros; reflexivity.
  - intros; reflexivity.
  - repeat split.
Defined.
